(** * Tudat simulation set-up: observation-model factory and
      environment-update resolver

    A shallow embedding of
    [Tudat/SimulationSetup/PropagationSetup/createEnvironmentUpdater.cpp] and
    [Tudat/SimulationSetup/EstimationSetup/createObservationModel.h].

    Conventions of the embedding:
    - a [std::map] is a [gmap]; a [std::vector] is a [list];
    - a loop over a map whose keys are strings, enumerators or link ends
      visits the entries in the order of [map_to_list] (the order of the C++ iterator
      depends on declarations outside the two files); a loop over link ends,
      where the code pairs neighbours, visits them by ascending key
      ([std_map_items]);
    - a [boost::shared_ptr] that the code compares with [NULL] is an [option];
    - a call that can throw returns a [result]: [Ok] for a normal return,
      [Throw] for an exception (classified by the error kinds of the design
      document, section 7), [NullDereference] for [operator->] on an empty
      [shared_ptr];
    - objects of classes that are defined elsewhere in Tudat and that the code
      only tests for presence or passes on are [object]s. *)

From Stdlib Require Import ZArith Lia.
From stdpp Require Import gmap strings list fin_maps sorting.

Set Warnings "-register-all,-clear-no-such-hyp".

(** ** Outcomes of a call *)

(** The code throws [std::runtime_error] with a message; an [Error] is the
    kind of the failure the message reports.  [OutOfRange] is the
    [std::out_of_range] of [std::map::at] and [std::vector::at]. *)
Inductive Error :=
| InvalidSettings
| InvalidLinkEndTopology
| DimensionMismatch
| MissingEnvironmentModel
| UnrecognizedType
| Unsupported
| OutOfRange.

Inductive result (A : Type) :=
| Ok (a : A)
| Throw (e : Error)
| NullDereference.
Arguments Ok {A} a.
Arguments Throw {A} e.
Arguments NullDereference {A}.

#[global] Instance result_ret : MRet result := @Ok.
#[global] Instance result_bind : MBind result := λ A B f x,
  match x with
  | Ok a => f a
  | Throw e => Throw e
  | NullDereference => NullDereference
  end.

(** A [for] loop whose body can throw: the first failure ends the loop. *)
Fixpoint for_each {A} (body : A → result unit) (l : list A) : result unit :=
  match l with
  | [] => Ok tt
  | x :: l' => body x ≫= λ _, for_each body l'
  end.

(** A loop that threads an accumulator through a body that can throw. *)
Fixpoint fold_result {A S} (body : S → A → result S) (s : S) (l : list A) : result S :=
  match l with
  | [] => Ok s
  | x :: l' => body s x ≫= λ s', fold_result body s' l'
  end.

(** An instance of a class defined outside the two translation units. *)
Inductive object := Object (address : positive).

(** ** The environment: [simulation_setup::NamedBodyMap] *)

(** What the two [dynamic_pointer_cast]s applied to a gravity field model
    return. *)
Record GravityFieldModel := {
  isSphericalHarmonicsGravityField : bool;
  isTimeDependentSphericalHarmonicsGravityField : bool
}.

Record Body := {
  getEphemeris : option object;
  getRotationalEphemeris : option object;
  getDependentOrientationCalculator : option object;
  getGravityFieldModel : option GravityFieldModel;
  getFlightConditions : option object;
  getRadiationPressureInterfaces : gmap string object;
  getBodyMassFunction : option object
}.

Abbreviation NamedBodyMap := (gmap string Body).

(** ** [propagators::EnvironmentModelsToUpdate]

    The six constructors that carry a name are the six [case] labels of the
    [switch] in [checkValidityOfRequiredEnvironmentUpdates] (a [switch] cannot
    have two labels of one value).  [environment_model_other] is any further
    value of the enumeration type. *)
Inductive EnvironmentModelsToUpdate :=
| body_transational_state_update
| body_rotational_state_update
| body_mass_update
| vehicle_flight_conditions_update
| radiation_pressure_interface_update
| spherical_harmonic_gravity_field_update
| environment_model_other (value : Z).

#[global] Instance EnvironmentModelsToUpdate_eq_dec : EqDecision EnvironmentModelsToUpdate.
Proof. solve_decision. Defined.

Definition EnvironmentModelsToUpdate_code (e : EnvironmentModelsToUpdate) : nat + Z :=
  match e with
  | body_transational_state_update => inl 0
  | body_rotational_state_update => inl 1
  | body_mass_update => inl 2
  | vehicle_flight_conditions_update => inl 3
  | radiation_pressure_interface_update => inl 4
  | spherical_harmonic_gravity_field_update => inl 5
  | environment_model_other z => inr z
  end.

Definition EnvironmentModelsToUpdate_decode (c : nat + Z) : EnvironmentModelsToUpdate :=
  match c with
  | inl 0 => body_transational_state_update
  | inl 1 => body_rotational_state_update
  | inl 2 => body_mass_update
  | inl 3 => vehicle_flight_conditions_update
  | inl 4 => radiation_pressure_interface_update
  | inl _ => spherical_harmonic_gravity_field_update
  | inr z => environment_model_other z
  end.

Lemma EnvironmentModelsToUpdate_decode_code e :
  EnvironmentModelsToUpdate_decode (EnvironmentModelsToUpdate_code e) = e.
Proof. by destruct e. Qed.

#[global] Instance EnvironmentModelsToUpdate_countable : Countable EnvironmentModelsToUpdate :=
  inj_countable' EnvironmentModelsToUpdate_code EnvironmentModelsToUpdate_decode
    EnvironmentModelsToUpdate_decode_code.

Abbreviation EnvironmentUpdates := (gmap EnvironmentModelsToUpdate (list string)).

(** [updates[ facet ].push_back( name )]: [operator[]] creates the entry when
    it is absent. *)
Definition push_back_at (facet : EnvironmentModelsToUpdate) (name : string)
    (updates : EnvironmentUpdates) : EnvironmentUpdates :=
  <[facet := default [] (updates !! facet) ++ [name]]> updates.

(** ** [checkValidityOfRequiredEnvironmentUpdates] *)

(** The body of the inner loop, for the entry [name] of the list of [facet]. *)
Definition checkRequiredEnvironmentUpdate (bodyMap : NamedBodyMap)
    (facet : EnvironmentModelsToUpdate) (name : string) : result unit :=
  if bool_decide (name ≠ ""%string) then
    match bodyMap !! name with
    | None => Throw MissingEnvironmentModel
    | Some body =>
        match facet with
        | body_transational_state_update =>
            match getEphemeris body with
            | None => Throw MissingEnvironmentModel
            | Some _ => Ok tt
            end
        | body_rotational_state_update =>
            match getRotationalEphemeris body, getDependentOrientationCalculator body with
            | None, None => Throw MissingEnvironmentModel
            | _, _ => Ok tt
            end
        | spherical_harmonic_gravity_field_update =>
            match getGravityFieldModel body with
            | Some field =>
                if isSphericalHarmonicsGravityField field then Ok tt
                else Throw MissingEnvironmentModel
            | None => Throw MissingEnvironmentModel
            end
        | vehicle_flight_conditions_update =>
            match getFlightConditions body with
            | None => Throw MissingEnvironmentModel
            | Some _ => Ok tt
            end
        | radiation_pressure_interface_update =>
            if bool_decide (size (getRadiationPressureInterfaces body) = 0)
            then Throw MissingEnvironmentModel
            else Ok tt
        | body_mass_update =>
            match getBodyMassFunction body with
            | None => Throw MissingEnvironmentModel
            | Some _ => Ok tt
            end
        | environment_model_other _ => Ok tt
        end
    end
  else Ok tt.

(** The loops run over the entries of the map and, for each, over its list of
    body names. *)
Definition checkValidityOfRequiredEnvironmentUpdates
    (requestedUpdates : EnvironmentUpdates) (bodyMap : NamedBodyMap) : result unit :=
  for_each (λ update : EnvironmentModelsToUpdate * list string,
              for_each (checkRequiredEnvironmentUpdate bodyMap update.1) update.2)
           (map_to_list requestedUpdates).

(** [std::map::count]. *)
Definition count `{Countable K} {A} (m : gmap K A) (k : K) : nat :=
  match m !! k with
  | Some _ => 1
  | None => 0
  end.

(** ** [addEnvironmentUpdates] *)

(** Modelled from the spec: [addEnvironmentUpdates] is called here but defined
    in another translation unit.  Section 4.6 of the design document: "for
    every facet in [from], appends its body list to [into]'s (creating the
    facet entry if absent); never removes entries; [...] duplicates are NOT
    removed by this step". *)
Definition addEnvironmentUpdates (environmentUpdateList updatesToAdd : EnvironmentUpdates)
    : EnvironmentUpdates :=
  union_with (λ present added, Some (present ++ added)) environmentUpdateList updatesToAdd.

(** ** [propagators::IntegratedStateType]

    The four named constructors are the [case] labels of the [switch] in
    [removePropagatedStatesFomEnvironmentUpdates]; every other value of the
    enumeration type takes its [default] branch. *)
Inductive IntegratedStateType :=
| translational_state
| rotational_state
| body_mass_state
| custom_state
| integrated_state_other (value : Z).

#[global] Instance IntegratedStateType_eq_dec : EqDecision IntegratedStateType.
Proof. solve_decision. Defined.

Definition IntegratedStateType_code (t : IntegratedStateType) : nat + Z :=
  match t with
  | translational_state => inl 0
  | rotational_state => inl 1
  | body_mass_state => inl 2
  | custom_state => inl 3
  | integrated_state_other z => inr z
  end.

Definition IntegratedStateType_decode (c : nat + Z) : IntegratedStateType :=
  match c with
  | inl 0 => translational_state
  | inl 1 => rotational_state
  | inl 2 => body_mass_state
  | inl _ => custom_state
  | inr z => integrated_state_other z
  end.

Lemma IntegratedStateType_decode_code t :
  IntegratedStateType_decode (IntegratedStateType_code t) = t.
Proof. by destruct t. Qed.

#[global] Instance IntegratedStateType_countable : Countable IntegratedStateType :=
  inj_countable' IntegratedStateType_code IntegratedStateType_decode
    IntegratedStateType_decode_code.

Abbreviation IntegratedStateList := (gmap IntegratedStateType (list (string * string))).

(** [bodiesToUpdate.erase( std::find( begin, end, name ) )] when the name is
    found: the first element equal to [name] goes. *)
Fixpoint erase_first (name : string) (bodiesToUpdate : list string) : list string :=
  match bodiesToUpdate with
  | [] => []
  | body :: rest =>
      if decide (body = name) then rest else body :: erase_first name rest
  end.

(** ** Torque models *)

Inductive AvailableTorque :=
| second_order_gravitational_torque
| aerodynamic_torque
| torque_other (value : Z).

(** A torque model is read through [getTorqueModelType] only. *)
Record TorqueModel := { getTorqueModelType : AvailableTorque }.

Abbreviation TorqueModelMap := (gmap string (gmap string (list TorqueModel))).

(** The [switch] on the type of one torque model.  In the [default] branch the
    code writes a line to [std::cerr] and leaves the [switch] with [break]. *)
Definition torqueUpdateNeeds (acceleratedBody exertingBody : string)
    (singleTorqueUpdateNeeds : EnvironmentUpdates) (torque : TorqueModel)
    : EnvironmentUpdates :=
  match getTorqueModelType torque with
  | second_order_gravitational_torque => singleTorqueUpdateNeeds
  | aerodynamic_torque =>
      push_back_at vehicle_flight_conditions_update acceleratedBody
        (push_back_at body_rotational_state_update exertingBody singleTorqueUpdateNeeds)
  | torque_other _ => singleTorqueUpdateNeeds
  end.

Definition createRotationalEquationsOfMotionEnvironmentUpdaterSettings
    (torqueModels : TorqueModelMap) (bodyMap : NamedBodyMap) : result EnvironmentUpdates :=
  fold_result
    (λ environmentModelsToUpdate (accelerated : string * gmap string (list TorqueModel)),
       fold_result
         (λ environmentModelsToUpdate (exerting : string * list TorqueModel),
            let singleTorqueUpdateNeeds :=
              foldl (torqueUpdateNeeds accelerated.1 exerting.1) ∅ exerting.2 in
            checkValidityOfRequiredEnvironmentUpdates singleTorqueUpdateNeeds bodyMap ≫= λ _,
            Ok (addEnvironmentUpdates environmentModelsToUpdate singleTorqueUpdateNeeds))
         environmentModelsToUpdate (map_to_list accelerated.2))
    ∅ (map_to_list torqueModels).

(** ** Acceleration models *)

Inductive AvailableAcceleration :=
| central_gravity
| third_body_central_gravity
| aerodynamic
| cannon_ball_radiation_pressure
| spherical_harmonic_gravity
| mutual_spherical_harmonic_gravity
| third_body_spherical_harmonic_gravity
| third_body_mutual_spherical_harmonic_gravity
| thrust_acceleration
| relativistic_correction_acceleration
| direct_tidal_dissipation_acceleration
| empirical_acceleration
| acceleration_other (value : Z).

(** The classes to which the code casts an acceleration model, with what it
    reads from each. *)
Inductive AccelerationModelClass :=
| ThirdBodyCentralGravityAcceleration (getCentralBodyName : string)
| ThirdBodySphericalHarmonicsGravitationalAccelerationModel (getCentralBodyName : string)
| ThirdBodyMutualSphericalHarmonicsGravitationalAccelerationModel (getCentralBodyName : string)
| ThrustAcceleration (getRequiredModelUpdates : EnvironmentUpdates)
| RelativisticAccelerationCorrection (getCalculateDeSitterCorrection : bool)
                                     (getPrimaryBodyName : string)
| AccelerationModelOfOtherClass.

(** An acceleration model: the type [getAccelerationModelType] reports for
    it, and its dynamic class. *)
Record AccelerationModel := {
  getAccelerationModelType : AvailableAcceleration;
  accelerationModelClass : AccelerationModelClass
}.

Abbreviation AccelerationMap := (gmap string (gmap string (list AccelerationModel))).

(** The body of the innermost loop of
    [createTranslationalEquationsOfMotionEnvironmentUpdaterSettings]. *)
Definition accelerationUpdateNeeds (translationalAccelerationModels : AccelerationMap)
    (acceleratedBody exertingBody : string)
    (singleAccelerationUpdateNeeds : EnvironmentUpdates) (model : AccelerationModel)
    : result EnvironmentUpdates :=
  let needs :=
    if Nat.eqb (count translationalAccelerationModels exertingBody) 0
    then push_back_at body_transational_state_update exertingBody singleAccelerationUpdateNeeds
    else singleAccelerationUpdateNeeds in
  match getAccelerationModelType model with
  | central_gravity => Ok needs
  | third_body_central_gravity =>
      match accelerationModelClass model with
      | ThirdBodyCentralGravityAcceleration centralBodyName =>
          if Nat.eqb (count translationalAccelerationModels centralBodyName) 0
          then Ok (push_back_at body_transational_state_update centralBodyName needs)
          else Ok needs
      | _ => Throw InvalidSettings
      end
  | aerodynamic =>
      Ok (push_back_at body_mass_update acceleratedBody
            (push_back_at vehicle_flight_conditions_update acceleratedBody
               (push_back_at body_rotational_state_update exertingBody needs)))
  | cannon_ball_radiation_pressure =>
      Ok (push_back_at body_mass_update acceleratedBody
            (push_back_at radiation_pressure_interface_update acceleratedBody needs))
  | spherical_harmonic_gravity =>
      Ok (push_back_at spherical_harmonic_gravity_field_update exertingBody
            (push_back_at body_rotational_state_update exertingBody needs))
  | mutual_spherical_harmonic_gravity =>
      Ok (push_back_at spherical_harmonic_gravity_field_update acceleratedBody
            (push_back_at body_rotational_state_update acceleratedBody
               (push_back_at spherical_harmonic_gravity_field_update exertingBody
                  (push_back_at body_rotational_state_update exertingBody needs))))
  | third_body_spherical_harmonic_gravity =>
      let needs :=
        push_back_at spherical_harmonic_gravity_field_update exertingBody
          (push_back_at body_rotational_state_update exertingBody needs) in
      match accelerationModelClass model with
      | ThirdBodySphericalHarmonicsGravitationalAccelerationModel centralBodyName =>
          if Nat.eqb (count translationalAccelerationModels centralBodyName) 0
          then Ok (push_back_at body_transational_state_update centralBodyName needs)
          else Ok needs
      | _ => Throw InvalidSettings
      end
  | third_body_mutual_spherical_harmonic_gravity =>
      let needs :=
        push_back_at spherical_harmonic_gravity_field_update acceleratedBody
          (push_back_at body_rotational_state_update acceleratedBody
             (push_back_at spherical_harmonic_gravity_field_update exertingBody
                (push_back_at body_rotational_state_update exertingBody needs))) in
      match accelerationModelClass model with
      | ThirdBodyMutualSphericalHarmonicsGravitationalAccelerationModel centralBodyName =>
          if Nat.eqb (count translationalAccelerationModels centralBodyName) 0
          then Ok (push_back_at spherical_harmonic_gravity_field_update centralBodyName
                     (push_back_at body_rotational_state_update centralBodyName
                        (push_back_at body_transational_state_update centralBodyName needs)))
          else Ok needs
      | _ => Throw InvalidSettings
      end
  | thrust_acceleration =>
      match accelerationModelClass model with
      | ThrustAcceleration thrustModelUpdates =>
          Ok (push_back_at body_mass_update acceleratedBody
                (addEnvironmentUpdates needs thrustModelUpdates))
      | _ => NullDereference
      end
  | relativistic_correction_acceleration =>
      match accelerationModelClass model with
      | RelativisticAccelerationCorrection calculateDeSitterCorrection primaryBody =>
          if calculateDeSitterCorrection
          then if Nat.eqb (count translationalAccelerationModels primaryBody) 0
               then Ok (push_back_at body_transational_state_update primaryBody needs)
               else Ok needs
          else Ok needs
      | _ => NullDereference
      end
  | direct_tidal_dissipation_acceleration =>
      Ok (push_back_at spherical_harmonic_gravity_field_update exertingBody
            (push_back_at body_rotational_state_update exertingBody needs))
  | empirical_acceleration => Ok needs
  | acceleration_other _ => Throw UnrecognizedType
  end.

Definition createTranslationalEquationsOfMotionEnvironmentUpdaterSettings
    (translationalAccelerationModels : AccelerationMap) (bodyMap : NamedBodyMap)
    : result EnvironmentUpdates :=
  fold_result
    (λ environmentModelsToUpdate (accelerated : string * gmap string (list AccelerationModel)),
       fold_result
         (λ environmentModelsToUpdate (exerting : string * list AccelerationModel),
            fold_result
              (accelerationUpdateNeeds translationalAccelerationModels accelerated.1 exerting.1)
              ∅ exerting.2 ≫= λ singleAccelerationUpdateNeeds,
            checkValidityOfRequiredEnvironmentUpdates singleAccelerationUpdateNeeds bodyMap ≫= λ _,
            Ok (addEnvironmentUpdates environmentModelsToUpdate singleAccelerationUpdateNeeds))
         environmentModelsToUpdate (map_to_list accelerated.2))
    ∅ (map_to_list translationalAccelerationModels).

(** ** [createFullEnvironmentUpdaterSettings] *)

(** What the body of the loop collects for one body of the environment. *)
Definition fullUpdateNeeds (name : string) (body : Body) : EnvironmentUpdates :=
  let needs : EnvironmentUpdates := ∅ in
  let needs :=
    match getFlightConditions body with
    | Some _ => push_back_at vehicle_flight_conditions_update name needs
    | None => needs
    end in
  let needs :=
    foldl (λ needs (interface : string * object),
             push_back_at radiation_pressure_interface_update name needs)
          needs (map_to_list (getRadiationPressureInterfaces body)) in
  let needs :=
    match getRotationalEphemeris body, getDependentOrientationCalculator body with
    | None, None => needs
    | _, _ => push_back_at body_rotational_state_update name needs
    end in
  let needs :=
    match getGravityFieldModel body with
    | Some field =>
        if isTimeDependentSphericalHarmonicsGravityField field
        then push_back_at spherical_harmonic_gravity_field_update name needs
        else needs
    | None => needs
    end in
  push_back_at body_mass_update name needs.

Definition createFullEnvironmentUpdaterSettings (bodyMap : NamedBodyMap)
    : result EnvironmentUpdates :=
  fold_result
    (λ environmentModelsToUpdate (entry : string * Body),
       let singleAccelerationUpdateNeeds := fullUpdateNeeds entry.1 entry.2 in
       checkValidityOfRequiredEnvironmentUpdates singleAccelerationUpdateNeeds bodyMap ≫= λ _,
       Ok (addEnvironmentUpdates environmentModelsToUpdate singleAccelerationUpdateNeeds))
    ∅ (map_to_list bodyMap).

(** * Definitions that depend on declarations outside the two files *)

Section Tudat.

Set Default Proof Using "Type".

(** [body_translational_state_update] is named by
    [removePropagatedStatesFomEnvironmentUpdates] (and by the table of the
    dependent variables); it is no [case] label of the [switch] above.  The
    declaration of the enumeration is in a header that is not part of the
    tree, so the value is a parameter: it may be the value of
    [body_transational_state_update] or another one. *)
Variable body_translational_state_update : EnvironmentModelsToUpdate.

(** ** [removePropagatedStatesFomEnvironmentUpdates] *)

(** One [case] of the [switch], for the list of [facet] and the propagated
    body [name]. *)
Definition removePropagatedBody (facet : EnvironmentModelsToUpdate) (name : string)
    (environmentModelsToUpdate : EnvironmentUpdates) : EnvironmentUpdates :=
  if Nat.ltb 0 (count environmentModelsToUpdate facet) then
    let bodiesToUpdate := default [] (environmentModelsToUpdate !! facet) in
    if bool_decide (name ∈ bodiesToUpdate)
    then <[facet := erase_first name bodiesToUpdate]> environmentModelsToUpdate
    else environmentModelsToUpdate
  else environmentModelsToUpdate.

Definition removePropagatedState (stateType : IntegratedStateType)
    (environmentModelsToUpdate : EnvironmentUpdates) (propagated : string * string)
    : result EnvironmentUpdates :=
  match stateType with
  | translational_state =>
      Ok (removePropagatedBody body_translational_state_update propagated.1
            environmentModelsToUpdate)
  | rotational_state =>
      Ok (removePropagatedBody body_rotational_state_update propagated.1
            environmentModelsToUpdate)
  | body_mass_state =>
      Ok (removePropagatedBody body_mass_update propagated.1 environmentModelsToUpdate)
  | custom_state => Ok environmentModelsToUpdate
  | integrated_state_other _ => Throw UnrecognizedType
  end.

(** The function changes its first argument in place, so that a call has two
    results: the map as the call leaves it, also when it throws, and the
    outcome. *)

(** The inner loop, over the propagated bodies of one state type. *)
Fixpoint removePropagatedStatesOfType (stateType : IntegratedStateType)
    (environmentModelsToUpdate : EnvironmentUpdates) (propagatedBodies : list (string * string))
    : EnvironmentUpdates * result unit :=
  match propagatedBodies with
  | [] => (environmentModelsToUpdate, Ok tt)
  | propagated :: rest =>
      match removePropagatedState stateType environmentModelsToUpdate propagated with
      | Ok updated => removePropagatedStatesOfType stateType updated rest
      | Throw e => (environmentModelsToUpdate, Throw e)
      | NullDereference => (environmentModelsToUpdate, NullDereference)
      end
  end.

(** The outer loop, over a sequence of entries of the list of propagated
    states. *)
Fixpoint removePropagatedStatesOfEntries (environmentModelsToUpdate : EnvironmentUpdates)
    (entries : list (IntegratedStateType * list (string * string)))
    : EnvironmentUpdates * result unit :=
  match entries with
  | [] => (environmentModelsToUpdate, Ok tt)
  | entry :: rest =>
      match removePropagatedStatesOfType entry.1 environmentModelsToUpdate entry.2 with
      | (updated, Ok _) => removePropagatedStatesOfEntries updated rest
      | failed => failed
      end
  end.

Definition removePropagatedStatesFomEnvironmentUpdates
    (environmentModelsToUpdate : EnvironmentUpdates)
    (integratedStateList : IntegratedStateList) : EnvironmentUpdates * result unit :=
  removePropagatedStatesOfEntries environmentModelsToUpdate (map_to_list integratedStateList).

(** * Observation models *)

(** ** Link ends *)

(** [LinkEndType] is an enumeration on whose underlying integers the n-way
    range check computes; its enumerators are parameters. *)
Abbreviation LinkEndType := Z.
Variables transmitter receiver reflector1 unidentified_link_end : LinkEndType.

Abbreviation LinkEndId := (string * string)%type.
Abbreviation LinkEnds := (gmap LinkEndType LinkEndId).

Definition key_le {A} (x y : Z * A) : Prop := (x.1 ≤ y.1)%Z.

#[global] Instance key_le_dec {A} (x y : Z * A) : Decision (key_le x y).
Proof. unfold key_le. apply _. Defined.

(** The entries of a [std::map] with integer keys, in the order in which an
    iterator visits them. *)
Definition std_map_items {A} (m : gmap Z A) : list (Z * A) :=
  merge_sort key_le (map_to_list m).

(** ** Settings *)

(** [double] values are carried around, never computed with. *)
Variable double : Type.

Inductive ObservableType :=
| one_way_range
| one_way_doppler
| two_way_doppler
| one_way_differenced_range
| n_way_range
| observable_other (value : Z).

Inductive ObservationBiasTypes :=
| constant_absolute_bias
| arc_wise_constant_absolute_bias
| constant_relative_bias
| arc_wise_constant_relative_bias
| multiple_observation_biases
| bias_other (value : Z).

(** An [ObservationBiasSettings] object: the field of the base class, which
    any code may assign, and the fields of its dynamic class. *)
Inductive ObservationBiasSettings :=
| ObservationBiasSettingsOnly (observationBiasType_ : ObservationBiasTypes)
| MultipleObservationBiasSettings (observationBiasType_ : ObservationBiasTypes)
    (biasSettingsList_ : list (option ObservationBiasSettings))
| ConstantObservationBiasSettings (observationBiasType_ : ObservationBiasTypes)
    (observationBias_ : list double) (useAbsoluteBias_ : bool)
| ArcWiseConstantObservationBiasSettings (observationBiasType_ : ObservationBiasTypes)
    (arcStartTimes_ : list double) (observationBiases_ : list (list double))
    (linkEndForTime_ : LinkEndType) (useAbsoluteBias_ : bool).

Definition observationBiasType_ (biasSettings : ObservationBiasSettings) : ObservationBiasTypes :=
  match biasSettings with
  | ObservationBiasSettingsOnly t
  | MultipleObservationBiasSettings t _
  | ConstantObservationBiasSettings t _ _
  | ArcWiseConstantObservationBiasSettings t _ _ _ _ => t
  end.

Inductive DopplerProperTimeRateType :=
| custom_doppler_proper_time_rate
| direct_first_order_doppler_proper_time_rate.

Inductive DopplerProperTimeRateSettings :=
| DopplerProperTimeRateSettingsOnly (dopplerProperTimeRateType_ : DopplerProperTimeRateType)
| DirectFirstOrderDopplerProperTimeRateSettings
    (dopplerProperTimeRateType_ : DopplerProperTimeRateType) (centralBodyName_ : string).

Definition dopplerProperTimeRateType_ (settings : DopplerProperTimeRateSettings)
    : DopplerProperTimeRateType :=
  match settings with
  | DopplerProperTimeRateSettingsOnly t
  | DirectFirstOrderDopplerProperTimeRateSettings t _ => t
  end.

(** The fields of the base class [ObservationSettings]. *)
Record ObservationSettingsFields := {
  fields_observableType_ : ObservableType;
  fields_lightTimeCorrectionsList_ : list object;
  fields_biasSettings_ : option ObservationBiasSettings
}.

(** A [OneWayDopplerObservationSettings] object, as the two-way settings
    point to it. *)
Record OneWayDopplerObservationSettingsObject := {
  oneWayDoppler_fields : ObservationSettingsFields;
  oneWayDoppler_transmitterProperTimeRateSettings_ : option DopplerProperTimeRateSettings;
  oneWayDoppler_receiverProperTimeRateSettings_ : option DopplerProperTimeRateSettings
}.

(** The dynamic class of a settings object, with the fields the class adds. *)
Inductive ObservationSettingsClass :=
| ObservationSettingsOnly
| OneWayDopplerObservationSettings
    (transmitterProperTimeRateSettings_ receiverProperTimeRateSettings_
       : option DopplerProperTimeRateSettings)
| TwoWayDopplerObservationSettings
    (uplinkOneWayDopplerSettings_ downlinkOneWayDopplerSettings_
       : option OneWayDopplerObservationSettingsObject)
| OneWayDifferencedRangeRateObservationSettings
    (integrationTimeFunction_ : option (double → double))
| NWayRangeObservationSettings
    (oneWayRangeObsevationSettings_ : list (option ObservationSettingsFields))
    (retransmissionTimesFunction_ : option (double → list double)).

Record ObservationSettings := {
  observableType_ : ObservableType;
  lightTimeCorrectionsList_ : list object;
  biasSettings_ : option ObservationBiasSettings;
  settingsClass : ObservationSettingsClass
}.

(** [boost::make_shared< ObservationSettings >( type, corrections )]. *)
Definition make_ObservationSettings (observableType : ObservableType)
    (lightTimeCorrectionsList : list object) : ObservationSettings :=
  {| observableType_ := observableType;
     lightTimeCorrectionsList_ := lightTimeCorrectionsList;
     biasSettings_ := None;
     settingsClass := ObservationSettingsOnly |}.

(** A pointer to a one-way Doppler settings object, passed as a pointer to
    [ObservationSettings]. *)
Definition upcast (settings : OneWayDopplerObservationSettingsObject) : ObservationSettings :=
  {| observableType_ := fields_observableType_ (oneWayDoppler_fields settings);
     lightTimeCorrectionsList_ := fields_lightTimeCorrectionsList_ (oneWayDoppler_fields settings);
     biasSettings_ := fields_biasSettings_ (oneWayDoppler_fields settings);
     settingsClass :=
       OneWayDopplerObservationSettings
         (oneWayDoppler_transmitterProperTimeRateSettings_ settings)
         (oneWayDoppler_receiverProperTimeRateSettings_ settings) |}.

(** ** What the factories build *)

(** Modelled from the spec: [createLightTimeCalculator] is defined in
    [createLightTimeCalculator.h]; section 6 of the design document gives
    "createLightTimeCalculator(transmitterId, receiverId, environment,
    correctionsList) -> LightTimeCalculator (external; treated as opaque)".
    A calculator is identified by the link ends and the corrections it was
    created for. *)
Record LightTimeCalculator := {
  transmittingLinkEnd : LinkEndId;
  receivingLinkEnd : LinkEndId;
  lightTimeCorrections : list object
}.

Definition createLightTimeCalculator (transmittingLinkEnd receivingLinkEnd : LinkEndId)
    (bodyMap : NamedBodyMap) (lightTimeCorrections : list object) : LightTimeCalculator :=
  {| transmittingLinkEnd := transmittingLinkEnd;
     receivingLinkEnd := receivingLinkEnd;
     lightTimeCorrections := lightTimeCorrections |}.

(** The arguments of the constructor of
    [DirectFirstOrderDopplerProperTimeRateInterface]: the link end, the
    gravity field whose gravitational parameter is bound, the central body,
    the link end type of the central body, and the link end of which
    [getLinkEndCompleteEphemerisFunction] gives the state. *)
Record DopplerProperTimeRateInterface := {
  computationPointLinkEndType : LinkEndType;
  gravitationalParameterSource : GravityFieldModel;
  referenceBody : string;
  referencePointLinkEndType : LinkEndType;
  referenceBodyStateSource : LinkEndId
}.

Inductive ObservationBias :=
| ConstantObservationBias (observationBias : list double)
| ConstantArcWiseObservationBias (arcStartTimes : list double)
    (observationBiases : list (list double)) (linkEndIndexForTime : Z)
| ConstantRelativeObservationBias (relativeBias : list double)
| ConstantRelativeArcWiseObservationBias (arcStartTimes : list double)
    (observationBiases : list (list double)) (linkEndIndexForTime : Z)
| MultiTypeObservationBias (biasList : list ObservationBias).

Record OneWayDopplerObservationModel := {
  dopplerLightTimeCalculator : LightTimeCalculator;
  transmitterProperTimeRateFunction : option DopplerProperTimeRateInterface;
  receiverProperTimeRateFunction : option DopplerProperTimeRateInterface;
  dopplerObservationBias : option ObservationBias
}.

Inductive ObservationModel :=
| OneWayRangeObservationModel (lightTimeCalculator : LightTimeCalculator)
    (observationBias : option ObservationBias)
| OneWayDoppler (model : OneWayDopplerObservationModel)
| TwoWayDopplerObservationModel (uplinkDopplerCalculator downlinkDopplerCalculator
                                   : option OneWayDopplerObservationModel)
    (observationBias : option ObservationBias)
| OneWayDifferencedRangeObservationModel
    (arcStartLightTimeCalculator arcEndLightTimeCalculator : LightTimeCalculator)
    (integrationTimeFunction : option (double → double))
    (observationBias : option ObservationBias)
| NWayRangeObservationModel (lightTimeCalculators : list LightTimeCalculator)
    (retransmissionTimesFunction : option (double → list double))
    (observationBias : option ObservationBias).

(** [boost::dynamic_pointer_cast< OneWayDopplerObservationModel >]. *)
Definition asOneWayDopplerObservationModel (model : ObservationModel)
    : option OneWayDopplerObservationModel :=
  match model with
  | OneWayDoppler doppler => Some doppler
  | _ => None
  end.

(** ** [createOneWayDopplerProperTimeCalculator] *)

Definition createOneWayDopplerProperTimeCalculator
    (properTimeRateSettings : option DopplerProperTimeRateSettings)
    (linkEnds : LinkEnds) (bodyMap : NamedBodyMap) (linkEndForCalculator : LinkEndType)
    : result DopplerProperTimeRateInterface :=
  match properTimeRateSettings with
  | None => NullDereference
  | Some settings =>
      match dopplerProperTimeRateType_ settings with
      | direct_first_order_doppler_proper_time_rate =>
          match settings with
          | DirectFirstOrderDopplerProperTimeRateSettings _ centralBodyName =>
              if Nat.eqb (count linkEnds linkEndForCalculator) 0
              then Throw InvalidLinkEndTopology
              else
                match bodyMap !! centralBodyName with
                | None => Throw OutOfRange
                | Some centralBody =>
                    match getGravityFieldModel centralBody with
                    | None => Throw MissingEnvironmentModel
                    | Some gravityField =>
                        let referencePointId : LinkEndId := (centralBodyName, ""%string) in
                        match linkEnds !! receiver with
                        | None => Throw OutOfRange
                        | Some receiverId =>
                            if bool_decide (receiverId ≠ referencePointId) then
                              match linkEnds !! transmitter with
                              | None => Throw OutOfRange
                              | Some transmitterId =>
                                  if bool_decide (transmitterId ≠ referencePointId) then
                                    Ok {| computationPointLinkEndType := linkEndForCalculator;
                                          gravitationalParameterSource := gravityField;
                                          referenceBody := centralBodyName;
                                          referencePointLinkEndType := unidentified_link_end;
                                          referenceBodyStateSource :=
                                            (centralBodyName, ""%string) |}
                                  else Throw Unsupported
                              end
                            else Throw Unsupported
                        end
                    end
                end
          | _ => Throw InvalidSettings
          end
      | custom_doppler_proper_time_rate => Throw UnrecognizedType
      end
  end.

(** ** [createObservationBiasCalculator] *)

(** Declared in another header: the indices, in the list of link end times of
    an observable, at which a link end type occurs. *)
Variable getLinkEndIndicesForLinkEndTypeAtObservable :
  ObservableType → LinkEndType → nat → result (list Z).

(** [vector.at( 0 )]. *)
Definition at_0 {A} (l : list A) : result A :=
  match l with
  | x :: _ => Ok x
  | [] => Throw OutOfRange
  end.

(** The loop that copies the biases of the arcs, checking their sizes. *)
Definition checkArcBiasSizes (ObservationSize : nat) (observationBiases : list (list double))
    : result (list (list double)) :=
  fold_result
    (λ copied bias,
       if bool_decide (length bias ≠ ObservationSize) then Throw DimensionMismatch
       else Ok (copied ++ [bias]))
    [] observationBiases.

Fixpoint createObservationBiasCalculator (ObservationSize : nat) (linkEnds : LinkEnds)
    (observableType : ObservableType) (biasSettings : ObservationBiasSettings)
    (bodyMap : NamedBodyMap) {struct biasSettings} : result ObservationBias :=
  match observationBiasType_ biasSettings with
  | constant_absolute_bias =>
      match biasSettings with
      | ConstantObservationBiasSettings _ observationBias useAbsoluteBias =>
          if negb useAbsoluteBias then Throw InvalidSettings
          else if bool_decide (length observationBias ≠ ObservationSize)
               then Throw DimensionMismatch
               else Ok (ConstantObservationBias observationBias)
      | _ => Throw InvalidSettings
      end
  | arc_wise_constant_absolute_bias =>
      match biasSettings with
      | ArcWiseConstantObservationBiasSettings _ arcStartTimes biases linkEndForTime
          useAbsoluteBias =>
          if negb useAbsoluteBias then Throw InvalidSettings
          else
            checkArcBiasSizes ObservationSize biases ≫= λ observationBiases,
            getLinkEndIndicesForLinkEndTypeAtObservable observableType linkEndForTime
              (size linkEnds) ≫= λ indices,
            at_0 indices ≫= λ index,
            Ok (ConstantArcWiseObservationBias arcStartTimes observationBiases index)
      | _ => Throw InvalidSettings
      end
  | constant_relative_bias =>
      match biasSettings with
      | ConstantObservationBiasSettings _ observationBias useAbsoluteBias =>
          if useAbsoluteBias then Throw InvalidSettings
          else if bool_decide (length observationBias ≠ ObservationSize)
               then Throw DimensionMismatch
               else Ok (ConstantRelativeObservationBias observationBias)
      | _ => Throw InvalidSettings
      end
  | arc_wise_constant_relative_bias =>
      match biasSettings with
      | ArcWiseConstantObservationBiasSettings _ arcStartTimes biases linkEndForTime
          useAbsoluteBias =>
          if useAbsoluteBias then Throw InvalidSettings
          else
            checkArcBiasSizes ObservationSize biases ≫= λ observationBiases,
            getLinkEndIndicesForLinkEndTypeAtObservable observableType linkEndForTime
              (size linkEnds) ≫= λ indices,
            at_0 indices ≫= λ index,
            Ok (ConstantRelativeArcWiseObservationBias arcStartTimes observationBiases index)
      | _ => Throw InvalidSettings
      end
  | multiple_observation_biases =>
      match biasSettings with
      | MultipleObservationBiasSettings _ biasSettingsList =>
          (fix createList (settingsList : list (option ObservationBiasSettings))
             : result (list ObservationBias) :=
             match settingsList with
             | [] => Ok []
             | current :: rest =>
                 match current with
                 | None => NullDereference
                 | Some currentSettings =>
                     createObservationBiasCalculator ObservationSize linkEnds observableType
                       currentSettings bodyMap
                 end ≫= λ bias,
                 createList rest ≫= λ biases,
                 Ok (bias :: biases)
             end) biasSettingsList ≫= λ observationBiasList,
          Ok (MultiTypeObservationBias observationBiasList)
      | _ => Throw InvalidSettings
      end
  | bias_other _ => Throw UnrecognizedType
  end.

(** The block repeated in every [case]: a bias calculator if the settings
    have bias settings. *)
Definition createOptionalObservationBias (linkEnds : LinkEnds)
    (observationSettings : ObservationSettings) (bodyMap : NamedBodyMap)
    : result (option ObservationBias) :=
  match biasSettings_ observationSettings with
  | Some biasSettings =>
      createObservationBiasCalculator 1 linkEnds (observableType_ observationSettings)
        biasSettings bodyMap ≫= λ bias, Ok (Some bias)
  | None => Ok None
  end.

(** ** [ObservationModelCreator< 1 >::createObservationModel] *)

(** The check of every link end of an n-way range: a link end other than the
    transmitter and the receiver needs the link end of the preceding type. *)
Definition checkNWayLinkEnd (linkEnds : LinkEnds) (linkEnd : LinkEndType * LinkEndId)
    : result unit :=
  if bool_decide (linkEnd.1 ≠ transmitter) && bool_decide (linkEnd.1 ≠ receiver) then
    let previousLinkEndType := (linkEnd.1 - 1)%Z in
    if Nat.eqb (count linkEnds previousLinkEndType) 0
    then Throw InvalidLinkEndTopology
    else Ok tt
  else Ok tt.

(** The pairs (transmitterIterator, receiverIterator) of the loop that creates
    the light-time calculators. *)
Definition consecutiveLinkEnds (linkEnds : LinkEnds) : list (LinkEndId * LinkEndId) :=
  zip (std_map_items linkEnds).*2 (tail (std_map_items linkEnds).*2).

(** That loop when the settings are [NWayRangeObservationSettings]: link [i]
    takes the corrections of the [i]-th one-way settings. *)
Fixpoint createNWayLightTimeCalculators (bodyMap : NamedBodyMap)
    (links : list (LinkEndId * LinkEndId))
    (oneWayRangeObsevationSettings : list (option ObservationSettingsFields))
    : result (list LightTimeCalculator) :=
  match links with
  | [] => Ok []
  | link :: links' =>
      match oneWayRangeObsevationSettings with
      | [] => Throw OutOfRange
      | None :: _ => NullDereference
      | Some oneWay :: settings' =>
          match fields_observableType_ oneWay with
          | one_way_range =>
              createNWayLightTimeCalculators bodyMap links' settings' ≫= λ calculators,
              Ok (createLightTimeCalculator link.1 link.2 bodyMap
                    (fields_lightTimeCorrectionsList_ oneWay) :: calculators)
          | _ => Throw InvalidSettings
          end
      end
  end.

(** The function, with the call to itself that the two-way Doppler [case]
    makes as a parameter. *)
Definition createObservationModel_with
    (self : LinkEnds → ObservationSettings → NamedBodyMap → result ObservationModel)
    (linkEnds : LinkEnds) (observationSettings : ObservationSettings)
    (bodyMap : NamedBodyMap) : result ObservationModel :=
  match observableType_ observationSettings with
  | one_way_range =>
      if bool_decide (size linkEnds ≠ 2) then Throw InvalidLinkEndTopology
      else if Nat.eqb (count linkEnds receiver) 0 then Throw InvalidLinkEndTopology
      else if Nat.eqb (count linkEnds transmitter) 0 then Throw InvalidLinkEndTopology
      else
        createOptionalObservationBias linkEnds observationSettings bodyMap ≫= λ observationBias,
        match linkEnds !! transmitter, linkEnds !! receiver with
        | Some transmitterId, Some receiverId =>
            Ok (OneWayRangeObservationModel
                  (createLightTimeCalculator transmitterId receiverId bodyMap
                     (lightTimeCorrectionsList_ observationSettings))
                  observationBias)
        | _, _ => Throw OutOfRange
        end
  | one_way_doppler =>
      if bool_decide (size linkEnds ≠ 2) then Throw InvalidLinkEndTopology
      else if Nat.eqb (count linkEnds receiver) 0 then Throw InvalidLinkEndTopology
      else if Nat.eqb (count linkEnds transmitter) 0 then Throw InvalidLinkEndTopology
      else
        createOptionalObservationBias linkEnds observationSettings bodyMap ≫= λ observationBias,
        match linkEnds !! transmitter, linkEnds !! receiver with
        | Some transmitterId, Some receiverId =>
            let lightTimeCalculator :=
              createLightTimeCalculator transmitterId receiverId bodyMap
                (lightTimeCorrectionsList_ observationSettings) in
            match settingsClass observationSettings with
            | OneWayDopplerObservationSettings transmitterProperTimeRateSettings
                receiverProperTimeRateSettings =>
                createOneWayDopplerProperTimeCalculator transmitterProperTimeRateSettings
                  linkEnds bodyMap transmitter ≫= λ transmitterProperTimeRate,
                createOneWayDopplerProperTimeCalculator receiverProperTimeRateSettings
                  linkEnds bodyMap receiver ≫= λ receiverProperTimeRate,
                Ok (OneWayDoppler
                      {| dopplerLightTimeCalculator := lightTimeCalculator;
                         transmitterProperTimeRateFunction := Some transmitterProperTimeRate;
                         receiverProperTimeRateFunction := Some receiverProperTimeRate;
                         dopplerObservationBias := observationBias |})
            | _ =>
                Ok (OneWayDoppler
                      {| dopplerLightTimeCalculator := lightTimeCalculator;
                         transmitterProperTimeRateFunction := None;
                         receiverProperTimeRateFunction := None;
                         dopplerObservationBias := observationBias |})
            end
        | _, _ => Throw OutOfRange
        end
  | two_way_doppler =>
      if bool_decide (size linkEnds ≠ 3) then Throw InvalidLinkEndTopology
      else if Nat.eqb (count linkEnds receiver) 0 then Throw InvalidLinkEndTopology
      else if Nat.eqb (count linkEnds reflector1) 0 then Throw InvalidLinkEndTopology
      else if Nat.eqb (count linkEnds transmitter) 0 then Throw InvalidLinkEndTopology
      else
        createOptionalObservationBias linkEnds observationSettings bodyMap ≫= λ observationBias,
        match linkEnds !! transmitter, linkEnds !! reflector1, linkEnds !! receiver with
        | Some transmitterId, Some reflectorId, Some receiverId =>
            let uplinkLinkEnds : LinkEnds :=
              <[receiver := reflectorId]> (<[transmitter := transmitterId]> ∅) in
            let downlinkLinkEnds : LinkEnds :=
              <[receiver := receiverId]> (<[transmitter := reflectorId]> ∅) in
            match settingsClass observationSettings with
            | TwoWayDopplerObservationSettings uplinkOneWayDopplerSettings
                downlinkOneWayDopplerSettings =>
                match uplinkOneWayDopplerSettings with
                | Some uplinkSettings => self uplinkLinkEnds (upcast uplinkSettings) bodyMap
                | None => NullDereference
                end ≫= λ uplinkModel,
                match downlinkOneWayDopplerSettings with
                | Some downlinkSettings => self downlinkLinkEnds (upcast downlinkSettings) bodyMap
                | None => NullDereference
                end ≫= λ downlinkModel,
                Ok (TwoWayDopplerObservationModel
                      (asOneWayDopplerObservationModel uplinkModel)
                      (asOneWayDopplerObservationModel downlinkModel) observationBias)
            | _ =>
                self uplinkLinkEnds
                  (make_ObservationSettings one_way_doppler
                     (lightTimeCorrectionsList_ observationSettings)) bodyMap ≫= λ uplinkModel,
                self downlinkLinkEnds
                  (make_ObservationSettings one_way_doppler
                     (lightTimeCorrectionsList_ observationSettings)) bodyMap ≫= λ downlinkModel,
                Ok (TwoWayDopplerObservationModel
                      (asOneWayDopplerObservationModel uplinkModel)
                      (asOneWayDopplerObservationModel downlinkModel) observationBias)
            end
        | _, _, _ => Throw OutOfRange
        end
  | one_way_differenced_range =>
      match settingsClass observationSettings with
      | OneWayDifferencedRangeRateObservationSettings integrationTimeFunction =>
          if bool_decide (size linkEnds ≠ 2) then Throw InvalidLinkEndTopology
          else if Nat.eqb (count linkEnds receiver) 0 then Throw InvalidLinkEndTopology
          else if Nat.eqb (count linkEnds transmitter) 0 then Throw InvalidLinkEndTopology
          else
            createOptionalObservationBias linkEnds observationSettings bodyMap ≫= λ observationBias,
            match linkEnds !! transmitter, linkEnds !! receiver with
            | Some transmitterId, Some receiverId =>
                Ok (OneWayDifferencedRangeObservationModel
                      (createLightTimeCalculator transmitterId receiverId bodyMap
                         (lightTimeCorrectionsList_ observationSettings))
                      (createLightTimeCalculator transmitterId receiverId bodyMap
                         (lightTimeCorrectionsList_ observationSettings))
                      integrationTimeFunction observationBias)
            | _, _ => Throw OutOfRange
            end
      | _ => Throw InvalidSettings
      end
  | n_way_range =>
      if Nat.ltb (size linkEnds) 2 then Throw InvalidLinkEndTopology
      else if Nat.eqb (count linkEnds receiver) 0 then Throw InvalidLinkEndTopology
      else if Nat.eqb (count linkEnds transmitter) 0 then Throw InvalidLinkEndTopology
      else
        for_each (checkNWayLinkEnd linkEnds) (std_map_items linkEnds) ≫= λ _,
        createOptionalObservationBias linkEnds observationSettings bodyMap ≫= λ observationBias,
        match settingsClass observationSettings with
        | NWayRangeObservationSettings oneWayRangeObsevationSettings
            retransmissionTimesFunction =>
            if bool_decide (length oneWayRangeObsevationSettings ≠ size linkEnds - 1)
            then Throw InvalidSettings
            else
              createNWayLightTimeCalculators bodyMap (consecutiveLinkEnds linkEnds)
                oneWayRangeObsevationSettings ≫= λ lightTimeCalculators,
              Ok (NWayRangeObservationModel lightTimeCalculators retransmissionTimesFunction
                    observationBias)
        | _ =>
            Ok (NWayRangeObservationModel
                  ((λ link : LinkEndId * LinkEndId,
                      createLightTimeCalculator link.1 link.2 bodyMap
                        (lightTimeCorrectionsList_ observationSettings))
                     <$> consecutiveLinkEnds linkEnds)
                  None observationBias)
        end
  | observable_other _ => Throw UnrecognizedType
  end.

(** The two-way Doppler [case] calls the function for link ends with the two
    keys [transmitter] and [receiver]; that call takes no two-way Doppler
    [case] further than its size check (see
    [createObservationModel_with_self_unused]), so two levels give the
    function. *)
Definition createObservationModel (linkEnds : LinkEnds)
    (observationSettings : ObservationSettings) (bodyMap : NamedBodyMap)
    : result ObservationModel :=
  createObservationModel_with
    (createObservationModel_with (λ _ _ _, Throw InvalidLinkEndTopology))
    linkEnds observationSettings bodyMap.

(** ** [convertUnsortedToSortedObservationSettingsMap] *)

#[global] Instance ObservableType_eq_dec : EqDecision ObservableType.
Proof. solve_decision. Defined.

Definition ObservableType_code (t : ObservableType) : nat + Z :=
  match t with
  | one_way_range => inl 0
  | one_way_doppler => inl 1
  | two_way_doppler => inl 2
  | one_way_differenced_range => inl 3
  | n_way_range => inl 4
  | observable_other z => inr z
  end.

Definition ObservableType_decode (c : nat + Z) : ObservableType :=
  match c with
  | inl 0 => one_way_range
  | inl 1 => one_way_doppler
  | inl 2 => two_way_doppler
  | inl 3 => one_way_differenced_range
  | inl _ => n_way_range
  | inr z => observable_other z
  end.

Lemma ObservableType_decode_code t : ObservableType_decode (ObservableType_code t) = t.
Proof. by destruct t. Qed.

#[global] Instance ObservableType_countable : Countable ObservableType :=
  inj_countable' ObservableType_code ObservableType_decode ObservableType_decode_code.

(** The two typedefs of the header: a map of maps, and a multimap, which is
    the sequence of its entries. *)
Abbreviation SortedObservationSettingsMap :=
  (gmap ObservableType (gmap LinkEnds ObservationSettings)).
Abbreviation ObservationSettingsMap := (list (LinkEnds * ObservationSettings)).

(** [sorted[ observableType ][ linkEnds ] = settings]. *)
Definition setSortedObservationSettings (sorted : SortedObservationSettingsMap)
    (entry : LinkEnds * ObservationSettings) : SortedObservationSettingsMap :=
  <[observableType_ entry.2 :=
      <[entry.1 := entry.2]> (default ∅ (sorted !! observableType_ entry.2))]> sorted.

(** Modelled from the spec: the header declares
    [convertUnsortedToSortedObservationSettingsMap] and its two types; the
    definition is in a source file outside the tree.  Section 4.4 of the
    design document: the input "keyed only by link-ends is first regrouped by
    observable type (reading the type out of each settings object)". *)
Definition convertUnsortedToSortedObservationSettingsMap
    (unsortedObservationSettingsMap : ObservationSettingsMap)
    : SortedObservationSettingsMap :=
  foldl setSortedObservationSettings ∅ unsortedObservationSettingsMap.



(** * Further functions of the two files *)

(** ** [createMassPropagationEnvironmentUpdaterSettings] *)

Inductive AvailableMassRateModels :=
| custom_mass_rate_model
| from_thrust_mass_rate_model
| mass_rate_other (value : Z).

(** A mass rate model is read through [getMassRateModelType] only. *)
Record MassRateModel := { getMassRateModelType : AvailableMassRateModels }.

(** The [switch] on the type of one mass rate model: what the model needs
    (nothing, for the two known types). *)
Definition massRateUpdateNeeds (model : MassRateModel) : result EnvironmentUpdates :=
  match getMassRateModelType model with
  | custom_mass_rate_model => Ok ∅
  | from_thrust_mass_rate_model => Ok ∅
  | mass_rate_other _ => Throw UnrecognizedType
  end.

Definition createMassPropagationEnvironmentUpdaterSettings
    (massRateModels : gmap string (list MassRateModel)) (bodyMap : NamedBodyMap)
    : result EnvironmentUpdates :=
  fold_result
    (λ environmentModelsToUpdate (entry : string * list MassRateModel),
       fold_result
         (λ environmentModelsToUpdate (model : MassRateModel),
            massRateUpdateNeeds model ≫= λ singleRateModelUpdateNeeds,
            checkValidityOfRequiredEnvironmentUpdates singleRateModelUpdateNeeds bodyMap ≫= λ _,
            Ok (addEnvironmentUpdates environmentModelsToUpdate singleRateModelUpdateNeeds))
         environmentModelsToUpdate entry.2)
    ∅ (map_to_list massRateModels).

(** ** Dependent variables *)

(** The [case] labels of the [switch] in
    [createEnvironmentUpdaterSettingsForDependentVariables], and any other
    value of the enumeration. *)
Inductive PropagationDependentVariables :=
| mach_number_dependent_variable
| altitude_dependent_variable
| airspeed_dependent_variable
| local_density_dependent_variable
| relative_speed_dependent_variable
| relative_position_dependent_variable
| relative_distance_dependent_variable
| relative_velocity_dependent_variable
| total_acceleration_norm_dependent_variable
| single_acceleration_norm_dependent_variable
| total_acceleration_dependent_variable
| single_acceleration_dependent_variable
| aerodynamic_force_coefficients_dependent_variable
| aerodynamic_moment_coefficients_dependent_variable
| rotation_matrix_to_body_fixed_frame_variable
| intermediate_aerodynamic_rotation_matrix_variable
| relative_body_aerodynamic_orientation_angle_variable
| body_fixed_airspeed_based_velocity_variable
| total_aerodynamic_g_load_variable
| stagnation_point_heat_flux_dependent_variable
| local_temperature_dependent_variable
| geodetic_latitude_dependent_variable
| body_fixed_groundspeed_based_velocity_variable
| total_mass_rate_dependent_variables
| total_torque_norm_dependent_variable
| single_torque_norm_dependent_variable
| total_torque_dependent_variable
| single_torque_dependent_variable
| keplerian_state_dependent_variable
| modified_equinocial_state_dependent_variable
| spherical_harmonic_acceleration_terms_dependent_variable
| body_fixed_relative_cartesian_position
| body_fixed_relative_spherical_position
| lvlh_to_inertial_frame_rotation_dependent_variable
| control_surface_deflection_dependent_variable
| radiation_pressure_dependent_variable
| periapsis_altitude_dependent_variable
| dependent_variable_other (value : Z).

Record SingleDependentVariableSaveSettings := {
  dependentVariableType_ : PropagationDependentVariables;
  associatedBody_ : string;
  secondaryBody_ : string
}.

(** Two accessors of [Body] that only this part of the code reads, and the two
    functions, defined elsewhere, that create flight conditions and that may
    throw.  They are parameters, taken together. *)
Record FlightConditionsFunctions := {
  getAtmosphereModel : Body → option object;
  getAerodynamicCoefficientInterface : Body → option object;
  createAtmosphericFlightConditions : Body → Body → string → string → result object;
  createFlightConditions : Body → Body → string → string → result object
}.
Variable flightConditionsFunctions : FlightConditionsFunctions.

(** [body->setFlightConditions( flightConditions )]. *)
Definition setFlightConditions (body : Body) (flightConditions : object) : Body :=
  {| getEphemeris := getEphemeris body;
     getRotationalEphemeris := getRotationalEphemeris body;
     getDependentOrientationCalculator := getDependentOrientationCalculator body;
     getGravityFieldModel := getGravityFieldModel body;
     getFlightConditions := Some flightConditions;
     getRadiationPressureInterfaces := getRadiationPressureInterfaces body;
     getBodyMassFunction := getBodyMassFunction body |}.

(** The functions of this part change bodies of the environment in place: a
    call has the environment as it leaves it, and its outcome.  Bodies under
    different names are different objects. *)
Definition checkAndModifyEnvironmentForDependentVariableSaving
    (updateType : EnvironmentModelsToUpdate)
    (dependentVariableSaveSettings : SingleDependentVariableSaveSettings)
    (bodyMap : NamedBodyMap) : NamedBodyMap * result unit :=
  match updateType with
  | vehicle_flight_conditions_update =>
      match bodyMap !! associatedBody_ dependentVariableSaveSettings with
      | None => (bodyMap, Throw OutOfRange)
      | Some associatedBody =>
          match getFlightConditions associatedBody with
          | Some _ => (bodyMap, Ok tt)
          | None =>
              match bodyMap !! secondaryBody_ dependentVariableSaveSettings with
              | None => (bodyMap, Throw OutOfRange)
              | Some secondaryBody =>
                  match
                    match getAtmosphereModel flightConditionsFunctions secondaryBody,
                          getAerodynamicCoefficientInterface flightConditionsFunctions
                            associatedBody with
                    | Some _, Some _ =>
                        createAtmosphericFlightConditions flightConditionsFunctions
                          associatedBody secondaryBody
                          (associatedBody_ dependentVariableSaveSettings)
                          (secondaryBody_ dependentVariableSaveSettings)
                    | _, _ =>
                        createFlightConditions flightConditionsFunctions
                          associatedBody secondaryBody
                          (associatedBody_ dependentVariableSaveSettings)
                          (secondaryBody_ dependentVariableSaveSettings)
                    end
                  with
                  | Ok flightConditions =>
                      (<[associatedBody_ dependentVariableSaveSettings :=
                           setFlightConditions associatedBody flightConditions]> bodyMap,
                       Ok tt)
                  | Throw e => (bodyMap, Throw e)
                  | NullDereference => (bodyMap, NullDereference)
                  end
              end
          end
      end
  | _ => (bodyMap, Ok tt)
  end.

(** The four groups of pushes that the table repeats. *)
Definition aerodynamicVariableUpdates (settings : SingleDependentVariableSaveSettings)
    : EnvironmentUpdates :=
  push_back_at body_translational_state_update (secondaryBody_ settings)
    (push_back_at body_translational_state_update (associatedBody_ settings)
       (push_back_at body_rotational_state_update (secondaryBody_ settings)
          (push_back_at vehicle_flight_conditions_update (associatedBody_ settings) ∅))).

Definition relativeStateVariableUpdates (settings : SingleDependentVariableSaveSettings)
    : EnvironmentUpdates :=
  push_back_at body_translational_state_update (secondaryBody_ settings)
    (push_back_at body_translational_state_update (associatedBody_ settings) ∅).

Definition bodyFixedPositionVariableUpdates (settings : SingleDependentVariableSaveSettings)
    : EnvironmentUpdates :=
  push_back_at body_rotational_state_update (secondaryBody_ settings)
    (push_back_at body_translational_state_update (secondaryBody_ settings)
       (push_back_at body_translational_state_update (associatedBody_ settings) ∅)).

Definition radiationPressureVariableUpdates (settings : SingleDependentVariableSaveSettings)
    : EnvironmentUpdates :=
  push_back_at body_translational_state_update (secondaryBody_ settings)
    (push_back_at body_translational_state_update (associatedBody_ settings)
       (push_back_at radiation_pressure_interface_update (associatedBody_ settings) ∅)).

(** The [switch] of [createEnvironmentUpdaterSettingsForDependentVariables]. *)
Definition dependentVariableUpdates (settings : SingleDependentVariableSaveSettings)
    : result EnvironmentUpdates :=
  match dependentVariableType_ settings with
  | mach_number_dependent_variable
  | altitude_dependent_variable
  | airspeed_dependent_variable
  | local_density_dependent_variable => Ok (aerodynamicVariableUpdates settings)
  | relative_speed_dependent_variable
  | relative_position_dependent_variable
  | relative_distance_dependent_variable
  | relative_velocity_dependent_variable => Ok (relativeStateVariableUpdates settings)
  | total_acceleration_norm_dependent_variable
  | single_acceleration_norm_dependent_variable
  | total_acceleration_dependent_variable
  | single_acceleration_dependent_variable => Ok ∅
  | aerodynamic_force_coefficients_dependent_variable
  | aerodynamic_moment_coefficients_dependent_variable => Ok (aerodynamicVariableUpdates settings)
  | rotation_matrix_to_body_fixed_frame_variable =>
      Ok (push_back_at body_rotational_state_update (associatedBody_ settings) ∅)
  | intermediate_aerodynamic_rotation_matrix_variable
  | relative_body_aerodynamic_orientation_angle_variable
  | body_fixed_airspeed_based_velocity_variable
  | total_aerodynamic_g_load_variable
  | stagnation_point_heat_flux_dependent_variable
  | local_temperature_dependent_variable
  | geodetic_latitude_dependent_variable
  | body_fixed_groundspeed_based_velocity_variable => Ok (aerodynamicVariableUpdates settings)
  | total_mass_rate_dependent_variables
  | total_torque_norm_dependent_variable
  | single_torque_norm_dependent_variable
  | total_torque_dependent_variable
  | single_torque_dependent_variable => Ok ∅
  | keplerian_state_dependent_variable
  | modified_equinocial_state_dependent_variable => Ok (relativeStateVariableUpdates settings)
  | spherical_harmonic_acceleration_terms_dependent_variable => Ok ∅
  | body_fixed_relative_cartesian_position
  | body_fixed_relative_spherical_position => Ok (bodyFixedPositionVariableUpdates settings)
  | lvlh_to_inertial_frame_rotation_dependent_variable =>
      Ok (relativeStateVariableUpdates settings)
  | control_surface_deflection_dependent_variable =>
      Ok (push_back_at vehicle_flight_conditions_update (associatedBody_ settings) ∅)
  | radiation_pressure_dependent_variable => Ok (radiationPressureVariableUpdates settings)
  | periapsis_altitude_dependent_variable => Ok (relativeStateVariableUpdates settings)
  | dependent_variable_other _ => Throw UnrecognizedType
  end.

Definition createEnvironmentUpdaterSettingsForDependentVariables
    (dependentVariableSaveSettings : SingleDependentVariableSaveSettings)
    (bodyMap : NamedBodyMap) : NamedBodyMap * result EnvironmentUpdates :=
  match dependentVariableUpdates dependentVariableSaveSettings with
  | Ok variablesToUpdate =>
      if Nat.ltb 0 (count variablesToUpdate vehicle_flight_conditions_update) then
        match checkAndModifyEnvironmentForDependentVariableSaving
                vehicle_flight_conditions_update dependentVariableSaveSettings bodyMap with
        | (modified, Ok _) => (modified, Ok variablesToUpdate)
        | (modified, Throw e) => (modified, Throw e)
        | (modified, NullDereference) => (modified, NullDereference)
        end
      else (bodyMap, Ok variablesToUpdate)
  | Throw e => (bodyMap, Throw e)
  | NullDereference => (bodyMap, NullDereference)
  end.

(** [createEnvironmentUpdaterSettings] for the dependent variables to save:
    the loop over [dependentVariables_], with the environment threaded
    through.  A null pointer for the settings gives the empty map. *)
Fixpoint createEnvironmentUpdaterSettingsOfVariables
    (dependentVariableList : list SingleDependentVariableSaveSettings)
    (environmentModelsToUpdate : EnvironmentUpdates) (bodyMap : NamedBodyMap)
    : NamedBodyMap * result EnvironmentUpdates :=
  match dependentVariableList with
  | [] => (bodyMap, Ok environmentModelsToUpdate)
  | settings :: rest =>
      match createEnvironmentUpdaterSettingsForDependentVariables settings bodyMap with
      | (modified, Ok currentEnvironmentModelsToUpdate) =>
          createEnvironmentUpdaterSettingsOfVariables rest
            (addEnvironmentUpdates environmentModelsToUpdate currentEnvironmentModelsToUpdate)
            modified
      | failed => failed
      end
  end.

Definition createEnvironmentUpdaterSettings_dependentVariables
    (dependentVariableSaveSettings : option (list SingleDependentVariableSaveSettings))
    (bodyMap : NamedBodyMap) : NamedBodyMap * result EnvironmentUpdates :=
  match dependentVariableSaveSettings with
  | Some dependentVariables_ =>
      createEnvironmentUpdaterSettingsOfVariables dependentVariables_ ∅ bodyMap
  | None => (bodyMap, Ok ∅)
  end.

(** ** Termination settings *)

Inductive PropagationTerminationTypes :=
| time_stopping_condition
| cpu_time_stopping_condition
| dependent_variable_stopping_condition
| hybrid_stopping_condition
| termination_other (value : Z).

(** A termination settings object: the field of the base class and the
    fields of the two classes to which the code casts. *)
Inductive PropagationTerminationSettings :=
| PropagationTerminationSettingsOnly (terminationType_ : PropagationTerminationTypes)
| PropagationDependentVariableTerminationSettings
    (terminationType_ : PropagationTerminationTypes)
    (dependentVariableSettings_ : option SingleDependentVariableSaveSettings)
| PropagationHybridTerminationSettings
    (terminationType_ : PropagationTerminationTypes)
    (terminationSettings_ : list (option PropagationTerminationSettings)).

Definition terminationType_ (settings : PropagationTerminationSettings)
    : PropagationTerminationTypes :=
  match settings with
  | PropagationTerminationSettingsOnly t
  | PropagationDependentVariableTerminationSettings t _
  | PropagationHybridTerminationSettings t _ => t
  end.

(** [createEnvironmentUpdaterSettings] for termination settings.  The two
    casts are used without a test. *)
Fixpoint createEnvironmentUpdaterSettings_termination
    (terminationSettings : PropagationTerminationSettings) (bodyMap : NamedBodyMap)
    {struct terminationSettings} : NamedBodyMap * result EnvironmentUpdates :=
  match terminationType_ terminationSettings with
  | time_stopping_condition => (bodyMap, Ok ∅)
  | cpu_time_stopping_condition => (bodyMap, Ok ∅)
  | dependent_variable_stopping_condition =>
      match terminationSettings with
      | PropagationDependentVariableTerminationSettings _ (Some dependentVariableSettings) =>
          match createEnvironmentUpdaterSettingsForDependentVariables
                  dependentVariableSettings bodyMap with
          | (modified, Ok single) => (modified, Ok (addEnvironmentUpdates ∅ single))
          | failed => failed
          end
      | _ => (bodyMap, NullDereference)
      end
  | hybrid_stopping_condition =>
      match terminationSettings with
      | PropagationHybridTerminationSettings _ children =>
          (fix createForChildren (children : list (option PropagationTerminationSettings))
               (environmentModelsToUpdate : EnvironmentUpdates) (bodyMap : NamedBodyMap)
             : NamedBodyMap * result EnvironmentUpdates :=
             match children with
             | [] => (bodyMap, Ok environmentModelsToUpdate)
             | None :: _ => (bodyMap, NullDereference)
             | Some child :: rest =>
                 match createEnvironmentUpdaterSettings_termination child bodyMap with
                 | (modified, Ok single) =>
                     createForChildren rest
                       (addEnvironmentUpdates environmentModelsToUpdate single) modified
                 | failed => failed
                 end
             end) children ∅ bodyMap
      | _ => (bodyMap, NullDereference)
      end
  | termination_other _ => (bodyMap, Throw UnrecognizedType)
  end.

(** ** Constructors of the settings classes *)

(** [ObservationSettings( type, lightTimeCorrections, biasSettings )], with
    one light-time correction or none ([NULL]). *)
Definition new_ObservationSettings (observableType : ObservableType)
    (lightTimeCorrections : option object) (biasSettings : option ObservationBiasSettings)
    : ObservationSettings :=
  {| observableType_ := observableType;
     lightTimeCorrectionsList_ :=
       match lightTimeCorrections with
       | Some correction => [correction]
       | None => []
       end;
     biasSettings_ := biasSettings;
     settingsClass := ObservationSettingsOnly |}.

(** The fields of such an object, for a member of
    [oneWayRangeObsevationSettings_]. *)
Definition new_ObservationSettingsFields (observableType : ObservableType)
    (lightTimeCorrections : option object) : ObservationSettingsFields :=
  {| fields_observableType_ := observableType;
     fields_lightTimeCorrectionsList_ :=
       match lightTimeCorrections with
       | Some correction => [correction]
       | None => []
       end;
     fields_biasSettings_ := None |}.

Definition new_MultipleObservationBiasSettings
    (biasSettingsList : list (option ObservationBiasSettings)) : ObservationBiasSettings :=
  MultipleObservationBiasSettings multiple_observation_biases biasSettingsList.

Definition new_ConstantObservationBiasSettings (observationBias : list double)
    (useAbsoluteBias : bool) : ObservationBiasSettings :=
  ConstantObservationBiasSettings
    (if useAbsoluteBias then constant_absolute_bias else constant_relative_bias)
    observationBias useAbsoluteBias.

Definition new_ArcWiseConstantObservationBiasSettings (arcStartTimes : list double)
    (observationBiases : list (list double)) (linkEndForTime : LinkEndType)
    (useAbsoluteBias : bool) : ObservationBiasSettings :=
  ArcWiseConstantObservationBiasSettings
    (if useAbsoluteBias then arc_wise_constant_absolute_bias
     else arc_wise_constant_relative_bias)
    arcStartTimes observationBiases linkEndForTime useAbsoluteBias.

(** [OneWayDopplerObservationSettings( lightTimeCorrectionsList,
    transmitterProperTimeRateSettings, receiverProperTimeRateSettings,
    biasSettings )]. *)
Definition new_OneWayDopplerObservationSettings (lightTimeCorrectionsList : list object)
    (transmitterProperTimeRateSettings receiverProperTimeRateSettings
       : option DopplerProperTimeRateSettings)
    (biasSettings : option ObservationBiasSettings) : ObservationSettings :=
  {| observableType_ := one_way_doppler;
     lightTimeCorrectionsList_ := lightTimeCorrectionsList;
     biasSettings_ := biasSettings;
     settingsClass :=
       OneWayDopplerObservationSettings transmitterProperTimeRateSettings
         receiverProperTimeRateSettings |}.

Definition new_DirectFirstOrderDopplerProperTimeRateSettings (centralBodyName : string)
    : DopplerProperTimeRateSettings :=
  DirectFirstOrderDopplerProperTimeRateSettings direct_first_order_doppler_proper_time_rate
    centralBodyName.

(** [NWayRangeObservationSettings( oneWayRangeObsevationSettings,
    retransmissionTimesFunction, biasSettings )]: the settings themselves
    have no light-time corrections. *)
Definition new_NWayRangeObservationSettings
    (oneWayRangeObsevationSettings : list (option ObservationSettingsFields))
    (retransmissionTimesFunction : option (double → list double))
    (biasSettings : option ObservationBiasSettings) : ObservationSettings :=
  {| observableType_ := n_way_range;
     lightTimeCorrectionsList_ := [];
     biasSettings_ := biasSettings;
     settingsClass :=
       NWayRangeObservationSettings oneWayRangeObsevationSettings
         retransmissionTimesFunction |}.

(** [NWayRangeObservationSettings( lightTimeCorrections, numberOfLinkEnds,
    retransmissionTimesFunction, biasSettings )]: the loop makes
    [numberOfLinkEnds - 1] one-way range settings with the same correction. *)
Definition new_NWayRangeObservationSettings_sameCorrections
    (lightTimeCorrections : option object) (numberOfLinkEnds : Z)
    (retransmissionTimesFunction : option (double → list double))
    (biasSettings : option ObservationBiasSettings) : ObservationSettings :=
  {| observableType_ := n_way_range;
     lightTimeCorrectionsList_ := [];
     biasSettings_ := biasSettings;
     settingsClass :=
       NWayRangeObservationSettings
         (replicate (Z.to_nat (numberOfLinkEnds - 1))
            (Some (new_ObservationSettingsFields one_way_range lightTimeCorrections)))
         retransmissionTimesFunction |}.

(** ** [ObservationModelCreator< 2 >] and [ObservationModelCreator< 3 >] *)

(** The enumerators that the two [switch]es and the position observable
    name. *)
Record FurtherEnumerators := {
  angular_position : ObservableType;
  position_observable : ObservableType;
  observed_body : LinkEndType
}.
Variable enumerators : FurtherEnumerators.

(** The block that creates the bias calculator, for an observable of a given
    size. *)
Definition createOptionalObservationBiasOfSize (ObservationSize : nat) (linkEnds : LinkEnds)
    (observationSettings : ObservationSettings) (bodyMap : NamedBodyMap)
    : result (option ObservationBias) :=
  match biasSettings_ observationSettings with
  | Some biasSettings =>
      createObservationBiasCalculator ObservationSize linkEnds
        (observableType_ observationSettings) biasSettings bodyMap ≫= λ bias, Ok (Some bias)
  | None => Ok None
  end.

Record AngularPositionObservationModel := {
  angularPositionLightTimeCalculator : LightTimeCalculator;
  angularPositionObservationBias : option ObservationBias
}.

Definition createObservationModel2 (linkEnds : LinkEnds)
    (observationSettings : ObservationSettings) (bodyMap : NamedBodyMap)
    : result AngularPositionObservationModel :=
  if decide (observableType_ observationSettings = angular_position enumerators) then
    if bool_decide (size linkEnds ≠ 2) then Throw InvalidLinkEndTopology
    else if Nat.eqb (count linkEnds receiver) 0 then Throw InvalidLinkEndTopology
    else if Nat.eqb (count linkEnds transmitter) 0 then Throw InvalidLinkEndTopology
    else
      createOptionalObservationBiasOfSize 2 linkEnds observationSettings bodyMap
        ≫= λ observationBias,
      match linkEnds !! transmitter, linkEnds !! receiver with
      | Some transmitterId, Some receiverId =>
          Ok {| angularPositionLightTimeCalculator :=
                  createLightTimeCalculator transmitterId receiverId bodyMap
                    (lightTimeCorrectionsList_ observationSettings);
                angularPositionObservationBias := observationBias |}
      | _, _ => Throw OutOfRange
      end
  else Throw UnrecognizedType.

(** The position observable reads the state of a body of the environment: the
    model holds the body to which the state function is bound. *)
Record PositionObservationModel := {
  observedBodyName : string;
  observedBodyObject : Body;
  positionObservationBias : option ObservationBias
}.

Definition createObservationModel3 (linkEnds : LinkEnds)
    (observationSettings : ObservationSettings) (bodyMap : NamedBodyMap)
    : result PositionObservationModel :=
  if decide (observableType_ observationSettings = position_observable enumerators) then
    if bool_decide (size linkEnds ≠ 1) then Throw InvalidLinkEndTopology
    else
      match linkEnds !! observed_body enumerators with
      | None => Throw InvalidLinkEndTopology
      | Some observedBodyId =>
          if Nat.ltb 0 (length (lightTimeCorrectionsList_ observationSettings))
          then Throw InvalidSettings
          else if bool_decide (observedBodyId.2 ≠ ""%string) then Throw Unsupported
          else
            createOptionalObservationBiasOfSize 3 linkEnds observationSettings bodyMap
              ≫= λ observationBias,
            match bodyMap !! observedBodyId.1 with
            | Some body =>
                Ok {| observedBodyName := observedBodyId.1;
                      observedBodyObject := body;
                      positionObservationBias := observationBias |}
            | None => Throw OutOfRange
            end
      end
  else Throw UnrecognizedType.

(** ** [createObservationSimulator] and [createObservationSimulators] *)

Record ObservationSimulator (Model : Type) := {
  simulatorObservableType : ObservableType;
  simulatorObservationModels : gmap LinkEnds Model
}.
Arguments simulatorObservableType {Model} _.
Arguments simulatorObservationModels {Model} _.

(** The function template, for the function that creates the models of its
    observation size. *)
Definition createObservationSimulator {Model : Type}
    (createModel : LinkEnds → ObservationSettings → NamedBodyMap → result Model)
    (observableType : ObservableType)
    (settingsPerLinkEnds : gmap LinkEnds ObservationSettings)
    (bodyMap : NamedBodyMap) : result (ObservationSimulator Model) :=
  fold_result
    (λ (observationModels : gmap LinkEnds Model) (setting : LinkEnds * ObservationSettings),
       createModel setting.1 setting.2 bodyMap ≫= λ model,
       Ok (<[setting.1 := model]> observationModels))
    ∅ (map_to_list settingsPerLinkEnds)
  ≫= λ observationModels,
  Ok {| simulatorObservableType := observableType;
        simulatorObservationModels := observationModels |}.

(** [getObservableSize], declared in another header. *)
Record ObservableSizes := { getObservableSize : ObservableType → Z }.
Variable observableSizes : ObservableSizes.

(** A simulator of one of the three observation sizes. *)
Inductive ObservationSimulatorBase :=
| ObservationSimulator1 (simulator : ObservationSimulator ObservationModel)
| ObservationSimulator2 (simulator : ObservationSimulator AngularPositionObservationModel)
| ObservationSimulator3 (simulator : ObservationSimulator PositionObservationModel).

Definition createObservationSimulatorOfSize (observableType : ObservableType)
    (settingsPerLinkEnds : gmap LinkEnds ObservationSettings)
    (bodyMap : NamedBodyMap) : result ObservationSimulatorBase :=
  match getObservableSize observableSizes observableType with
  | 1%Z =>
      createObservationSimulator createObservationModel observableType settingsPerLinkEnds
        bodyMap ≫= λ simulator, Ok (ObservationSimulator1 simulator)
  | 2%Z =>
      createObservationSimulator createObservationModel2 observableType settingsPerLinkEnds
        bodyMap ≫= λ simulator, Ok (ObservationSimulator2 simulator)
  | 3%Z =>
      createObservationSimulator createObservationModel3 observableType settingsPerLinkEnds
        bodyMap ≫= λ simulator, Ok (ObservationSimulator3 simulator)
  | _ => Throw DimensionMismatch
  end.

(** [createObservationSimulators], for settings sorted by observable type. *)
Definition createObservationSimulators (observationSettingsMap : SortedObservationSettingsMap)
    (bodyMap : NamedBodyMap) : result (gmap ObservableType ObservationSimulatorBase) :=
  fold_result
    (λ (observationSimulators : gmap ObservableType ObservationSimulatorBase)
       (settings : ObservableType * gmap LinkEnds ObservationSettings),
       createObservationSimulatorOfSize settings.1 settings.2 bodyMap ≫= λ simulator,
       Ok (<[settings.1 := simulator]> observationSimulators))
    ∅ (map_to_list observationSettingsMap).

(** The overload for settings that are not sorted by observable type. *)
Definition createObservationSimulators_unsorted
    (observationSettingsMap : ObservationSettingsMap) (bodyMap : NamedBodyMap)
    : result (gmap ObservableType ObservationSimulatorBase) :=
  createObservationSimulators
    (convertUnsortedToSortedObservationSettingsMap observationSettingsMap) bodyMap.

(** * Inputs of the examples *)

Definition anObject : object := Object 1.

Definition pointMassGravityField : GravityFieldModel :=
  {| isSphericalHarmonicsGravityField := false;
     isTimeDependentSphericalHarmonicsGravityField := false |}.

(** A body with an ephemeris, a rotation model, a gravity field and a mass. *)
Definition Earth : Body :=
  {| getEphemeris := Some anObject;
     getRotationalEphemeris := Some anObject;
     getDependentOrientationCalculator := None;
     getGravityFieldModel := Some pointMassGravityField;
     getFlightConditions := None;
     getRadiationPressureInterfaces := ∅;
     getBodyMassFunction := Some anObject |}.

(** A body with a mass and two radiation pressure interfaces, one for the
    Sun and one for Earth as the source; it has no ephemeris and no rotation
    model. *)
Definition Vehicle : Body :=
  {| getEphemeris := None;
     getRotationalEphemeris := None;
     getDependentOrientationCalculator := None;
     getGravityFieldModel := None;
     getFlightConditions := None;
     getRadiationPressureInterfaces :=
       {[ "Sun"%string := anObject; "Earth"%string := anObject ]};
     getBodyMassFunction := Some anObject |}.

Definition EarthAndVehicle : NamedBodyMap :=
  {[ "Earth"%string := Earth; "Vehicle"%string := Vehicle ]}.

(** Earth pulls on the vehicle, which is the one propagated body. *)
Definition EarthGravityOnVehicle : AccelerationMap :=
  {[ "Vehicle"%string :=
       {[ "Earth"%string :=
            [ {| getAccelerationModelType := central_gravity;
                 accelerationModelClass := AccelerationModelOfOtherClass |} ] ]} ]}.

(** An assignment of the link end enumerators, and an implementation of the
    index function, for the examples. *)
Definition example_transmitter : LinkEndType := 0.
Definition example_reflector1 : LinkEndType := 1.
Definition example_reflector2 : LinkEndType := 2.
Definition example_receiver : LinkEndType := 5.
Definition example_unidentified_link_end : LinkEndType := (-1).
Definition example_getLinkEndIndices (observable : ObservableType)
    (linkEndType : LinkEndType) (numberOfLinkEnds : nat) : result (list Z) :=
  Ok [0%Z].

Definition VehicleToEarth : LinkEnds :=
  {[ example_transmitter := ("Vehicle"%string, ""%string);
     example_receiver := ("Earth"%string, ""%string) ]}.

Definition VehicleToStation : LinkEnds :=
  {[ example_transmitter := ("Vehicle"%string, ""%string);
     example_receiver := ("Earth"%string, "Station"%string) ]}.

Definition VehicleOnly : LinkEnds :=
  {[ example_transmitter := ("Vehicle"%string, ""%string) ]}.

Definition StationVehicleMoonStation : LinkEnds :=
  {[ example_transmitter := ("Earth"%string, "Station"%string);
     example_reflector1 := ("Vehicle"%string, ""%string);
     example_reflector2 := ("Moon"%string, ""%string);
     example_receiver := ("Earth"%string, "Station"%string) ]}.

(** Settings of the base class for an observable, with one light-time
    correction. *)
Definition baseSettings (observableType : ObservableType) : ObservationSettings :=
  make_ObservationSettings observableType [Object 7].

(** [OneWayDopplerObservationSettings] as its constructor makes it by
    default: no proper time rate settings. *)
Definition defaultOneWayDopplerSettings : ObservationSettings :=
  {| observableType_ := one_way_doppler;
     lightTimeCorrectionsList_ := [];
     biasSettings_ := None;
     settingsClass := OneWayDopplerObservationSettings None None |}.

(** N-way range settings of the base class with a constant bias of two
    components. *)
Definition nWaySettingsWithBiasOfSizeTwo (component : double) : ObservationSettings :=
  {| observableType_ := n_way_range;
     lightTimeCorrectionsList_ := [];
     biasSettings_ :=
       Some (ConstantObservationBiasSettings constant_absolute_bias
               [component; component] true);
     settingsClass := ObservationSettingsOnly |}.

(** Functions for the flight conditions, for the examples: no body has an
    atmosphere model or aerodynamic coefficients, and flight conditions are
    created without failure. *)
Definition exampleFlightConditionsFunctions : FlightConditionsFunctions :=
  {| getAtmosphereModel := λ _, None;
     getAerodynamicCoefficientInterface := λ _, None;
     createAtmosphericFlightConditions := λ _ _ _ _, Ok (Object 8);
     createFlightConditions := λ _ _ _ _, Ok (Object 9) |}.

(** The altitude of the vehicle over Earth, as a dependent variable. *)
Definition altitudeOfVehicleOverEarth : SingleDependentVariableSaveSettings :=
  {| dependentVariableType_ := altitude_dependent_variable;
     associatedBody_ := "Vehicle";
     secondaryBody_ := "Earth" |}.

Definition StationVehicleStation : LinkEnds :=
  {[ example_transmitter := ("Earth"%string, "Station"%string);
     example_reflector1 := ("Vehicle"%string, ""%string);
     example_receiver := ("Earth"%string, "Station"%string) ]}.

(** Propagated states for the examples: the Sun and body A as
    translationally propagated, A as rotationally propagated, and B with a
    state of the custom type. *)
Definition propagatedSunAndA : IntegratedStateList :=
  {[ translational_state := [("Sun"%string, ""%string); ("A"%string, ""%string)];
     rotational_state := [("A"%string, ""%string)];
     custom_state := [("B"%string, ""%string)] ]}.

(** * Vocabulary of the properties *)

(** The sub-model for which a facet stands is missing from a body. *)
Definition lacksRequiredModel (facet : EnvironmentModelsToUpdate) (body : Body) : Prop :=
  match facet with
  | body_transational_state_update => getEphemeris body = None
  | body_rotational_state_update =>
      getRotationalEphemeris body = None ∧ getDependentOrientationCalculator body = None
  | spherical_harmonic_gravity_field_update =>
      ¬ ∃ field, getGravityFieldModel body = Some field
                 ∧ isSphericalHarmonicsGravityField field = true
  | vehicle_flight_conditions_update => getFlightConditions body = None
  | radiation_pressure_interface_update => getRadiationPressureInterfaces body = ∅
  | body_mass_update => getBodyMassFunction body = None
  | environment_model_other _ => False
  end.

(** Some requested update names, by a name that is not empty, a body that the
    environment does not have or that lacks the model of the facet. *)
Definition requestsMissingModel (requestedUpdates : EnvironmentUpdates)
    (bodyMap : NamedBodyMap) : Prop :=
  ∃ facet names name,
    requestedUpdates !! facet = Some names ∧ name ∈ names ∧ name ≠ ""%string ∧
    (bodyMap !! name = None
     ∨ ∃ body, bodyMap !! name = Some body ∧ lacksRequiredModel facet body).

(** A body has a rotation model: a rotational ephemeris or a dependent
    orientation calculator. *)
Definition hasRotationModel (body : Body) : Prop :=
  getRotationalEphemeris body ≠ None ∨ getDependentOrientationCalculator body ≠ None.

(** The list of a facet, empty when the map has no entry for it. *)
Definition bodiesToUpdate (updates : EnvironmentUpdates) (facet : EnvironmentModelsToUpdate)
    : list string :=
  default [] (updates !! facet).

(** How often a name occurs in a list of body names. *)
Definition occurrences (name : string) (bodies : list string) : nat :=
  length (filter (λ body, body = name) bodies).

(** The checks that [createFullEnvironmentUpdaterSettings] makes pass for a
    body: a mass function, and a time-dependent spherical harmonic gravity
    field that casts to a spherical harmonic one. *)
Definition fullUpdatePossible (body : Body) : Prop :=
  getBodyMassFunction body ≠ None
  ∧ ∀ field, getGravityFieldModel body = Some field →
             isTimeDependentSphericalHarmonicsGravityField field = true →
             isSphericalHarmonicsGravityField field = true.

(** How many entries the loop of [createFullEnvironmentUpdaterSettings]
    makes for a body under a facet. *)
Definition fullUpdateCount (body : Body) (facet : EnvironmentModelsToUpdate) : nat :=
  match facet with
  | vehicle_flight_conditions_update =>
      match getFlightConditions body with Some _ => 1 | None => 0 end
  | radiation_pressure_interface_update => size (getRadiationPressureInterfaces body)
  | body_rotational_state_update =>
      match getRotationalEphemeris body, getDependentOrientationCalculator body with
      | None, None => 0
      | _, _ => 1
      end
  | spherical_harmonic_gravity_field_update =>
      match getGravityFieldModel body with
      | Some field => if isTimeDependentSphericalHarmonicsGravityField field then 1 else 0
      | None => 0
      end
  | body_mass_update => 1
  | body_transational_state_update | environment_model_other _ => 0
  end.

(** The link ends pass the checks of the n-way range: a transmitter, a
    receiver, and before every other link end the link end of the preceding
    type. *)
Definition validNWayChain (linkEnds : LinkEnds) : Prop :=
  is_Some (linkEnds !! transmitter) ∧ is_Some (linkEnds !! receiver)
  ∧ ∀ linkEndType, is_Some (linkEnds !! linkEndType) →
                   linkEndType ≠ transmitter → linkEndType ≠ receiver →
                   is_Some (linkEnds !! (linkEndType - 1)%Z).

(** The settings object is not of class [NWayRangeObservationSettings]. *)
Definition notNWayRangeObservationSettings (settings : ObservationSettings) : Prop :=
  match settingsClass settings with
  | NWayRangeObservationSettings _ _ => False
  | _ => True
  end.


(** A mass rate model has a type outside the two that the resolver knows. *)
Definition unknownMassRateModel (model : MassRateModel) : Prop :=
  ∃ value, getMassRateModelType model = mass_rate_other value.

Definition hasUnknownMassRateModel (massRateModels : gmap string (list MassRateModel))
    : Prop :=
  ∃ name models model,
    massRateModels !! name = Some models ∧ model ∈ models ∧ unknownMassRateModel model.

(** A map of updates has the facets of another, with lists that are lists of
    the other with entries taken out. *)
Definition onlyRemoves (pruned updates : EnvironmentUpdates) : Prop :=
  dom pruned = dom updates
  ∧ ∀ facet, sublist (bodiesToUpdate pruned facet) (bodiesToUpdate updates facet).

(** Every name that a map of updates lists under a facet is listed under that
    facet by another map. *)
Definition includedIn (updates others : EnvironmentUpdates) : Prop :=
  ∀ facet name, name ∈ bodiesToUpdate updates facet → name ∈ bodiesToUpdate others facet.

(** No torque of the map is an aerodynamic torque. *)
Definition noAerodynamicTorque (torqueModels : TorqueModelMap) : Prop :=
  ∀ acceleratedBody exerting exertingBody torques torque,
    torqueModels !! acceleratedBody = Some exerting →
    exerting !! exertingBody = Some torques →
    torque ∈ torques →
    getTorqueModelType torque ≠ aerodynamic_torque.

(** A body after a call is the body before it, except that it may have been
    given flight conditions when it had none. *)
Definition keepsAllButFlightConditions (before after : Body) : Prop :=
  getEphemeris after = getEphemeris before
  ∧ getRotationalEphemeris after = getRotationalEphemeris before
  ∧ getDependentOrientationCalculator after = getDependentOrientationCalculator before
  ∧ getGravityFieldModel after = getGravityFieldModel before
  ∧ getRadiationPressureInterfaces after = getRadiationPressureInterfaces before
  ∧ getBodyMassFunction after = getBodyMassFunction before
  ∧ is_Some (getFlightConditions after)
  ∧ (getFlightConditions before ≠ None →
     getFlightConditions after = getFlightConditions before).

(** An environment after a call has the bodies of the environment before it,
    under the same names; each is as before, or as before with flight
    conditions that it did not have. *)
Definition flightConditionsAdded (before after : NamedBodyMap) : Prop :=
  ∀ name,
    after !! name = before !! name
    ∨ ∃ body body', before !! name = Some body ∧ after !! name = Some body'
                    ∧ keepsAllButFlightConditions body body'.

(** A body of the environment has flight conditions. *)
Definition hasFlightConditions (bodyMap : NamedBodyMap) (name : string) : Prop :=
  ∃ body, bodyMap !! name = Some body ∧ is_Some (getFlightConditions body).

(** The observation size of the class of a simulator. *)
Definition simulatorOfSize (simulator : ObservationSimulatorBase) : Z :=
  match simulator with
  | ObservationSimulator1 _ => 1
  | ObservationSimulator2 _ => 2
  | ObservationSimulator3 _ => 3
  end.

(** The [case] of a state type leaves the map as it is for a propagated body:
    the body is not in the list that the [case] searches.  No body of a type
    outside the four labels is such, the [default] branch throws for it. *)
Definition notListed (updates : EnvironmentUpdates) (stateType : IntegratedStateType)
    (propagated : string * string) : Prop :=
  match stateType with
  | translational_state =>
      propagated.1 ∉ bodiesToUpdate updates body_translational_state_update
  | rotational_state => propagated.1 ∉ bodiesToUpdate updates body_rotational_state_update
  | body_mass_state => propagated.1 ∉ bodiesToUpdate updates body_mass_update
  | custom_state => True
  | integrated_state_other _ => False
  end.

(** A list of propagated states has a body of a state type that the [switch]
    does not name. *)
Definition hasBodyOfUnknownStateType (integratedStateList : IntegratedStateList) : Prop :=
  ∃ value propagatedBodies,
    integratedStateList !! integrated_state_other value = Some propagatedBodies
    ∧ propagatedBodies ≠ [].

(** The list of a facet after the first entry of each propagated body, in
    turn, is erased from it. *)
Definition erasePropagated (bodies : list string) (propagatedBodies : list (string * string))
    : list string :=
  foldl (λ bodies (propagated : string * string), erase_first propagated.1 bodies)
        bodies propagatedBodies.


(** * Properties *)

(** ** Loops *)

Lemma for_each_cases {A} (body : A → result unit) (e : Error) (l : list A) :
  (∀ x, x ∈ l → body x = Ok tt ∨ body x = Throw e) →
  (for_each body l = Ok tt ∧ Forall (λ x, body x = Ok tt) l)
  ∨ (for_each body l = Throw e ∧ Exists (λ x, body x = Throw e) l).
Proof.
  induction l as [|x l IH]; intros Hbody; simpl.
  - left. split; [done | constructor].
  - destruct (Hbody x) as [Hx | Hx]; [by left | |]; rewrite Hx; simpl.
    + destruct IH as [[-> Hall] | [-> Hex]].
      * intros y Hy. apply Hbody. by right.
      * left. split; [done | by constructor].
      * right. split; [done | by apply Exists_cons_tl].
    + right. split; [done | by apply Exists_cons_hd].
Qed.

Lemma for_each_Ok {A} (body : A → result unit) (l : list A) :
  for_each body l = Ok tt ↔ Forall (λ x, body x = Ok tt) l.
Proof.
  induction l as [|x l IH]; simpl.
  - split; [constructor | done].
  - split.
    + destruct (body x) as [[]| |] eqn:Hx; simpl; try done.
      intros Hl. constructor; [done | by apply IH].
    + intros Hall. apply Forall_cons in Hall as [-> Hall]. simpl. by apply IH.
Qed.

(** ** The validity check *)

Lemma checkRequiredEnvironmentUpdate_cases bodyMap facet name :
  checkRequiredEnvironmentUpdate bodyMap facet name = Ok tt
  ∨ checkRequiredEnvironmentUpdate bodyMap facet name = Throw MissingEnvironmentModel.
Proof.
  unfold checkRequiredEnvironmentUpdate.
  repeat (case_bool_decide || case_match); auto.
Qed.

Lemma checkRequiredEnvironmentUpdate_Throw bodyMap facet name :
  checkRequiredEnvironmentUpdate bodyMap facet name = Throw MissingEnvironmentModel
  ↔ name ≠ ""%string
    ∧ (bodyMap !! name = None
       ∨ ∃ body, bodyMap !! name = Some body ∧ lacksRequiredModel facet body).
Proof.
  unfold checkRequiredEnvironmentUpdate.
  case_bool_decide as Hname; [| naive_solver].
  destruct (bodyMap !! name) as [body|] eqn:Hbody; [| naive_solver].
  split.
  - intros Hthrow. split; [done |]. right. exists body. split; [done |].
    destruct facet; simpl; repeat case_match; simplify_eq; try naive_solver.
    + apply map_size_empty_iff.
      match goal with H : bool_decide _ = true |- _ => by apply bool_decide_eq_true in H end.
    + intros (field & [= <-] & Hsh). congruence.
  - intros [_ [? | (body' & [= <-] & Hlacks)]]; [done |].
    destruct facet; simpl in *.
    + by rewrite Hlacks.
    + by destruct Hlacks as [-> ->].
    + by rewrite Hlacks.
    + by rewrite Hlacks.
    + rewrite Hlacks, map_size_empty. done.
    + destruct (getGravityFieldModel body) as [field|]; [| done].
      destruct (isSphericalHarmonicsGravityField field) eqn:Hsh; [| done].
      destruct Hlacks. eauto.
    + done.
Qed.

Lemma checkValidityOfRequiredEnvironmentUpdates_cases requestedUpdates bodyMap :
  checkValidityOfRequiredEnvironmentUpdates requestedUpdates bodyMap = Ok tt
  ∨ checkValidityOfRequiredEnvironmentUpdates requestedUpdates bodyMap
    = Throw MissingEnvironmentModel.
Proof.
  unfold checkValidityOfRequiredEnvironmentUpdates.
  destruct (for_each_cases
    (λ update : EnvironmentModelsToUpdate * list string,
       for_each (checkRequiredEnvironmentUpdate bodyMap update.1) update.2)
    MissingEnvironmentModel (map_to_list requestedUpdates)) as [[-> _] | [-> _]]; auto.
  intros [facet names] _. simpl.
  destruct (for_each_cases (checkRequiredEnvironmentUpdate bodyMap facet)
    MissingEnvironmentModel names) as [[-> _] | [-> _]]; auto.
  intros name _. apply checkRequiredEnvironmentUpdate_cases.
Qed.

Lemma checkValidityOfRequiredEnvironmentUpdates_Ok requestedUpdates bodyMap :
  checkValidityOfRequiredEnvironmentUpdates requestedUpdates bodyMap = Ok tt
  ↔ ∀ facet names name,
      requestedUpdates !! facet = Some names → name ∈ names →
      checkRequiredEnvironmentUpdate bodyMap facet name = Ok tt.
Proof.
  unfold checkValidityOfRequiredEnvironmentUpdates.
  rewrite for_each_Ok, Forall_forall. split.
  - intros Hall facet names name Hfacet Hname.
    specialize (Hall (facet, names)). simpl in Hall.
    rewrite for_each_Ok, Forall_forall in Hall.
    apply Hall; [by apply elem_of_map_to_list | done].
  - intros Hall [facet names] Hin%elem_of_map_to_list. simpl.
    rewrite for_each_Ok, Forall_forall. intros name Hname. by eapply Hall.
Qed.

Lemma for_each_Throw {A} (body : A → result unit) (e : Error) (l : list A) :
  (∀ x, x ∈ l → body x = Ok tt ∨ body x = Throw e) →
  for_each body l = Throw e → ∃ x, x ∈ l ∧ body x = Throw e.
Proof.
  intros Hbody Hthrow.
  destruct (for_each_cases body e l Hbody) as [[Hok _] | [_ Hex]]; [congruence |].
  by apply Exists_exists in Hex.
Qed.

Lemma checkValidityOfRequiredEnvironmentUpdates_Throw requestedUpdates bodyMap :
  checkValidityOfRequiredEnvironmentUpdates requestedUpdates bodyMap
    = Throw MissingEnvironmentModel →
  requestsMissingModel requestedUpdates bodyMap.
Proof.
  unfold checkValidityOfRequiredEnvironmentUpdates. intros Hthrow.
  apply for_each_Throw in Hthrow as ([facet names] & Hin & Hthrow).
  - simpl in Hthrow. apply for_each_Throw in Hthrow as (name & Hname & Hthrow).
    + apply checkRequiredEnvironmentUpdate_Throw in Hthrow as [Hne Hmissing].
      apply elem_of_map_to_list in Hin. by exists facet, names, name.
    + intros x _. apply checkRequiredEnvironmentUpdate_cases.
  - intros [facet' names'] _. simpl.
    destruct (for_each_cases (checkRequiredEnvironmentUpdate bodyMap facet')
      MissingEnvironmentModel names') as [[-> _] | [-> _]]; auto.
    intros name _. apply checkRequiredEnvironmentUpdate_cases.
Qed.

(** C5.  [checkValidityOfRequiredEnvironmentUpdates] throws, with a missing
    environment model as the error, exactly when some requested update names,
    by a name that is not empty, a body that is not in the environment or that
    lacks the model of the facet (ephemeris; rotational ephemeris or dependent
    orientation calculator; spherical harmonic gravity field; flight
    conditions; a radiation pressure interface; body mass function).  Entries
    with an empty name never count.  Otherwise it returns, and what it returns
    is the unit value: its arguments are read, never written. *)
Theorem C5_checkValidity_fails_iff_model_missing
    (requestedUpdates : EnvironmentUpdates) (bodyMap : NamedBodyMap) :
  (checkValidityOfRequiredEnvironmentUpdates requestedUpdates bodyMap
     = Throw MissingEnvironmentModel
   ↔ requestsMissingModel requestedUpdates bodyMap)
  ∧ (checkValidityOfRequiredEnvironmentUpdates requestedUpdates bodyMap = Ok tt
     ↔ ¬ requestsMissingModel requestedUpdates bodyMap).
Proof.
  assert (Hok : checkValidityOfRequiredEnvironmentUpdates requestedUpdates bodyMap = Ok tt
                ↔ ¬ requestsMissingModel requestedUpdates bodyMap).
  { rewrite checkValidityOfRequiredEnvironmentUpdates_Ok. split.
    - intros Hall (facet & names & name & Hfacet & Hname & Hne & Hmissing).
      assert (checkRequiredEnvironmentUpdate bodyMap facet name
              = Throw MissingEnvironmentModel) as Hthrow
        by (by apply checkRequiredEnvironmentUpdate_Throw).
      rewrite (Hall facet names name Hfacet Hname) in Hthrow. done.
    - intros Hnone facet names name Hfacet Hname.
      destruct (checkRequiredEnvironmentUpdate_cases bodyMap facet name) as [? | Hthrow];
        [done |].
      apply checkRequiredEnvironmentUpdate_Throw in Hthrow as [Hne Hmissing].
      destruct Hnone. by exists facet, names, name. }
  split; [| done].
  destruct (checkValidityOfRequiredEnvironmentUpdates_cases requestedUpdates bodyMap)
    as [Hr | Hr]; rewrite Hr in *.
  - split; [done |]. intros Hmissing. by apply Hok in Hmissing.
  - split; [| done]. intros _.
    by apply checkValidityOfRequiredEnvironmentUpdates_Throw.
Qed.

(** ** Pruning of the propagated states *)

Lemma erase_first_split (name : string) (bodies : list string) :
  name ∈ bodies →
  ∃ before after,
    bodies = before ++ (name :: after) ∧ (name ∉ before)
    ∧ erase_first name bodies = before ++ after.
Proof.
  induction bodies as [|body rest IH]; intros Hin.
  - by apply elem_of_nil in Hin.
  - simpl. destruct (decide (body = name)) as [-> | Hne].
    + exists [], rest. split_and!; [done | apply not_elem_of_nil | done].
    + apply elem_of_cons in Hin as [-> | Hin]; [done |].
      destruct (IH Hin) as (before & after & -> & Hnotin & ->).
      exists (body :: before), after. split_and!; [done | | done].
      rewrite not_elem_of_cons. split; [congruence | done].
Qed.

Lemma erase_first_other (name other : string) (bodies : list string) :
  other ≠ name → (other ∈ erase_first name bodies ↔ other ∈ bodies).
Proof.
  intros Hne. induction bodies as [|body rest IH]; simpl; [done |].
  destruct (decide (body = name)) as [-> | Hbody].
  - rewrite elem_of_cons. naive_solver.
  - rewrite !elem_of_cons, IH. done.
Qed.

Lemma removePropagatedBody_found facet name updates bodies :
  updates !! facet = Some bodies → name ∈ bodies →
  removePropagatedBody facet name updates = <[facet := erase_first name bodies]> updates.
Proof.
  intros Hfacet Hin. unfold removePropagatedBody, count. rewrite Hfacet. simpl.
  by rewrite bool_decide_eq_true_2.
Qed.





(** A state type of the [default] branch that has a propagated body makes the
    loops end with the exception, whatever the other entries are. *)
Lemma removePropagatedStatesOfType_outcome stateType updates propagatedBodies :
  (removePropagatedStatesOfType stateType updates propagatedBodies).2 =
  match stateType, propagatedBodies with
  | integrated_state_other _, _ :: _ => Throw UnrecognizedType
  | _, _ => Ok tt
  end.
Proof.
  revert updates. induction propagatedBodies as [|propagated rest IH]; intros updates; simpl.
  - by destruct stateType.
  - destruct stateType; simpl; try done; rewrite IH; by destruct rest.
Qed.

Lemma removePropagatedStatesOfEntries_throws updates entries value propagatedBodies :
  (integrated_state_other value, propagatedBodies) ∈ entries →
  propagatedBodies ≠ [] →
  (removePropagatedStatesOfEntries updates entries).2 = Throw UnrecognizedType.
Proof.
  intros Hin Hbodies. revert updates.
  induction entries as [|[stateType bodies] rest IH]; intros updates.
  - by apply elem_of_nil in Hin.
  - simpl.
    pose proof (removePropagatedStatesOfType_outcome stateType updates bodies) as Hout.
    destruct (removePropagatedStatesOfType stateType updates bodies) as [updated outcome].
    simpl in Hout. subst outcome.
    apply elem_of_cons in Hin as [[= <- <-] | Hin].
    + by destruct propagatedBodies.
    + destruct stateType, bodies; simpl; try done; by apply IH.
Qed.

Lemma removePropagatedStatesOfEntries_custom updates entries :
  Forall (λ entry : IntegratedStateType * list (string * string), entry.1 = custom_state)
         entries →
  removePropagatedStatesOfEntries updates entries = (updates, Ok tt).
Proof.
  induction 1 as [|[stateType bodies] rest Hcustom _ IH]; simpl; [done |].
  simpl in Hcustom. subst stateType.
  assert (removePropagatedStatesOfType custom_state updates bodies = (updates, Ok tt)) as ->.
  { clear. induction bodies as [|propagated rest IH]; simpl; done. }
  done.
Qed.

(** ** Lists of updates *)

Lemma bodiesToUpdate_push_back_at facet name updates facet' :
  bodiesToUpdate (push_back_at facet name updates) facet'
  = if decide (facet = facet') then bodiesToUpdate updates facet ++ [name]
    else bodiesToUpdate updates facet'.
Proof.
  unfold bodiesToUpdate, push_back_at. case_decide as Heq.
  - subst. by rewrite lookup_insert_eq.
  - by rewrite lookup_insert_ne.
Qed.

Lemma bodiesToUpdate_addEnvironmentUpdates updates added facet :
  bodiesToUpdate (addEnvironmentUpdates updates added) facet
  = bodiesToUpdate updates facet ++ bodiesToUpdate added facet.
Proof.
  unfold bodiesToUpdate, addEnvironmentUpdates. rewrite lookup_union_with.
  destruct (updates !! facet), (added !! facet); simpl; by rewrite ?app_nil_r.
Qed.

Lemma bodiesToUpdate_empty facet : bodiesToUpdate ∅ facet = [].
Proof. unfold bodiesToUpdate. by rewrite lookup_empty. Qed.

(** A loop whose body returns or throws one given error does the same. *)
Definition returnsOrThrows {A} (e : Error) (r : result A) : Prop :=
  match r with
  | Ok _ => True
  | Throw e' => e' = e
  | NullDereference => False
  end.

Lemma fold_result_returnsOrThrows {A S} (body : S → A → result S) e s l :
  (∀ s x, returnsOrThrows e (body s x)) → returnsOrThrows e (fold_result body s l).
Proof.
  intros Hbody. revert s. induction l as [|x l IH]; intros s; simpl; [done |].
  specialize (Hbody s x). destruct (body s x); simpl; [apply IH | done | done].
Qed.

Lemma checkValidity_returnsOrThrows requestedUpdates bodyMap :
  returnsOrThrows MissingEnvironmentModel
    (checkValidityOfRequiredEnvironmentUpdates requestedUpdates bodyMap).
Proof.
  by destruct (checkValidityOfRequiredEnvironmentUpdates_cases requestedUpdates bodyMap)
    as [-> | ->].
Qed.

(** ** Torque models *)

Lemma createRotational_returnsOrThrows torqueModels bodyMap :
  returnsOrThrows MissingEnvironmentModel
    (createRotationalEquationsOfMotionEnvironmentUpdaterSettings torqueModels bodyMap).
Proof.
  unfold createRotationalEquationsOfMotionEnvironmentUpdaterSettings.
  apply fold_result_returnsOrThrows. intros updates accelerated.
  apply fold_result_returnsOrThrows. intros updates' exerting.
  pose proof (checkValidity_returnsOrThrows
    (foldl (torqueUpdateNeeds accelerated.1 exerting.1) ∅ exerting.2) bodyMap) as Hcheck.
  by destruct (checkValidityOfRequiredEnvironmentUpdates _ bodyMap).
Qed.

(** C1, as the code has it.  [createRotationalEquationsOfMotionEnvironmentUpdaterSettings]
    never throws for a torque model of a type it does not know: a call returns
    a map or throws for a missing environment model.  For one torque model of
    an unknown type, exerted by Earth on Vehicle, in an empty environment, it
    returns the empty map. *)
Theorem C1_unknown_torque_type_does_not_throw :
  (∀ (torqueModels : TorqueModelMap) (bodyMap : NamedBodyMap),
     createRotationalEquationsOfMotionEnvironmentUpdaterSettings torqueModels bodyMap
     ≠ Throw UnrecognizedType)
  ∧ createRotationalEquationsOfMotionEnvironmentUpdaterSettings
      {[ "Vehicle"%string :=
           {[ "Earth"%string := [ {| getTorqueModelType := torque_other (-1) |} ] ]} ]}
      ∅
    = Ok ∅.
Proof.
  split.
  - intros torqueModels bodyMap Hthrow.
    pose proof (createRotational_returnsOrThrows torqueModels bodyMap) as Hcases.
    rewrite Hthrow in Hcases. simpl in Hcases. done.
  - by vm_compute.
Qed.

(** ** The full set of updates *)

Lemma bodiesToUpdate_push_back_loop {A} facet name (updates : EnvironmentUpdates)
    (l : list A) facet' :
  bodiesToUpdate (foldl (λ needs _, push_back_at facet name needs) updates l) facet'
  = if decide (facet = facet')
    then bodiesToUpdate updates facet ++ replicate (length l) name
    else bodiesToUpdate updates facet'.
Proof.
  revert updates. induction l as [|x l IH]; intros updates; simpl.
  - case_decide; subst; by rewrite ?app_nil_r.
  - rewrite IH, !bodiesToUpdate_push_back_at.
    case_decide; [| done]. subst. rewrite decide_True by done.
    by rewrite <- app_assoc.
Qed.

Lemma fullUpdateNeeds_bodies name body facet :
  bodiesToUpdate (fullUpdateNeeds name body) facet
  = replicate (fullUpdateCount body facet) name.
Proof.
  unfold fullUpdateNeeds, fullUpdateCount.
  rewrite bodiesToUpdate_push_back_at.
  assert (∀ (cond : bool) f n (m : EnvironmentUpdates) f',
            bodiesToUpdate (if cond then push_back_at f n m else m) f'
            = if decide (f = f') then bodiesToUpdate m f ++ (if cond then [n] else [])
              else bodiesToUpdate m f') as Hif.
  { intros [] f n m f'; rewrite ?bodiesToUpdate_push_back_at;
      case_decide; subst; by rewrite ?app_nil_r. }
  destruct (getGravityFieldModel body) as [field|],
           (getRotationalEphemeris body), (getDependentOrientationCalculator body),
           (getFlightConditions body);
    rewrite ?Hif, ?bodiesToUpdate_push_back_at, ?bodiesToUpdate_push_back_loop,
            ?bodiesToUpdate_push_back_at, ?bodiesToUpdate_empty, ?length_map_to_list;
    destruct facet; simpl;
    rewrite ?bodiesToUpdate_push_back_at, ?bodiesToUpdate_push_back_loop,
            ?bodiesToUpdate_push_back_at, ?bodiesToUpdate_empty, ?length_map_to_list;
    simpl; try done;
    try (destruct (isTimeDependentSphericalHarmonicsGravityField field); done).
Qed.

(** What the loop over the bodies has collected under a facet when it ends
    normally. *)
Lemma createFull_loop bodyMap updates entries collected facet :
  fold_result
    (λ environmentModelsToUpdate (entry : string * Body),
       let singleAccelerationUpdateNeeds := fullUpdateNeeds entry.1 entry.2 in
       checkValidityOfRequiredEnvironmentUpdates singleAccelerationUpdateNeeds bodyMap ≫= λ _,
       Ok (addEnvironmentUpdates environmentModelsToUpdate singleAccelerationUpdateNeeds))
    updates entries = Ok collected →
  bodiesToUpdate collected facet
  = bodiesToUpdate updates facet
    ++ concat ((λ entry : string * Body,
                  replicate (fullUpdateCount entry.2 facet) entry.1) <$> entries).
Proof.
  revert updates. induction entries as [|[name body] entries IH]; intros updates; simpl.
  - intros [= <-]. by rewrite app_nil_r.
  - destruct (checkValidityOfRequiredEnvironmentUpdates (fullUpdateNeeds name body) bodyMap);
      simpl; [| done | done].
    intros Hrest. rewrite (IH _ Hrest), bodiesToUpdate_addEnvironmentUpdates,
      fullUpdateNeeds_bodies. by rewrite <- app_assoc.
Qed.

Lemma createFull_bodies bodyMap updates facet :
  createFullEnvironmentUpdaterSettings bodyMap = Ok updates →
  bodiesToUpdate updates facet
  = concat ((λ entry : string * Body, replicate (fullUpdateCount entry.2 facet) entry.1)
              <$> map_to_list bodyMap).
Proof.
  intros Hfull. apply (createFull_loop _ _ _ _ facet) in Hfull.
  by rewrite Hfull, bodiesToUpdate_empty.
Qed.

Lemma elem_of_replicated_names (name : string) (count : Body → nat)
    (entries : list (string * Body)) :
  name ∈ concat ((λ entry : string * Body, replicate (count entry.2) entry.1) <$> entries)
  ↔ ∃ body, (name, body) ∈ entries ∧ count body ≠ 0.
Proof.
  induction entries as [|[name' body'] entries IH]; simpl.
  - split; [by intros ?%elem_of_nil | by intros (? & ?%elem_of_nil & _)].
  - rewrite elem_of_app, elem_of_replicate, IH. split.
    + intros [[-> Hcount] | (body & Hin & Hcount)].
      * exists body'. split; [by left | done].
      * exists body. split; [by right | done].
    + intros (body & [[= -> ->] | Hin]%elem_of_cons & Hcount).
      * by left.
      * right. by exists body.
Qed.

Lemma occurrences_replicated_names (name : string) (count : Body → nat)
    (entries : list (string * Body)) :
  NoDup entries.*1 →
  occurrences name
    (concat ((λ entry : string * Body, replicate (count entry.2) entry.1) <$> entries))
  = match list_to_map (M := gmap string Body) entries !! name with
    | Some body => count body
    | None => 0
    end.
Proof.
  unfold occurrences.
  induction entries as [|[name' body'] entries IH]; csimpl; intros Hnodup.
  - by rewrite lookup_empty.
  - apply NoDup_cons in Hnodup as [Hfresh Hnodup].
    rewrite filter_app, length_app, (IH Hnodup).
    destruct (decide (name' = name)) as [-> | Hne].
    + rewrite lookup_insert_eq.
      rewrite (not_elem_of_list_to_map_1 (M := gmap string) entries name Hfresh).
      assert (filter (λ body, body = name) (replicate (count body') name)
              = replicate (count body') name) as ->.
      { induction (count body') as [|n IHn]; simpl; [done |].
        rewrite filter_cons, decide_True by done. by rewrite IHn. }
      rewrite length_replicate. lia.
    + rewrite lookup_insert_ne by done.
      assert (filter (λ body, body = name) (replicate (count body') name') = []) as ->.
      { induction (count body') as [|n IHn]; simpl; [done |].
        rewrite filter_cons, decide_False by done. by rewrite IHn. }
      done.
Qed.

Lemma fold_result_returns {A S} (body : S → A → result S) (s : S) (l : list A) :
  (∀ s x, x ∈ l → ∃ s', body s x = Ok s') → ∃ s', fold_result body s l = Ok s'.
Proof.
  revert s. induction l as [|x l IH]; intros s Hbody; simpl; [by eexists |].
  destruct (Hbody s x) as [s' ->]; [by left |]. simpl.
  apply IH. intros s'' y Hy. apply Hbody. by right.
Qed.

Lemma checkValidity_fullUpdateNeeds bodyMap name body :
  bodyMap !! name = Some body →
  (name ≠ ""%string → fullUpdatePossible body) →
  checkValidityOfRequiredEnvironmentUpdates (fullUpdateNeeds name body) bodyMap = Ok tt.
Proof.
  intros Hbody Hpossible.
  apply checkValidityOfRequiredEnvironmentUpdates_Ok. intros facet names name' Hfacet Hin.
  pose proof (fullUpdateNeeds_bodies name body facet) as Hbodies.
  unfold bodiesToUpdate in Hbodies. rewrite Hfacet in Hbodies. simpl in Hbodies. subst names.
  apply elem_of_replicate in Hin as [-> Hcount].
  unfold checkRequiredEnvironmentUpdate. case_bool_decide as Hname; [| done].
  rewrite Hbody. destruct (Hpossible Hname) as [Hmass Hfield].
  destruct facet; simpl in *; try done.
  - by repeat case_match.
  - by destruct (getBodyMassFunction body).
  - by destruct (getFlightConditions body).
  - rewrite bool_decide_eq_false_2; done.
  - destruct (getGravityFieldModel body) as [field|]; [| done].
    destruct (isTimeDependentSphericalHarmonicsGravityField field) eqn:Htime; [| done].
    by rewrite (Hfield field eq_refl Htime).
Qed.

Lemma createFull_returns bodyMap :
  (∀ name body, bodyMap !! name = Some body → name ≠ ""%string → fullUpdatePossible body) →
  ∃ updates, createFullEnvironmentUpdaterSettings bodyMap = Ok updates.
Proof.
  intros Hpossible. unfold createFullEnvironmentUpdaterSettings.
  apply fold_result_returns. intros updates [name body] Hin%elem_of_map_to_list. simpl.
  rewrite checkValidity_fullUpdateNeeds; [by eexists | done | by apply Hpossible].
Qed.

(** C7.  In the map that [createFullEnvironmentUpdaterSettings] returns, a
    name is under the rotational state facet exactly when it is the name of a
    body of the environment that has a rotational ephemeris or a dependent
    orientation calculator.  The call returns for every environment of which
    the (named) bodies pass the checks the function makes for the updates it
    adds without a test. *)
Theorem C7_full_updates_rotational_state (bodyMap : NamedBodyMap) :
  (∀ updates name,
     createFullEnvironmentUpdaterSettings bodyMap = Ok updates →
     (name ∈ bodiesToUpdate updates body_rotational_state_update
      ↔ ∃ body, bodyMap !! name = Some body ∧ hasRotationModel body))
  ∧ ((∀ name body, bodyMap !! name = Some body → name ≠ ""%string →
                   fullUpdatePossible body) →
     ∃ updates, createFullEnvironmentUpdaterSettings bodyMap = Ok updates).
Proof.
  split; [| apply createFull_returns].
  intros updates name Hfull.
  rewrite (createFull_bodies _ _ body_rotational_state_update Hfull).
  rewrite (elem_of_replicated_names name
             (λ body, fullUpdateCount body body_rotational_state_update)).
  unfold hasRotationModel. simpl.
  split; intros (body & Hbody & Hrot); exists body.
  - apply elem_of_map_to_list in Hbody. split; [done |].
    destruct (getRotationalEphemeris body), (getDependentOrientationCalculator body);
      naive_solver.
  - split; [by apply elem_of_map_to_list |].
    destruct (getRotationalEphemeris body), (getDependentOrientationCalculator body);
      naive_solver.
Qed.

(** ** The proper time rate calculator *)

(** C9, as the code has it.  For settings of the direct first-order class and
    type, a link end to compute for that is among the link ends, and link
    ends that have a transmitter and a receiver: when the central body has a
    gravity field, the call throws [Unsupported] exactly when the central
    body, with an empty reference point, is the receiver or the transmitter,
    and returns a calculator otherwise; when the central body has no gravity
    field, the call throws. *)
Theorem C9_proper_time_calculator_reference_point
    (centralBodyName : string) (linkEnds : LinkEnds) (bodyMap : NamedBodyMap)
    (linkEndForCalculator : LinkEndType) (receiverId transmitterId : LinkEndId)
    (centralBody : Body) :
  is_Some (linkEnds !! linkEndForCalculator) →
  linkEnds !! receiver = Some receiverId →
  linkEnds !! transmitter = Some transmitterId →
  bodyMap !! centralBodyName = Some centralBody →
  let build :=
    createOneWayDopplerProperTimeCalculator
      (Some (DirectFirstOrderDopplerProperTimeRateSettings
               direct_first_order_doppler_proper_time_rate centralBodyName))
      linkEnds bodyMap linkEndForCalculator in
  (∀ gravityField, getGravityFieldModel centralBody = Some gravityField →
     (build = Throw Unsupported
      ↔ receiverId = (centralBodyName, ""%string)
        ∨ transmitterId = (centralBodyName, ""%string))
     ∧ (receiverId ≠ (centralBodyName, ""%string) →
        transmitterId ≠ (centralBodyName, ""%string) →
        build = Ok {| computationPointLinkEndType := linkEndForCalculator;
                      gravitationalParameterSource := gravityField;
                      referenceBody := centralBodyName;
                      referencePointLinkEndType := unidentified_link_end;
                      referenceBodyStateSource := (centralBodyName, ""%string) |}))
  ∧ (getGravityFieldModel centralBody = None → build = Throw MissingEnvironmentModel).
Proof.
  intros [targetId Htarget] Hreceiver Htransmitter Hbody build. subst build.
  unfold createOneWayDopplerProperTimeCalculator, count. simpl.
  rewrite Htarget, Hbody, Hreceiver, Htransmitter. simpl.
  split.
  - intros gravityField ->. split.
    + repeat case_bool_decide; naive_solver.
    + intros Hr Ht. by rewrite !bool_decide_eq_true_2.
  - by intros ->.
Qed.

(** ** The observation model of size 1 *)

Lemma length_std_map_items {A} (m : gmap Z A) : length (std_map_items m) = size m.
Proof.
  unfold std_map_items. by rewrite merge_sort_Permutation, length_map_to_list.
Qed.

Lemma elem_of_std_map_items {A} (m : gmap Z A) (k : Z) (x : A) :
  (k, x) ∈ std_map_items m ↔ m !! k = Some x.
Proof.
  unfold std_map_items. by rewrite merge_sort_Permutation, elem_of_map_to_list.
Qed.

#[local] Instance key_le_total {A} : Total (@key_le A).
Proof. intros x y. unfold key_le. lia. Qed.

(** An iterator visits the entries by ascending key. *)
Lemma std_map_items_sorted {A} (m : gmap Z A) : Sorted key_le (std_map_items m).
Proof. apply (Sorted_merge_sort key_le). Qed.

Lemma length_consecutiveLinkEnds (linkEnds : LinkEnds) :
  length (consecutiveLinkEnds linkEnds) = size linkEnds - 1.
Proof.
  unfold consecutiveLinkEnds.
  assert (∀ l : list LinkEndId, length (tail l) = length l - 1) as Htail
    by (intros []; simpl; lia).
  rewrite length_zip, Htail, length_fmap, length_std_map_items. lia.
Qed.

(** The two-way Doppler [case] is the only one that uses [self], and it is
    not reached for link ends other than three. *)
Lemma createObservationModel_with_self_unused self self' linkEnds settings bodyMap :
  size linkEnds ≠ 3 →
  createObservationModel_with self linkEnds settings bodyMap
  = createObservationModel_with self' linkEnds settings bodyMap.
Proof.
  intros Hsize. unfold createObservationModel_with.
  destruct (observableType_ settings); try done.
  by rewrite bool_decide_eq_true_2.
Qed.

Lemma size_one_way_link_ends (first second : LinkEndId) :
  size (<[receiver := second]> (<[transmitter := first]> (∅ : LinkEnds))) ≠ 3.
Proof.
  rewrite map_size_insert. case_match; rewrite map_size_insert, lookup_empty, map_size_empty;
    simpl; lia.
Qed.

(** The function defined in two levels satisfies the recursive equation of
    the C++ function. *)
Lemma createObservationModel_unfold linkEnds settings bodyMap :
  createObservationModel linkEnds settings bodyMap
  = createObservationModel_with createObservationModel linkEnds settings bodyMap.
Proof.
  unfold createObservationModel at 1. unfold createObservationModel_with at 1 3.
  destruct (observableType_ settings); try done.
  repeat case_match; try done;
    unfold createObservationModel;
    repeat match goal with
    | |- context [createObservationModel_with
                    (createObservationModel_with ?base)
                    (<[receiver := ?b]> (<[transmitter := ?a]> ∅)) ?s ?bm] =>
        rewrite (createObservationModel_with_self_unused
                   (createObservationModel_with base) base
                   (<[receiver := b]> (<[transmitter := a]> ∅)) s bm
                   (size_one_way_link_ends a b))
    end; done.
Qed.

(** C2, as the code has it.  For one-way Doppler settings without bias
    settings and link ends that are a transmitter and a receiver: settings of
    the base class give a one-way Doppler model without proper time rate
    calculators; settings of class [OneWayDopplerObservationSettings] whose
    two proper time rate settings are null make the factory pass a null
    pointer to [createOneWayDopplerProperTimeCalculator], which dereferences
    it. *)
Theorem C2_one_way_doppler_null_proper_time_settings
    (linkEnds : LinkEnds) (settings : ObservationSettings) (bodyMap : NamedBodyMap)
    (transmitterId receiverId : LinkEndId) :
  observableType_ settings = one_way_doppler →
  biasSettings_ settings = None →
  size linkEnds = 2 →
  linkEnds !! transmitter = Some transmitterId →
  linkEnds !! receiver = Some receiverId →
  (settingsClass settings = ObservationSettingsOnly →
   createObservationModel linkEnds settings bodyMap
   = Ok (OneWayDoppler
           {| dopplerLightTimeCalculator :=
                createLightTimeCalculator transmitterId receiverId bodyMap
                  (lightTimeCorrectionsList_ settings);
              transmitterProperTimeRateFunction := None;
              receiverProperTimeRateFunction := None;
              dopplerObservationBias := None |}))
  ∧ (settingsClass settings = OneWayDopplerObservationSettings None None →
     createObservationModel linkEnds settings bodyMap = NullDereference).
Proof.
  intros Htype Hbias Hsize Htransmitter Hreceiver.
  split; intros Hclass;
    unfold createObservationModel, createObservationModel_with at 1;
    unfold createOptionalObservationBias, count;
    rewrite Htype, Hbias, Hsize, Htransmitter, Hreceiver, Hclass; done.
Qed.

Lemma checkNWayLinkEnds_Ok (linkEnds : LinkEnds) :
  validNWayChain linkEnds →
  for_each (checkNWayLinkEnd linkEnds) (std_map_items linkEnds) = Ok tt.
Proof.
  intros (_ & _ & Hchain). apply for_each_Ok, Forall_forall.
  intros [linkEndType linkEndId] Hin%elem_of_std_map_items.
  unfold checkNWayLinkEnd, count. simpl.
  case_bool_decide as Htransmitter; [| done].
  case_bool_decide as Hreceiver; [| done]. simpl.
  destruct (Hchain linkEndType) as [previous ->]; done.
Qed.

(** The [i]-th pair of the loop that creates the light-time calculators: the
    link end ids of the [i]-th and of the next entry of the map. *)
Lemma consecutiveLinkEnds_lookup (linkEnds : LinkEnds) (i : nat) (link : LinkEndId * LinkEndId) :
  consecutiveLinkEnds linkEnds !! i = Some link
  ↔ (std_map_items linkEnds).*2 !! i = Some link.1
    ∧ (std_map_items linkEnds).*2 !! S i = Some link.2.
Proof.
  unfold consecutiveLinkEnds. destruct link as [first second]. simpl. split.
  - intros (x & y & [= -> ->] & Hx & Hy)%lookup_zip_with_Some.
    by rewrite lookup_tail in Hy.
  - intros [Hx Hy]. apply lookup_zip_with_Some. exists first, second.
    by rewrite lookup_tail.
Qed.

(** C4, as the code has it.  For n-way range settings: with two or more link
    ends that pass the checks of the chain, settings that are not of class
    [NWayRangeObservationSettings], and bias settings that are absent or give
    a bias calculator, the call returns an n-way range model that has one
    light-time calculator for every two link ends that follow each other in
    the map, one less than there are link ends, each with the corrections of
    the settings; without a receiver among the link ends the call throws
    [InvalidLinkEndTopology]. *)
Theorem C4_n_way_range_light_time_calculators
    (linkEnds : LinkEnds) (settings : ObservationSettings) (bodyMap : NamedBodyMap) :
  observableType_ settings = n_way_range →
  (2 ≤ size linkEnds → validNWayChain linkEnds →
   notNWayRangeObservationSettings settings →
   ∀ observationBias,
     createOptionalObservationBias linkEnds settings bodyMap = Ok observationBias →
     let lightTimeCalculators :=
       (λ link : LinkEndId * LinkEndId,
          createLightTimeCalculator link.1 link.2 bodyMap (lightTimeCorrectionsList_ settings))
         <$> consecutiveLinkEnds linkEnds in
     createObservationModel linkEnds settings bodyMap
     = Ok (NWayRangeObservationModel lightTimeCalculators None observationBias)
     ∧ length lightTimeCalculators = size linkEnds - 1
     ∧ (∀ i calculator,
          lightTimeCalculators !! i = Some calculator →
          (std_map_items linkEnds).*2 !! i = Some (transmittingLinkEnd calculator)
          ∧ (std_map_items linkEnds).*2 !! S i = Some (receivingLinkEnd calculator)
          ∧ lightTimeCorrections calculator = lightTimeCorrectionsList_ settings))
  ∧ (linkEnds !! receiver = None →
     createObservationModel linkEnds settings bodyMap = Throw InvalidLinkEndTopology).
Proof.
  intros Htype. split.
  - intros Hsize Hchain Hclass observationBias Hbias calculators.
    unfold createObservationModel, createObservationModel_with at 1. rewrite Htype.
    destruct (Hchain) as ([transmitterId Htransmitter] & [receiverId Hreceiver] & _).
    unfold count. rewrite Htransmitter, Hreceiver.
    destruct (Nat.ltb_spec (size linkEnds) 2) as [? | _]; [lia |]. simpl.
    rewrite (checkNWayLinkEnds_Ok linkEnds Hchain), Hbias. simpl.
    split_and!.
    + unfold notNWayRangeObservationSettings in Hclass.
      by destruct (settingsClass settings).
    + subst calculators. by rewrite length_fmap, length_consecutiveLinkEnds.
    + subst calculators. intros i calculator.
      rewrite list_lookup_fmap_Some. intros (link & -> & Hlink).
      destruct (proj1 (consecutiveLinkEnds_lookup linkEnds i link) Hlink) as [Hfirst Hsecond].
      done.
  - intros Hreceiver.
    unfold createObservationModel, createObservationModel_with at 1. rewrite Htype.
    unfold count. rewrite Hreceiver. simpl. by case_match.
Qed.

(** ** Regrouping of the observation settings *)









(** ** Further properties of the resolver of environment updates *)

Lemma erase_first_sublist (name : string) (bodies : list string) :
  sublist (erase_first name bodies) bodies.
Proof.
  induction bodies as [| body rest IH]; simpl; [done |].
  case_decide; [by apply sublist_cons | by apply sublist_skip].
Qed.

Lemma erase_first_absent (name : string) (bodies : list string) :
  name ∉ bodies → erase_first name bodies = bodies.
Proof.
  induction bodies as [| body rest IH]; simpl; [done |].
  intros [Hne Hrest]%not_elem_of_cons. case_decide; [by subst | by rewrite IH].
Qed.

Lemma removePropagatedBody_only_removes facet name updates :
  dom (removePropagatedBody facet name updates) = dom updates
  ∧ ∀ facet', sublist (bodiesToUpdate (removePropagatedBody facet name updates) facet')
                      (bodiesToUpdate updates facet').
Proof.
  unfold removePropagatedBody, count, bodiesToUpdate.
  destruct (updates !! facet) as [bodies|] eqn:Hfacet; simpl; [| done].
  case_bool_decide; [| done]. split.
  - rewrite dom_insert_L. apply elem_of_dom_2 in Hfacet. set_solver.
  - intros facet'. destruct (decide (facet = facet')) as [<- |].
    + rewrite lookup_insert_eq, Hfacet. simpl. apply erase_first_sublist.
    + by rewrite lookup_insert_ne.
Qed.

Lemma onlyRemoves_refl updates : onlyRemoves updates updates.
Proof. split; [done | intros facet; reflexivity]. Qed.

Lemma onlyRemoves_trans a b c : onlyRemoves a b → onlyRemoves b c → onlyRemoves a c.
Proof.
  intros [Hdom1 Hsub1] [Hdom2 Hsub2]. split; [congruence |].
  intros facet. etrans; [apply Hsub1 | apply Hsub2].
Qed.

Lemma removePropagatedState_onlyRemoves stateType updates propagated updated :
  removePropagatedState stateType updates propagated = Ok updated →
  onlyRemoves updated updates.
Proof.
  destruct stateType; simpl; intros [= <-];
    try apply removePropagatedBody_only_removes; apply onlyRemoves_refl.
Qed.

Lemma removePropagatedStatesOfType_onlyRemoves stateType updates propagatedBodies :
  onlyRemoves (removePropagatedStatesOfType stateType updates propagatedBodies).1 updates.
Proof.
  revert updates. induction propagatedBodies as [| propagated rest IH]; intros updates; simpl.
  - apply onlyRemoves_refl.
  - destruct (removePropagatedState stateType updates propagated) as [updated | |] eqn:Hstate;
      simpl; try apply onlyRemoves_refl.
    eapply onlyRemoves_trans; [apply IH |]. by eapply removePropagatedState_onlyRemoves.
Qed.

Lemma removePropagatedStatesOfEntries_onlyRemoves updates entries :
  onlyRemoves (removePropagatedStatesOfEntries updates entries).1 updates.
Proof.
  revert updates. induction entries as [| entry rest IH]; intros updates; simpl.
  - apply onlyRemoves_refl.
  - pose proof (removePropagatedStatesOfType_onlyRemoves entry.1 updates entry.2) as Htype.
    destruct (removePropagatedStatesOfType entry.1 updates entry.2) as [updated [[] | |]];
      simpl in *; try done.
    eapply onlyRemoves_trans; [apply IH | done].
Qed.

(** X1: the pruning of the propagated states never adds to the update lists:
    the map it leaves has the facets of the map it was given and, for every
    facet, a list that is the given list with some entries taken out, in the
    same order; this holds also when the call throws. *)
Theorem pruning_keeps_facets_and_only_removes_names
    (updates : EnvironmentUpdates) (integratedStateList : IntegratedStateList) :
  dom (removePropagatedStatesFomEnvironmentUpdates updates integratedStateList).1
  = dom updates
  ∧ ∀ facet,
      sublist
        (bodiesToUpdate
           (removePropagatedStatesFomEnvironmentUpdates updates integratedStateList).1 facet)
        (bodiesToUpdate updates facet).
Proof. apply removePropagatedStatesOfEntries_onlyRemoves. Qed.

Lemma removePropagatedBody_absent facet name updates :
  name ∉ bodiesToUpdate updates facet → removePropagatedBody facet name updates = updates.
Proof.
  unfold removePropagatedBody, bodiesToUpdate. intros Hname.
  case_match; [| done]. by rewrite bool_decide_eq_false_2.
Qed.

Lemma removePropagatedStatesOfType_absent stateType updates propagatedBodies :
  (∀ propagated facet, propagated ∈ propagatedBodies →
                       propagated.1 ∉ bodiesToUpdate updates facet) →
  (removePropagatedStatesOfType stateType updates propagatedBodies).1 = updates.
Proof.
  induction propagatedBodies as [| propagated rest IH]; intros Habsent; simpl; [done |].
  assert (removePropagatedState stateType updates propagated = Ok updates
          ∨ ∃ value, stateType = integrated_state_other value) as [-> | [value ->]].
  { destruct stateType; simpl; eauto; left;
      by rewrite removePropagatedBody_absent by (apply Habsent; left). }
  - apply IH. intros ? ? ?. apply Habsent. by right.
  - done.
Qed.

Lemma removePropagatedStatesOfEntries_absent updates entries :
  (∀ entry propagated facet, entry ∈ entries → propagated ∈ entry.2 →
                             propagated.1 ∉ bodiesToUpdate updates facet) →
  (removePropagatedStatesOfEntries updates entries).1 = updates.
Proof.
  induction entries as [| entry rest IH]; intros Habsent; simpl; [done |].
  pose proof (removePropagatedStatesOfType_absent entry.1 updates entry.2) as Htype.
  destruct (removePropagatedStatesOfType entry.1 updates entry.2) as [updated outcome].
  simpl in Htype. rewrite Htype by (intros ? ? ?; eapply Habsent; [left | done]).
  destruct outcome as [[] | |]; try done.
  apply IH. intros ? ? ? ?. apply Habsent. by right.
Qed.

(** X2: when no propagated body is named in a list of the update map, the
    pruning leaves the map as it was given, whatever the state types are
    (also when the call throws for a state type it does not recognise). *)
Theorem pruning_of_bodies_that_are_not_listed
    (updates : EnvironmentUpdates) (integratedStateList : IntegratedStateList) :
  (∀ stateType propagatedBodies propagated facet,
     integratedStateList !! stateType = Some propagatedBodies →
     propagated ∈ propagatedBodies →
     propagated.1 ∉ bodiesToUpdate updates facet) →
  (removePropagatedStatesFomEnvironmentUpdates updates integratedStateList).1 = updates.
Proof.
  intros Habsent. apply removePropagatedStatesOfEntries_absent.
  intros [stateType propagatedBodies] propagated facet Hin%elem_of_map_to_list Hpropagated.
  by eapply Habsent.
Qed.

(** ** Pruning, for every list of propagated states *)

Lemma removePropagatedState_notListed stateType updates propagated :
  notListed updates stateType propagated →
  removePropagatedState stateType updates propagated = Ok updates.
Proof.
  destruct stateType; simpl; intros Hnot; try done;
    by rewrite removePropagatedBody_absent.
Qed.

Lemma notListed_onlyRemoves pruned updates stateType propagated :
  onlyRemoves pruned updates → notListed updates stateType propagated →
  notListed pruned stateType propagated.
Proof.
  intros [_ Hsub]. destruct stateType; simpl; try done;
    intros Hnot Hin; apply Hnot; (eapply elem_of_sublist; [done | apply Hsub]).
Qed.

Lemma removePropagatedStatesOfType_notListed stateType updates propagatedBodies :
  (∀ propagated, propagated ∈ propagatedBodies → notListed updates stateType propagated) →
  removePropagatedStatesOfType stateType updates propagatedBodies = (updates, Ok tt).
Proof.
  induction propagatedBodies as [| propagated rest IH]; intros Hnot; simpl; [done |].
  rewrite removePropagatedState_notListed by (apply Hnot; by left).
  apply IH. intros ? ?. apply Hnot. by right.
Qed.

Lemma removePropagatedBody_listed facet name updates bodies :
  updates !! facet = Some bodies →
  removePropagatedBody facet name updates = <[facet := erase_first name bodies]> updates.
Proof.
  intros Hfacet. destruct (decide (name ∈ bodies)) as [Hin | Hnotin].
  - by apply removePropagatedBody_found.
  - rewrite removePropagatedBody_absent by (unfold bodiesToUpdate; by rewrite Hfacet).
    rewrite erase_first_absent by done. by rewrite insert_id.
Qed.

Lemma removePropagatedStatesOfType_translational updates propagatedBodies bodies :
  updates !! body_translational_state_update = Some bodies →
  removePropagatedStatesOfType translational_state updates propagatedBodies
  = (<[body_translational_state_update := erasePropagated bodies propagatedBodies]> updates,
     Ok tt).
Proof.
  revert updates bodies.
  induction propagatedBodies as [| propagated rest IH]; intros updates bodies Hfacet; simpl.
  - by rewrite insert_id.
  - rewrite (removePropagatedBody_listed _ _ _ bodies) by done.
    rewrite (IH _ (erase_first propagated.1 bodies)) by apply lookup_insert_eq.
    by rewrite insert_insert_eq.
Qed.

Lemma removePropagatedStatesOfEntries_translational updates current entries bodies :
  NoDup entries.*1 →
  onlyRemoves current updates →
  current !! body_translational_state_update = Some bodies →
  (∀ (entry : IntegratedStateType * list (string * string)) propagated,
     entry ∈ entries → entry.1 ≠ translational_state → propagated ∈ entry.2 →
     notListed updates entry.1 propagated) →
  removePropagatedStatesOfEntries current entries
  = (<[body_translational_state_update :=
         erasePropagated bodies
           (default [] ((list_to_map entries : IntegratedStateList) !! translational_state))]>
       current,
     Ok tt).
Proof.
  revert current bodies.
  induction entries as [| [stateType propagatedBodies] rest IH];
    intros current bodies Hnodup Hcurrent Hfacet Hothers; simpl.
  - by rewrite insert_id.
  - apply NoDup_cons in Hnodup as [Hfresh Hnodup].
    destruct (decide (stateType = translational_state)) as [-> | Hkind].
    + rewrite (removePropagatedStatesOfType_translational _ _ bodies) by done.
      rewrite lookup_insert_eq. simpl.
      rewrite (IH _ (erasePropagated bodies propagatedBodies)); first last.
      * intros entry propagated Hentry. apply Hothers. by right.
      * apply lookup_insert_eq.
      * eapply onlyRemoves_trans; [| done].
        pose proof (removePropagatedStatesOfType_onlyRemoves translational_state current
                      propagatedBodies) as Hpruned.
        by rewrite (removePropagatedStatesOfType_translational _ _ bodies) in Hpruned.
      * done.
      * rewrite (not_elem_of_list_to_map_1 _ _ Hfresh). simpl. by rewrite insert_insert_eq.
    + rewrite removePropagatedStatesOfType_notListed.
      * rewrite lookup_insert_ne by done. apply IH; [done.. |].
        intros entry propagated Hentry. apply Hothers. by right.
      * intros propagated Hpropagated. eapply notListed_onlyRemoves; [done |].
        by apply (Hothers (stateType, propagatedBodies)); [left | |].
Qed.

(** Pruning with a list whose propagated bodies of the other state types are
    not listed for their type: the list of the translational state loses the
    first entry of each translationally propagated body, in turn, and nothing
    else changes. *)
Lemma removePropagatedStates_translational updates integratedStateList bodies :
  updates !! body_translational_state_update = Some bodies →
  (∀ stateType propagatedBodies propagated,
     integratedStateList !! stateType = Some propagatedBodies →
     stateType ≠ translational_state → propagated ∈ propagatedBodies →
     notListed updates stateType propagated) →
  removePropagatedStatesFomEnvironmentUpdates updates integratedStateList
  = (<[body_translational_state_update :=
         erasePropagated bodies (default [] (integratedStateList !! translational_state))]>
       updates,
     Ok tt).
Proof.
  intros Hfacet Hothers. unfold removePropagatedStatesFomEnvironmentUpdates.
  rewrite (removePropagatedStatesOfEntries_translational updates updates _ bodies).
  - by rewrite list_to_map_to_list.
  - apply NoDup_fst_map_to_list.
  - apply onlyRemoves_refl.
  - done.
  - intros [stateType propagatedBodies] propagated Hin%elem_of_map_to_list. by apply Hothers.
Qed.

Lemma erasePropagated_absent bodies propagatedBodies :
  (∀ propagated : string * string, propagated ∈ propagatedBodies → propagated.1 ∉ bodies) →
  erasePropagated bodies propagatedBodies = bodies.
Proof.
  unfold erasePropagated.
  induction propagatedBodies as [| propagated rest IH]; intros Habsent; simpl; [done |].
  rewrite erase_first_absent by (apply Habsent; by left).
  apply IH. intros ? ?. apply Habsent. by right.
Qed.

Lemma erasePropagated_once bodies before (A reference : string) after :
  (∀ propagated : string * string,
     propagated ∈ before ++ after → propagated.1 ∉ bodies) →
  erasePropagated bodies (before ++ (A, reference) :: after) = erase_first A bodies.
Proof.
  intros Habsent.
  assert (erasePropagated bodies before = bodies) as Hbefore.
  { apply erasePropagated_absent. intros ? ?. apply Habsent, elem_of_app. by left. }
  unfold erasePropagated in *. rewrite foldl_app, Hbefore. simpl.
  apply (erasePropagated_absent (erase_first A bodies) after).
  intros propagated Hin Herased.
  apply (Habsent propagated); [apply elem_of_app; by right |].
  eapply elem_of_sublist; [done | apply erase_first_sublist].
Qed.

Lemma removePropagatedStatesOfEntries_returns updates entries :
  Forall (λ entry : IntegratedStateType * list (string * string),
            ∀ value, entry.1 = integrated_state_other value → entry.2 = []) entries →
  (removePropagatedStatesOfEntries updates entries).2 = Ok tt.
Proof.
  revert updates. induction entries as [| [stateType propagatedBodies] rest IH];
    intros updates Hall; simpl; [done |].
  apply Forall_cons in Hall as [Hentry Hall].
  pose proof (removePropagatedStatesOfType_outcome stateType updates propagatedBodies)
    as Houtcome.
  destruct (removePropagatedStatesOfType stateType updates propagatedBodies)
    as [updated outcome]. simpl in *.
  assert (outcome = Ok tt) as ->; [| by apply IH].
  rewrite Houtcome. destruct stateType; try done.
  by rewrite (Hentry value eq_refl).
Qed.

(** C6, as the code has it.  For a map whose list under
    [body_translational_state_update] has the bodies A and B, and every list
    of propagated states that names A once as translationally propagated and
    whose other propagated bodies, of every state type, are not in the list
    that the pruning searches for them: the call returns, erases the first
    element equal to A of that list and nothing else, so that B stays and
    every other facet keeps its list.  Propagated states of type
    [custom_state] leave the map as it is.  The call throws exactly when the
    list has a body of a state type outside the four known ones: the test is
    made for each propagated body, so that a state type without bodies is not
    looked at. *)
Theorem C6_pruning_of_a_translationally_propagated_body (updates : EnvironmentUpdates) :
  (∀ (bodies : list string) (A B reference : string)
     (integratedStateList : IntegratedStateList)
     (propagatedBefore propagatedAfter : list (string * string)),
     updates !! body_translational_state_update = Some bodies →
     A ∈ bodies → B ∈ bodies → A ≠ B →
     integratedStateList !! translational_state
     = Some (propagatedBefore ++ (A, reference) :: propagatedAfter) →
     (∀ propagated, propagated ∈ propagatedBefore ++ propagatedAfter →
                    propagated.1 ∉ bodies) →
     (∀ stateType propagatedBodies propagated,
        integratedStateList !! stateType = Some propagatedBodies →
        stateType ≠ translational_state → propagated ∈ propagatedBodies →
        notListed updates stateType propagated) →
     ∃ before after,
       bodies = before ++ (A :: after) ∧ (A ∉ before)
       ∧ removePropagatedStatesFomEnvironmentUpdates updates integratedStateList
         = (<[body_translational_state_update := before ++ after]> updates, Ok tt)
       ∧ B ∈ before ++ after)
  ∧ (∀ integratedStateList : IntegratedStateList,
       (∀ stateType propagatedBodies,
          integratedStateList !! stateType = Some propagatedBodies →
          stateType = custom_state) →
       removePropagatedStatesFomEnvironmentUpdates updates integratedStateList
       = (updates, Ok tt))
  ∧ (∀ integratedStateList : IntegratedStateList,
       (hasBodyOfUnknownStateType integratedStateList →
        (removePropagatedStatesFomEnvironmentUpdates updates integratedStateList).2
        = Throw UnrecognizedType)
       ∧ (¬ hasBodyOfUnknownStateType integratedStateList →
          (removePropagatedStatesFomEnvironmentUpdates updates integratedStateList).2
          = Ok tt)).
Proof.
  split; [| split].
  - intros bodies A B reference integratedStateList propagatedBefore propagatedAfter
      Hfacet HA HB Hne Htranslational Hrest Hothers.
    destruct (erase_first_split A bodies HA) as (before & after & Hbodies & Hnotin & Herase).
    exists before, after. split; [done |]. split; [done |]. split.
    + rewrite (removePropagatedStates_translational _ _ bodies) by done.
      rewrite Htranslational. simpl. by rewrite erasePropagated_once, Herase.
    + rewrite <- Herase. by apply erase_first_other.
  - intros integratedStateList Hcustom.
    apply removePropagatedStatesOfEntries_custom, Forall_forall.
    intros [stateType bodies] Hin%elem_of_map_to_list. simpl. by eapply Hcustom.
  - intros integratedStateList. split.
    + intros (value & propagatedBodies & Hin & Hbodies).
      eapply removePropagatedStatesOfEntries_throws; [| done].
      by apply elem_of_map_to_list.
    + intros Hknown. apply removePropagatedStatesOfEntries_returns, Forall_forall.
      intros [stateType propagatedBodies] Hin%elem_of_map_to_list value. simpl. intros ->.
      destruct propagatedBodies as [| propagated rest]; [done |].
      destruct Hknown. by exists value, (propagated :: rest).
Qed.








(** ** The resolvers of the equations of motion *)

Lemma fold_result_fixed {A S} (body : S → A → result S) (s : S) (e : Error) (l : list A) :
  (∀ x, x ∈ l → body s x = Ok s ∨ body s x = Throw e) →
  (fold_result body s l = Ok s ∧ Forall (λ x, body s x = Ok s) l)
  ∨ (fold_result body s l = Throw e ∧ Exists (λ x, body s x = Throw e) l).
Proof.
  induction l as [| x l IH]; intros Hbody; simpl; [by left |].
  destruct (Hbody x) as [Hx | Hx]; [by left | |]; rewrite Hx; simpl.
  - destruct IH as [[-> Hall] | [-> Hex]]; [intros; apply Hbody; by right | |].
    + left. split; [done |]. by constructor.
    + right. split; [done |]. by apply Exists_cons_tl.
  - right. split; [done |]. by apply Exists_cons_hd.
Qed.

Lemma checkValidityOfRequiredEnvironmentUpdates_empty bodyMap :
  checkValidityOfRequiredEnvironmentUpdates ∅ bodyMap = Ok tt.
Proof. unfold checkValidityOfRequiredEnvironmentUpdates. by rewrite map_to_list_empty. Qed.

Lemma addEnvironmentUpdates_empty (updates : EnvironmentUpdates) :
  addEnvironmentUpdates updates ∅ = updates.
Proof.
  apply map_eq. intros facet. unfold addEnvironmentUpdates.
  rewrite lookup_union_with, lookup_empty. by destruct (updates !! facet).
Qed.

Lemma massRateModels_of_one_body (models : list MassRateModel) bodyMap :
  (fold_result
     (λ environmentModelsToUpdate (model : MassRateModel),
        massRateUpdateNeeds model ≫= λ singleRateModelUpdateNeeds,
        checkValidityOfRequiredEnvironmentUpdates singleRateModelUpdateNeeds bodyMap ≫= λ _,
        Ok (addEnvironmentUpdates environmentModelsToUpdate singleRateModelUpdateNeeds))
     ∅ models = Ok ∅
   ∧ Forall (λ model, ¬ unknownMassRateModel model) models)
  ∨ (fold_result
       (λ environmentModelsToUpdate (model : MassRateModel),
          massRateUpdateNeeds model ≫= λ singleRateModelUpdateNeeds,
          checkValidityOfRequiredEnvironmentUpdates singleRateModelUpdateNeeds bodyMap ≫= λ _,
          Ok (addEnvironmentUpdates environmentModelsToUpdate singleRateModelUpdateNeeds))
       ∅ models = Throw UnrecognizedType
     ∧ Exists unknownMassRateModel models).
Proof.
  assert (∀ model : MassRateModel,
            ((massRateUpdateNeeds model ≫= λ singleRateModelUpdateNeeds,
              checkValidityOfRequiredEnvironmentUpdates singleRateModelUpdateNeeds bodyMap
                ≫= λ _, Ok (addEnvironmentUpdates ∅ singleRateModelUpdateNeeds))
             = Ok ∅ ∧ ¬ unknownMassRateModel model)
            ∨ ((massRateUpdateNeeds model ≫= λ singleRateModelUpdateNeeds,
                checkValidityOfRequiredEnvironmentUpdates singleRateModelUpdateNeeds bodyMap
                  ≫= λ _, Ok (addEnvironmentUpdates ∅ singleRateModelUpdateNeeds))
               = Throw UnrecognizedType ∧ unknownMassRateModel model)) as Hmodel.
  { intros model. unfold massRateUpdateNeeds, unknownMassRateModel.
    destruct (getMassRateModelType model); simpl;
      rewrite ?checkValidityOfRequiredEnvironmentUpdates_empty; simpl;
      rewrite ?addEnvironmentUpdates_empty; [left | left | right]; split; try done;
      by intros [? [=]] || eauto. }
  edestruct (fold_result_fixed
    (λ environmentModelsToUpdate (model : MassRateModel),
       massRateUpdateNeeds model ≫= λ singleRateModelUpdateNeeds,
       checkValidityOfRequiredEnvironmentUpdates singleRateModelUpdateNeeds bodyMap ≫= λ _,
       Ok (addEnvironmentUpdates environmentModelsToUpdate singleRateModelUpdateNeeds))
    ∅ UnrecognizedType models) as [[Hfold Hall] | [Hfold Hex]].
  - intros model _. destruct (Hmodel model) as [[-> _] | [-> _]]; auto.
  - left. split; [done |]. eapply Forall_impl; [done |]. simpl. intros model Hok.
    destruct (Hmodel model) as [[_ ?] | [Hthrow _]]; [done | congruence].
  - right. split; [done |]. eapply Exists_impl; [done |]. simpl. intros model Hthrow.
    destruct (Hmodel model) as [[Hok _] | [_ ?]]; [congruence | done].
Qed.

(** X3: the resolver for the mass propagation asks for no environment update:
    for every environment it returns the empty map when every mass rate model
    is of one of the two known types, and throws for an unrecognised type as
    soon as one model is of another type. *)
Theorem mass_propagation_needs_no_environment_update
    (massRateModels : gmap string (list MassRateModel)) (bodyMap : NamedBodyMap) :
  (¬ hasUnknownMassRateModel massRateModels →
   createMassPropagationEnvironmentUpdaterSettings massRateModels bodyMap = Ok ∅)
  ∧ (hasUnknownMassRateModel massRateModels →
     createMassPropagationEnvironmentUpdaterSettings massRateModels bodyMap
     = Throw UnrecognizedType).
Proof.
  unfold createMassPropagationEnvironmentUpdaterSettings.
  edestruct (fold_result_fixed
    (λ environmentModelsToUpdate (entry : string * list MassRateModel),
       fold_result
         (λ environmentModelsToUpdate (model : MassRateModel),
            massRateUpdateNeeds model ≫= λ singleRateModelUpdateNeeds,
            checkValidityOfRequiredEnvironmentUpdates singleRateModelUpdateNeeds bodyMap ≫= λ _,
            Ok (addEnvironmentUpdates environmentModelsToUpdate singleRateModelUpdateNeeds))
         environmentModelsToUpdate entry.2)
    ∅ UnrecognizedType (map_to_list massRateModels)) as [[Hfold Hall] | [Hfold Hex]].
  - intros entry _.
    destruct (massRateModels_of_one_body entry.2 bodyMap) as [[-> _] | [-> _]]; auto.
  - split; [done |]. intros (name & models & model & Hmodels & Hmodel & Hunknown).
    rewrite Forall_forall in Hall. specialize (Hall (name, models)). simpl in Hall.
    destruct (massRateModels_of_one_body models bodyMap) as [[_ Hknown] | [Hthrow _]].
    + exfalso. rewrite Forall_forall in Hknown. by apply (Hknown model).
    + exfalso. rewrite Hall in Hthrow; [done |]. by apply elem_of_map_to_list.
  - split; [| done]. intros Hknown. exfalso. apply Hknown.
    apply Exists_exists in Hex as ([name models] & Hin%elem_of_map_to_list & Hthrow).
    simpl in Hthrow.
    destruct (massRateModels_of_one_body models bodyMap) as [[Hok _] | [_ Hunknown]];
      [congruence |].
    apply Exists_exists in Hunknown as (model & Hmodel & Hunknown).
    by exists name, models, model.
Qed.

Lemma checkValidity_Ok_bodiesToUpdate requestedUpdates bodyMap :
  checkValidityOfRequiredEnvironmentUpdates requestedUpdates bodyMap = Ok tt
  ↔ ∀ facet name, name ∈ bodiesToUpdate requestedUpdates facet →
                  checkRequiredEnvironmentUpdate bodyMap facet name = Ok tt.
Proof.
  rewrite checkValidityOfRequiredEnvironmentUpdates_Ok. unfold bodiesToUpdate. split.
  - intros Hall facet name Hname.
    destruct (requestedUpdates !! facet) as [names|] eqn:Hfacet; simpl in Hname.
    + by eapply Hall.
    + by apply elem_of_nil in Hname.
  - intros Hall facet names name Hfacet Hname. apply Hall. by rewrite Hfacet.
Qed.

Lemma checkValidity_addEnvironmentUpdates updates added bodyMap :
  checkValidityOfRequiredEnvironmentUpdates updates bodyMap = Ok tt →
  checkValidityOfRequiredEnvironmentUpdates added bodyMap = Ok tt →
  checkValidityOfRequiredEnvironmentUpdates (addEnvironmentUpdates updates added) bodyMap
  = Ok tt.
Proof.
  rewrite !checkValidity_Ok_bodiesToUpdate. intros Hupdates Hadded facet name.
  rewrite bodiesToUpdate_addEnvironmentUpdates, elem_of_app. intros [? | ?]; auto.
Qed.

Lemma fold_result_invariant {A S} (P : S → Prop) (body : S → A → result S) s l s' :
  P s → (∀ s x s', x ∈ l → P s → body s x = Ok s' → P s') →
  fold_result body s l = Ok s' → P s'.
Proof.
  revert s. induction l as [| x l IH]; intros s Hs Hbody; simpl.
  - by intros [= <-].
  - destruct (body s x) as [s1 | |] eqn:Hx; simpl; try done.
    apply IH.
    + eapply Hbody; [by left | done..].
    + intros s2 y s3 Hy. apply Hbody. by right.
Qed.

Lemma checkedUpdates_valid bodyMap (needs : result EnvironmentUpdates) updates updated :
  checkValidityOfRequiredEnvironmentUpdates updates bodyMap = Ok tt →
  (needs ≫= λ single,
   checkValidityOfRequiredEnvironmentUpdates single bodyMap ≫= λ _,
   Ok (addEnvironmentUpdates updates single)) = Ok updated →
  checkValidityOfRequiredEnvironmentUpdates updated bodyMap = Ok tt.
Proof.
  intros Hupdates. destruct needs as [single | |]; simpl; try done.
  destruct (checkValidityOfRequiredEnvironmentUpdates single bodyMap) as [[] | |] eqn:Hsingle;
    simpl; try done.
  intros [= <-]. by apply checkValidity_addEnvironmentUpdates.
Qed.

Lemma createTranslational_valid translationalAccelerationModels bodyMap updates :
  createTranslationalEquationsOfMotionEnvironmentUpdaterSettings
    translationalAccelerationModels bodyMap = Ok updates →
  checkValidityOfRequiredEnvironmentUpdates updates bodyMap = Ok tt.
Proof.
  apply (fold_result_invariant
           (λ updates, checkValidityOfRequiredEnvironmentUpdates updates bodyMap = Ok tt)).
  - apply checkValidityOfRequiredEnvironmentUpdates_empty.
  - intros collected accelerated updated _ Hcollected.
    apply (fold_result_invariant
             (λ updates, checkValidityOfRequiredEnvironmentUpdates updates bodyMap = Ok tt));
      [done |].
    intros collected' exerting updated' _. apply checkedUpdates_valid.
Qed.

Lemma createRotational_valid torqueModels bodyMap updates :
  createRotationalEquationsOfMotionEnvironmentUpdaterSettings torqueModels bodyMap
  = Ok updates →
  checkValidityOfRequiredEnvironmentUpdates updates bodyMap = Ok tt.
Proof.
  apply (fold_result_invariant
           (λ updates, checkValidityOfRequiredEnvironmentUpdates updates bodyMap = Ok tt)).
  - apply checkValidityOfRequiredEnvironmentUpdates_empty.
  - intros collected accelerated updated _ Hcollected.
    apply (fold_result_invariant
             (λ updates, checkValidityOfRequiredEnvironmentUpdates updates bodyMap = Ok tt));
      [done |].
    intros collected' exerting updated' _ Hvalid.
    apply (checkedUpdates_valid bodyMap (Ok _)). done.
Qed.

(** X4: a map of updates that one of the four resolvers returns passes
    [checkValidityOfRequiredEnvironmentUpdates] for the environment it was
    made for: every body it names (by a name that is not empty) is in the
    environment and has the model of the facet under which it is named. *)
Theorem resolvers_return_updates_that_pass_the_check (bodyMap : NamedBodyMap) :
  (∀ translationalAccelerationModels updates,
     createTranslationalEquationsOfMotionEnvironmentUpdaterSettings
       translationalAccelerationModels bodyMap = Ok updates →
     checkValidityOfRequiredEnvironmentUpdates updates bodyMap = Ok tt)
  ∧ (∀ torqueModels updates,
       createRotationalEquationsOfMotionEnvironmentUpdaterSettings torqueModels bodyMap
       = Ok updates →
       checkValidityOfRequiredEnvironmentUpdates updates bodyMap = Ok tt)
  ∧ (∀ massRateModels updates,
       createMassPropagationEnvironmentUpdaterSettings massRateModels bodyMap = Ok updates →
       checkValidityOfRequiredEnvironmentUpdates updates bodyMap = Ok tt)
  ∧ (∀ updates,
       createFullEnvironmentUpdaterSettings bodyMap = Ok updates →
       checkValidityOfRequiredEnvironmentUpdates updates bodyMap = Ok tt).
Proof.
  split; [| split; [| split]].
  - intros ? ?. apply createTranslational_valid.
  - intros ? ?. apply createRotational_valid.
  - intros massRateModels updates.
    apply (fold_result_invariant
             (λ updates, checkValidityOfRequiredEnvironmentUpdates updates bodyMap = Ok tt)).
    + apply checkValidityOfRequiredEnvironmentUpdates_empty.
    + intros collected entry updated _ Hcollected.
      apply (fold_result_invariant
               (λ updates, checkValidityOfRequiredEnvironmentUpdates updates bodyMap = Ok tt));
        [done |].
      intros collected' model updated' _. apply checkedUpdates_valid.
  - intros updates.
    apply (fold_result_invariant
             (λ updates, checkValidityOfRequiredEnvironmentUpdates updates bodyMap = Ok tt)).
    + apply checkValidityOfRequiredEnvironmentUpdates_empty.
    + intros collected entry updated _ Hvalid.
      apply (checkedUpdates_valid bodyMap (Ok _)). done.
Qed.

Lemma includedIn_refl updates : includedIn updates updates.
Proof. by intros facet name. Qed.

Lemma includedIn_trans a b c : includedIn a b → includedIn b c → includedIn a c.
Proof. intros Hab Hbc facet name Hname. by apply Hbc, Hab. Qed.

Lemma includedIn_push_back_at facet name updates :
  includedIn updates (push_back_at facet name updates).
Proof.
  intros facet' name' Hname. rewrite bodiesToUpdate_push_back_at.
  case_decide; [subst; apply elem_of_app; by left | done].
Qed.

Lemma elem_of_push_back_at facet name updates :
  name ∈ bodiesToUpdate (push_back_at facet name updates) facet.
Proof.
  rewrite bodiesToUpdate_push_back_at, decide_True by done.
  apply elem_of_app. right. by left.
Qed.

Lemma includedIn_addEnvironmentUpdates_l updates added :
  includedIn updates (addEnvironmentUpdates updates added).
Proof.
  intros facet name Hname. rewrite bodiesToUpdate_addEnvironmentUpdates.
  apply elem_of_app. by left.
Qed.

Lemma includedIn_addEnvironmentUpdates_r updates added :
  includedIn added (addEnvironmentUpdates updates added).
Proof.
  intros facet name Hname. rewrite bodiesToUpdate_addEnvironmentUpdates.
  apply elem_of_app. by right.
Qed.

Lemma includedIn_empty updates : includedIn ∅ updates.
Proof. intros facet name. rewrite bodiesToUpdate_empty. by intros ?%elem_of_nil. Qed.

(** What a loop has when it returns, for one of its elements: the body
    returned for it, from a state that includes the initial one, a state that
    the final one includes. *)
Lemma fold_result_elem {A} (body : EnvironmentUpdates → A → result EnvironmentUpdates)
    s l s' x :
  (∀ s x s', body s x = Ok s' → includedIn s s') →
  fold_result body s l = Ok s' → x ∈ l →
  ∃ s1 s2, body s1 x = Ok s2 ∧ includedIn s s1 ∧ includedIn s2 s'.
Proof.
  intros Hbody. revert s. induction l as [| y l IH]; intros s; simpl.
  - by intros _ ?%elem_of_nil.
  - destruct (body s y) as [s1 | |] eqn:Hy; simpl; try done.
    intros Hfold [-> | Hx]%elem_of_cons.
    + exists s, s1. split; [done |]. split; [apply includedIn_refl |].
      apply (fold_result_invariant (includedIn s1) body s1 l); [apply includedIn_refl | | done].
      intros s2 z s3 _ Hs2 Hz. eapply includedIn_trans; [done | by eapply Hbody].
    + destruct (IH s1 Hfold Hx) as (s2 & s3 & Hbody' & Hs2 & Hs3).
      exists s2, s3. split; [done |]. split; [| done].
      eapply includedIn_trans; [by eapply Hbody | done].
Qed.

Lemma fold_result_includedIn {A} (body : EnvironmentUpdates → A → result EnvironmentUpdates)
    s l s' :
  (∀ s x s', body s x = Ok s' → includedIn s s') →
  fold_result body s l = Ok s' → includedIn s s'.
Proof.
  intros Hbody. apply (fold_result_invariant (includedIn s)); [apply includedIn_refl |].
  intros s1 x s2 _ Hs1 Hx. eapply includedIn_trans; [done | by eapply Hbody].
Qed.

Lemma checkedUpdates_includedIn bodyMap (needs : result EnvironmentUpdates) updates updated :
  (needs ≫= λ single,
   checkValidityOfRequiredEnvironmentUpdates single bodyMap ≫= λ _,
   Ok (addEnvironmentUpdates updates single)) = Ok updated →
  includedIn updates updated
  ∧ ∃ single, needs = Ok single ∧ includedIn single updated.
Proof.
  destruct needs as [single | |]; simpl; try done.
  destruct (checkValidityOfRequiredEnvironmentUpdates single bodyMap) as [[] | |];
    simpl; try done.
  intros [= <-]. split; [apply includedIn_addEnvironmentUpdates_l |].
  exists single. split; [done | apply includedIn_addEnvironmentUpdates_r].
Qed.

Ltac solve_includedIn :=
  repeat first
    [ apply includedIn_refl
    | eapply includedIn_trans; [| apply includedIn_push_back_at]
    | eapply includedIn_trans; [| apply includedIn_addEnvironmentUpdates_l] ].

Lemma accelerationUpdateNeeds_Ok translationalAccelerationModels acceleratedBody exertingBody
    needs model needs' :
  accelerationUpdateNeeds translationalAccelerationModels acceleratedBody exertingBody
    needs model = Ok needs' →
  includedIn needs needs'
  ∧ (translationalAccelerationModels !! exertingBody = None →
     exertingBody ∈ bodiesToUpdate needs' body_transational_state_update)
  ∧ ∀ value, getAccelerationModelType model ≠ acceleration_other value.
Proof.
  unfold accelerationUpdateNeeds, count. intros Hneeds.
  assert (∃ needs0,
            includedIn needs needs0 ∧ includedIn needs0 needs'
            ∧ (translationalAccelerationModels !! exertingBody = None →
               exertingBody ∈ bodiesToUpdate needs0 body_transational_state_update))
    as (needs0 & Hneeds0 & Hneeds' & Hexerting).
  { destruct (translationalAccelerationModels !! exertingBody) eqn:Hexerting; simpl in Hneeds.
    - exists needs. split; [apply includedIn_refl |]. split; [| done].
      repeat case_match; simplify_eq; solve_includedIn.
    - eexists. split; [apply includedIn_push_back_at |]. split.
      + repeat case_match; simplify_eq; solve_includedIn.
      + intros _. apply elem_of_push_back_at. }
  split; [by eapply includedIn_trans |]. split.
  - intros Hnone. by apply Hneeds', Hexerting.
  - intros value Htype. rewrite Htype in Hneeds. by repeat case_match.
Qed.

Lemma checkRequiredEnvironmentUpdate_ephemeris bodyMap name :
  checkRequiredEnvironmentUpdate bodyMap body_transational_state_update name = Ok tt →
  name ≠ ""%string →
  ∃ body, bodyMap !! name = Some body ∧ getEphemeris body ≠ None.
Proof.
  intros Hcheck Hname.
  destruct (bodyMap !! name) as [body|] eqn:Hbody.
  - exists body. split; [done |]. intros Hephemeris.
    assert (checkRequiredEnvironmentUpdate bodyMap body_transational_state_update name
            = Throw MissingEnvironmentModel) as Hthrow; [| congruence].
    apply checkRequiredEnvironmentUpdate_Throw. split; [done |]. right. by exists body.
  - assert (checkRequiredEnvironmentUpdate bodyMap body_transational_state_update name
            = Throw MissingEnvironmentModel) as Hthrow; [| congruence].
    apply checkRequiredEnvironmentUpdate_Throw. split; [done |]. by left.
Qed.

(** X5: when the resolver for the translational equations of motion returns,
    every acceleration model of the map has one of the types that the
    [switch] names, and every body that exerts an acceleration without being
    accelerated itself is listed for an update of its translational state, is
    in the environment and has an ephemeris (unless its name is empty). *)
Theorem translational_resolver_lists_bodies_that_are_not_propagated
    (translationalAccelerationModels : AccelerationMap) (bodyMap : NamedBodyMap)
    (updates : EnvironmentUpdates) :
  createTranslationalEquationsOfMotionEnvironmentUpdaterSettings
    translationalAccelerationModels bodyMap = Ok updates →
  ∀ acceleratedBody exerting exertingBody models model,
    translationalAccelerationModels !! acceleratedBody = Some exerting →
    exerting !! exertingBody = Some models →
    model ∈ models →
    (∀ value, getAccelerationModelType model ≠ acceleration_other value)
    ∧ (translationalAccelerationModels !! exertingBody = None →
       exertingBody ∈ bodiesToUpdate updates body_transational_state_update
       ∧ (exertingBody ≠ ""%string →
          ∃ body, bodyMap !! exertingBody = Some body ∧ getEphemeris body ≠ None)).
Proof.
  intros Hupdates acceleratedBody exerting exertingBody models model
    Haccelerated Hexerting Hmodel.
  pose proof (createTranslational_valid _ _ _ Hupdates) as Hvalid.
  rewrite checkValidity_Ok_bodiesToUpdate in Hvalid.
  assert (∀ (accelerated : string * gmap string (list AccelerationModel)) s
            (exerting : string * list AccelerationModel) s',
            (fold_result
               (accelerationUpdateNeeds translationalAccelerationModels accelerated.1
                  exerting.1) ∅ exerting.2 ≫= λ singleAccelerationUpdateNeeds,
             checkValidityOfRequiredEnvironmentUpdates singleAccelerationUpdateNeeds bodyMap
               ≫= λ _, Ok (addEnvironmentUpdates s singleAccelerationUpdateNeeds)) = Ok s' →
            includedIn s s') as Hinner.
  { intros accelerated s exerting' s' Hs'. by apply checkedUpdates_includedIn in Hs' as [? _]. }
  unfold createTranslationalEquationsOfMotionEnvironmentUpdaterSettings in Hupdates.
  eapply (fold_result_elem _ _ _ _ (acceleratedBody, exerting)) in Hupdates
    as (s1 & s2 & Hbodies & _ & Hs2); cycle 1.
  { intros s accelerated s'. apply fold_result_includedIn. apply Hinner. }
  { by apply elem_of_map_to_list. }
  simpl in Hbodies.
  eapply (fold_result_elem _ _ _ _ (exertingBody, models)) in Hbodies
    as (s3 & s4 & Hmodels & _ & Hs4); cycle 1.
  { apply (Hinner (acceleratedBody, exerting)). }
  { by apply elem_of_map_to_list. }
  apply checkedUpdates_includedIn in Hmodels as [_ (single & Hsingle & Hincluded)].
  simpl in Hsingle.
  eapply (fold_result_elem _ _ _ _ model) in Hsingle
    as (s5 & s6 & Hneeds & _ & Hs6); cycle 1.
  { intros s x s' Hx. by apply accelerationUpdateNeeds_Ok in Hx as [? _]. }
  { done. }
  apply accelerationUpdateNeeds_Ok in Hneeds as (_ & Hlisted & Htype).
  split; [done |]. intros Hnone.
  assert (exertingBody ∈ bodiesToUpdate updates body_transational_state_update) as Hin.
  { by apply Hs2, Hs4, Hincluded, Hs6, Hlisted. }
  split; [done |]. intros Hname.
  apply checkRequiredEnvironmentUpdate_ephemeris; [| done]. by apply Hvalid.
Qed.

Lemma torqueUpdateNeeds_no_aerodynamic_torque acceleratedBody exertingBody torques :
  Forall (λ torque, getTorqueModelType torque ≠ aerodynamic_torque) torques →
  foldl (torqueUpdateNeeds acceleratedBody exertingBody) ∅ torques = ∅.
Proof.
  induction 1 as [| torque torques Htorque _ IH]; simpl; [done |].
  unfold torqueUpdateNeeds at 2. by destruct (getTorqueModelType torque).
Qed.

Lemma torqueUpdateNeeds_includedIn acceleratedBody exertingBody torques needs :
  includedIn needs (foldl (torqueUpdateNeeds acceleratedBody exertingBody) needs torques).
Proof.
  revert needs. induction torques as [| torque torques IH]; intros needs; simpl.
  - apply includedIn_refl.
  - eapply includedIn_trans; [| apply IH].
    unfold torqueUpdateNeeds. destruct (getTorqueModelType torque); solve_includedIn.
Qed.

Lemma torqueUpdateNeeds_aerodynamic_torque acceleratedBody exertingBody torques needs torque :
  torque ∈ torques → getTorqueModelType torque = aerodynamic_torque →
  acceleratedBody
    ∈ bodiesToUpdate (foldl (torqueUpdateNeeds acceleratedBody exertingBody) needs torques)
        vehicle_flight_conditions_update
  ∧ exertingBody
      ∈ bodiesToUpdate (foldl (torqueUpdateNeeds acceleratedBody exertingBody) needs torques)
          body_rotational_state_update.
Proof.
  revert needs. induction torques as [| torque' torques IH]; intros needs Hin Htype.
  - by apply elem_of_nil in Hin.
  - apply elem_of_cons in Hin as [<- | Hin]; simpl; [| by apply IH].
    unfold torqueUpdateNeeds at 2 4. rewrite Htype.
    split; apply torqueUpdateNeeds_includedIn.
    + apply elem_of_push_back_at.
    + apply includedIn_push_back_at, elem_of_push_back_at.
Qed.

(** X6: the resolver for the rotational equations of motion returns the empty
    map, for every environment, when no torque is an aerodynamic torque; and
    when it returns for a map with an aerodynamic torque, it lists the body on
    which the torque acts for an update of its flight conditions and the body
    that exerts it for an update of its rotational state. *)
Theorem rotational_resolver_requirements (torqueModels : TorqueModelMap)
    (bodyMap : NamedBodyMap) :
  (noAerodynamicTorque torqueModels →
   createRotationalEquationsOfMotionEnvironmentUpdaterSettings torqueModels bodyMap = Ok ∅)
  ∧ (∀ updates acceleratedBody exerting exertingBody torques torque,
       createRotationalEquationsOfMotionEnvironmentUpdaterSettings torqueModels bodyMap
       = Ok updates →
       torqueModels !! acceleratedBody = Some exerting →
       exerting !! exertingBody = Some torques →
       torque ∈ torques →
       getTorqueModelType torque = aerodynamic_torque →
       acceleratedBody ∈ bodiesToUpdate updates vehicle_flight_conditions_update
       ∧ exertingBody ∈ bodiesToUpdate updates body_rotational_state_update).
Proof.
  unfold createRotationalEquationsOfMotionEnvironmentUpdaterSettings. split.
  - intros Hnone.
    assert (∀ acceleratedBody exerting,
              torqueModels !! acceleratedBody = Some exerting →
              fold_result
                (λ environmentModelsToUpdate (exerting : string * list TorqueModel),
                   let singleTorqueUpdateNeeds :=
                     foldl (torqueUpdateNeeds acceleratedBody exerting.1) ∅ exerting.2 in
                   checkValidityOfRequiredEnvironmentUpdates singleTorqueUpdateNeeds bodyMap
                     ≫= λ _,
                   Ok (addEnvironmentUpdates environmentModelsToUpdate
                         singleTorqueUpdateNeeds))
                ∅ (map_to_list exerting) = Ok ∅) as Hexerting.
    { intros acceleratedBody exerting Haccelerated.
      assert (∀ exertingBody torques,
                exerting !! exertingBody = Some torques →
                (checkValidityOfRequiredEnvironmentUpdates
                   (foldl (torqueUpdateNeeds acceleratedBody exertingBody) ∅ torques) bodyMap
                   ≫= λ _,
                 Ok (addEnvironmentUpdates ∅
                       (foldl (torqueUpdateNeeds acceleratedBody exertingBody) ∅ torques)))
                = Ok ∅) as Htorques.
      { intros exertingBody torques Hexerting.
        rewrite torqueUpdateNeeds_no_aerodynamic_torque.
        - rewrite checkValidityOfRequiredEnvironmentUpdates_empty. simpl.
          by rewrite addEnvironmentUpdates_empty.
        - apply Forall_forall. intros torque Htorque. by eapply Hnone. }
      edestruct (fold_result_fixed
        (λ environmentModelsToUpdate (exerting : string * list TorqueModel),
           let singleTorqueUpdateNeeds :=
             foldl (torqueUpdateNeeds acceleratedBody exerting.1) ∅ exerting.2 in
           checkValidityOfRequiredEnvironmentUpdates singleTorqueUpdateNeeds bodyMap ≫= λ _,
           Ok (addEnvironmentUpdates environmentModelsToUpdate singleTorqueUpdateNeeds))
        ∅ UnrecognizedType (map_to_list exerting)) as [[Hfold _] | [_ Hex]]; [| done |].
      - intros [exertingBody torques] Hin%elem_of_map_to_list. left. by apply Htorques.
      - apply Exists_exists in Hex as ([exertingBody torques] & Hin%elem_of_map_to_list
                                       & Hthrow).
        simpl in Hthrow. by rewrite Htorques in Hthrow. }
    edestruct (fold_result_fixed
      (λ environmentModelsToUpdate (accelerated : string * gmap string (list TorqueModel)),
         fold_result
           (λ environmentModelsToUpdate (exerting : string * list TorqueModel),
              let singleTorqueUpdateNeeds :=
                foldl (torqueUpdateNeeds accelerated.1 exerting.1) ∅ exerting.2 in
              checkValidityOfRequiredEnvironmentUpdates singleTorqueUpdateNeeds bodyMap
                ≫= λ _,
              Ok (addEnvironmentUpdates environmentModelsToUpdate singleTorqueUpdateNeeds))
           environmentModelsToUpdate (map_to_list accelerated.2))
      ∅ UnrecognizedType (map_to_list torqueModels)) as [[Hfold _] | [_ Hex]]; [| done |].
    + intros [acceleratedBody exerting] Hin%elem_of_map_to_list. left. by eapply Hexerting.
    + apply Exists_exists in Hex as ([acceleratedBody exerting] & Hin%elem_of_map_to_list
                                     & Hthrow).
      simpl in Hthrow. by erewrite Hexerting in Hthrow.
  - intros updates acceleratedBody exerting exertingBody torques torque Hupdates
      Haccelerated Hexerting Htorque Htype.
    assert (∀ (accelerated : string) s (exerting : string * list TorqueModel) s',
              (let singleTorqueUpdateNeeds :=
                 foldl (torqueUpdateNeeds accelerated exerting.1) ∅ exerting.2 in
               checkValidityOfRequiredEnvironmentUpdates singleTorqueUpdateNeeds bodyMap
                 ≫= λ _, Ok (addEnvironmentUpdates s singleTorqueUpdateNeeds)) = Ok s' →
              includedIn s s') as Hinner.
    { intros accelerated s exerting' s' Hs'.
      by apply (checkedUpdates_includedIn bodyMap (Ok _)) in Hs' as [? _]. }
    eapply (fold_result_elem _ _ _ _ (acceleratedBody, exerting)) in Hupdates
      as (s1 & s2 & Hbodies & _ & Hs2); cycle 1.
    { intros s accelerated s'. apply fold_result_includedIn. apply Hinner. }
    { by apply elem_of_map_to_list. }
    simpl in Hbodies.
    eapply (fold_result_elem _ _ _ _ (exertingBody, torques)) in Hbodies
      as (s3 & s4 & Hmodels & _ & Hs4); cycle 1.
    { apply Hinner. }
    { by apply elem_of_map_to_list. }
    apply (checkedUpdates_includedIn bodyMap (Ok _)) in Hmodels
      as [_ (single & [= <-] & Hincluded)].
    destruct (torqueUpdateNeeds_aerodynamic_torque acceleratedBody exertingBody torques ∅
                torque Htorque Htype) as [Hflight Hrotation].
    split; by apply Hs2, Hs4, Hincluded.
Qed.

(** ** Further properties: dependent variables and termination settings *)

Lemma checkAndModifyEnvironment_cases settings bodyMap :
  (checkAndModifyEnvironmentForDependentVariableSaving vehicle_flight_conditions_update
     settings bodyMap = (bodyMap, Ok tt)
   ∧ hasFlightConditions bodyMap (associatedBody_ settings))
  ∨ (∃ body flightConditions,
       bodyMap !! associatedBody_ settings = Some body
       ∧ getFlightConditions body = None
       ∧ checkAndModifyEnvironmentForDependentVariableSaving vehicle_flight_conditions_update
           settings bodyMap
         = (<[associatedBody_ settings := setFlightConditions body flightConditions]> bodyMap,
            Ok tt))
  ∨ (∃ outcome,
       checkAndModifyEnvironmentForDependentVariableSaving vehicle_flight_conditions_update
         settings bodyMap = (bodyMap, outcome)
       ∧ outcome ≠ Ok tt).
Proof.
  unfold checkAndModifyEnvironmentForDependentVariableSaving, hasFlightConditions.
  destruct (bodyMap !! associatedBody_ settings) as [body|] eqn:Hbody;
    [| right; right; by eexists].
  destruct (getFlightConditions body) as [flightConditions|] eqn:Hflight.
  { left. split; [done |]. exists body. by rewrite Hflight. }
  destruct (bodyMap !! secondaryBody_ settings) as [secondaryBody|];
    [| right; right; by eexists].
  match goal with
  | |- context [match ?created with Ok _ => _ | Throw _ => _ | NullDereference => _ end] =>
      destruct created as [flightConditions | e |]
  end.
  - right. left. by exists body, flightConditions.
  - right. right. by eexists.
  - right. right. by eexists.
Qed.

Lemma createForDependentVariables_cases settings bodyMap :
  (∃ updates,
     createEnvironmentUpdaterSettingsForDependentVariables settings bodyMap
     = (bodyMap, Ok updates)
     ∧ dependentVariableUpdates settings = Ok updates
     ∧ (is_Some (updates !! vehicle_flight_conditions_update) →
        hasFlightConditions bodyMap (associatedBody_ settings)))
  ∨ (∃ updates body flightConditions,
       bodyMap !! associatedBody_ settings = Some body
       ∧ getFlightConditions body = None
       ∧ dependentVariableUpdates settings = Ok updates
       ∧ is_Some (updates !! vehicle_flight_conditions_update)
       ∧ createEnvironmentUpdaterSettingsForDependentVariables settings bodyMap
         = (<[associatedBody_ settings := setFlightConditions body flightConditions]> bodyMap,
            Ok updates))
  ∨ (∃ outcome,
       createEnvironmentUpdaterSettingsForDependentVariables settings bodyMap
       = (bodyMap, outcome)
       ∧ ∀ updates, outcome ≠ Ok updates).
Proof.
  unfold createEnvironmentUpdaterSettingsForDependentVariables, count.
  destruct (dependentVariableUpdates settings) as [updates | e |];
    [| right; right; by eexists..].
  destruct (updates !! vehicle_flight_conditions_update) as [names|] eqn:Hflight;
    cbn -[checkAndModifyEnvironmentForDependentVariableSaving].
  - destruct (checkAndModifyEnvironment_cases settings bodyMap)
      as [[-> Hhas] | [(body & flightConditions & Hbody & Hnone & ->)
                      | (outcome & -> & Houtcome)]].
    + left. by exists updates.
    + right. left. by exists updates, body, flightConditions.
    + right. right. destruct outcome as [[] | e |]; [done | by eexists..].
  - left. exists updates. split; [done |]. split; [done |].
    rewrite Hflight. by intros [? [=]].
Qed.

(** X7: when the resolver for one dependent variable returns a map with an
    entry for the flight conditions, the body with which the variable is
    associated has flight conditions in the environment that the call leaves:
    the check of that facet cannot fail afterwards for want of flight
    conditions. *)
Theorem dependent_variable_resolver_creates_flight_conditions
    (settings : SingleDependentVariableSaveSettings) (bodyMap modified : NamedBodyMap)
    (updates : EnvironmentUpdates) :
  createEnvironmentUpdaterSettingsForDependentVariables settings bodyMap
  = (modified, Ok updates) →
  is_Some (updates !! vehicle_flight_conditions_update) →
  hasFlightConditions modified (associatedBody_ settings)
  ∧ checkRequiredEnvironmentUpdate modified vehicle_flight_conditions_update
      (associatedBody_ settings) = Ok tt.
Proof.
  intros Hcreate Hflight.
  assert (hasFlightConditions modified (associatedBody_ settings)) as Hhas.
  { destruct (createForDependentVariables_cases settings bodyMap)
      as [(updates' & Heq & _ & Hhas)
         | [(updates' & body & flightConditions & Hbody & Hnone & _ & _ & Heq)
           | (outcome & Heq & Houtcome)]];
      rewrite Heq in Hcreate; simplify_eq.
    - by apply Hhas.
    - exists (setFlightConditions body flightConditions).
      by rewrite lookup_insert_eq.
    - by destruct (Houtcome updates). }
  split; [done |]. destruct Hhas as (body & Hbody & [flightConditions Hflight']).
  unfold checkRequiredEnvironmentUpdate. case_bool_decide; [| done].
  by rewrite Hbody, Hflight'.
Qed.

(** X8: the resolver for one dependent variable changes the environment in
    one case only: it returns normally, the body with which the variable is
    associated had no flight conditions, and that body is given flight
    conditions (nothing else of it changes, and no other body does).  When the
    call throws, for a variable that the [switch] does not name or for a body
    that is not in the environment, the environment is as it was. *)
Theorem dependent_variable_resolver_changes_flight_conditions_only
    (settings : SingleDependentVariableSaveSettings) (bodyMap : NamedBodyMap) :
  ((createEnvironmentUpdaterSettingsForDependentVariables settings bodyMap).1 = bodyMap
   ∨ ∃ body flightConditions updates,
       bodyMap !! associatedBody_ settings = Some body
       ∧ getFlightConditions body = None
       ∧ createEnvironmentUpdaterSettingsForDependentVariables settings bodyMap
         = (<[associatedBody_ settings := setFlightConditions body flightConditions]> bodyMap,
            Ok updates))
  ∧ ((∀ updates,
        (createEnvironmentUpdaterSettingsForDependentVariables settings bodyMap).2
        ≠ Ok updates) →
     (createEnvironmentUpdaterSettingsForDependentVariables settings bodyMap).1 = bodyMap)
  ∧ (∀ value, dependentVariableType_ settings = dependent_variable_other value →
       createEnvironmentUpdaterSettingsForDependentVariables settings bodyMap
       = (bodyMap, Throw UnrecognizedType)).
Proof.
  split; [| split].
  - destruct (createForDependentVariables_cases settings bodyMap)
      as [(updates' & -> & _)
         | [(updates' & body & flightConditions & Hbody & Hnone & _ & _ & ->)
           | (outcome & -> & _)]]; [by left | | by left].
    right. by exists body, flightConditions, updates'.
  - destruct (createForDependentVariables_cases settings bodyMap)
      as [(updates' & -> & _)
         | [(updates' & body & flightConditions & Hbody & Hnone & _ & _ & ->)
           | (outcome & -> & _)]]; [done | | done].
    intros Hthrows. by destruct (Hthrows updates').
  - intros value Htype.
    unfold createEnvironmentUpdaterSettingsForDependentVariables, dependentVariableUpdates.
    by rewrite Htype.
Qed.

Lemma keepsAllButFlightConditions_set body flightConditions :
  getFlightConditions body = None →
  keepsAllButFlightConditions body (setFlightConditions body flightConditions).
Proof. intros Hnone. unfold keepsAllButFlightConditions. simpl. by repeat split. Qed.

Lemma keepsAllButFlightConditions_trans a b c :
  keepsAllButFlightConditions a b → keepsAllButFlightConditions b c →
  keepsAllButFlightConditions a c.
Proof.
  unfold keepsAllButFlightConditions.
  intros (? & ? & ? & ? & ? & ? & Hb & Hab) (? & ? & ? & ? & ? & ? & Hc & Hbc).
  repeat split; try congruence.
  intros Ha. rewrite Hbc, Hab; [done.. |]. destruct Hb as [? Hb]. by rewrite Hb.
Qed.

Lemma flightConditionsAdded_refl bodyMap : flightConditionsAdded bodyMap bodyMap.
Proof. intros name. by left. Qed.

Lemma flightConditionsAdded_trans a b c :
  flightConditionsAdded a b → flightConditionsAdded b c → flightConditionsAdded a c.
Proof.
  intros Hab Hbc name.
  destruct (Hab name) as [Hab' | (body & body' & Ha & Hb & Hkeeps)];
    destruct (Hbc name) as [Hbc' | (body1 & body1' & Hb1 & Hc & Hkeeps1)].
  - left. congruence.
  - right. exists body1, body1'. by rewrite <- Hab'.
  - right. exists body, body'. by rewrite Hbc'.
  - right. exists body, body1'. split; [done |]. split; [done |].
    simplify_eq. by eapply keepsAllButFlightConditions_trans.
Qed.

Lemma createForDependentVariables_flightConditionsAdded settings bodyMap :
  flightConditionsAdded bodyMap
    (createEnvironmentUpdaterSettingsForDependentVariables settings bodyMap).1.
Proof.
  destruct (createForDependentVariables_cases settings bodyMap)
    as [(updates' & -> & _)
       | [(updates' & body & flightConditions & Hbody & Hnone & _ & _ & ->)
         | (outcome & -> & _)]]; try apply flightConditionsAdded_refl.
  intros name. simpl. destruct (decide (name = associatedBody_ settings)) as [-> |].
  - right. exists body, (setFlightConditions body flightConditions).
    rewrite lookup_insert_eq. split; [done |]. split; [done |].
    by apply keepsAllButFlightConditions_set.
  - left. by rewrite lookup_insert_ne.
Qed.

Lemma hasFlightConditions_flightConditionsAdded before after name :
  flightConditionsAdded before after → hasFlightConditions before name →
  hasFlightConditions after name.
Proof.
  intros Hadded (body & Hbody & Hflight).
  destruct (Hadded name) as [Heq | (body1 & body' & Hbody1 & Hbody' & Hkeeps)].
  - exists body. by rewrite Heq.
  - exists body'. split; [done |]. by destruct Hkeeps as (_ & _ & _ & _ & _ & _ & ? & _).
Qed.

Lemma createOfVariables_flightConditionsAdded dependentVariableList updates bodyMap :
  flightConditionsAdded bodyMap
    (createEnvironmentUpdaterSettingsOfVariables dependentVariableList updates bodyMap).1.
Proof.
  revert updates bodyMap.
  induction dependentVariableList as [| settings rest IH]; intros updates bodyMap; simpl.
  - apply flightConditionsAdded_refl.
  - pose proof (createForDependentVariables_flightConditionsAdded settings bodyMap) as Hone.
    destruct (createEnvironmentUpdaterSettingsForDependentVariables settings bodyMap)
      as [modified [single | e |]]; simpl in *; try done.
    eapply flightConditionsAdded_trans; [done | apply IH].
Qed.

(** X9: the resolver for the list of dependent variables to save returns,
    for a null pointer, the empty map and the environment as it was; for a
    list, every body of the environment is afterwards as it was before or has
    been given flight conditions that it lacked (no body is added or removed,
    and nothing else of a body changes), also when the call throws; and when
    the call returns, each variable of the list whose own entry of the table
    has the flight conditions facet has a body with flight conditions in the
    environment that the call leaves. *)
Theorem dependent_variables_resolver_adds_flight_conditions
    (dependentVariables_ : list SingleDependentVariableSaveSettings)
    (bodyMap : NamedBodyMap) :
  createEnvironmentUpdaterSettings_dependentVariables None bodyMap = (bodyMap, Ok ∅)
  ∧ flightConditionsAdded bodyMap
      (createEnvironmentUpdaterSettings_dependentVariables (Some dependentVariables_)
         bodyMap).1
  ∧ ∀ modified updates settings single,
      createEnvironmentUpdaterSettings_dependentVariables (Some dependentVariables_) bodyMap
      = (modified, Ok updates) →
      settings ∈ dependentVariables_ →
      dependentVariableUpdates settings = Ok single →
      is_Some (single !! vehicle_flight_conditions_update) →
      hasFlightConditions modified (associatedBody_ settings).
Proof.
  split; [done |]. split; [apply createOfVariables_flightConditionsAdded |].
  simpl. generalize (∅ : EnvironmentUpdates). revert bodyMap.
  induction dependentVariables_ as [| first rest IH];
    intros bodyMap collected modified updates settings single Hcreate Hin Hsingle Hflight.
  - by apply elem_of_nil in Hin.
  - simpl in Hcreate.
    destruct (createEnvironmentUpdaterSettingsForDependentVariables first bodyMap)
      as [modified1 [single1 | e |]] eqn:Hfirst; simplify_eq.
    apply elem_of_cons in Hin as [-> | Hin]; [| by eapply IH].
    eapply hasFlightConditions_flightConditionsAdded.
    { pose proof (createOfVariables_flightConditionsAdded rest
                    (addEnvironmentUpdates collected single1) modified1) as Hrest.
      by rewrite Hcreate in Hrest. }
    destruct (createForDependentVariables_cases first bodyMap)
      as [(updates' & Heq & Htable & Hhas)
         | [(updates' & body & flightConditions & Hbody & Hnone & _ & _ & Heq)
           | (outcome & Heq & Houtcome)]];
      rewrite Heq in Hfirst; simplify_eq.
    + apply Hhas. congruence.
    + exists (setFlightConditions body flightConditions). by rewrite lookup_insert_eq.
    + by destruct (Houtcome single1).
Qed.

Lemma createForTermination_flightConditionsAdded :
  ∀ (terminationSettings : PropagationTerminationSettings) (bodyMap : NamedBodyMap),
    flightConditionsAdded bodyMap
      (createEnvironmentUpdaterSettings_termination terminationSettings bodyMap).1.
Proof.
  fix IH 1. intros terminationSettings bodyMap.
  destruct terminationSettings as [type | type dependentVariableSettings | type children];
    destruct type; simpl; try apply flightConditionsAdded_refl.
  - destruct dependentVariableSettings as [settings|]; [| apply flightConditionsAdded_refl].
    pose proof (createForDependentVariables_flightConditionsAdded settings bodyMap) as Hone.
    by destruct (createEnvironmentUpdaterSettingsForDependentVariables settings bodyMap)
      as [modified [single | e |]].
  - generalize (∅ : EnvironmentUpdates). revert bodyMap.
    induction children as [| child rest IHrest]; intros bodyMap collected.
    + apply flightConditionsAdded_refl.
    + destruct child as [child|]; [| apply flightConditionsAdded_refl].
      pose proof (IH child bodyMap) as Hchild.
      destruct (createEnvironmentUpdaterSettings_termination child bodyMap)
        as [modified [single | e |]]; simpl in *; try done.
      eapply flightConditionsAdded_trans; [done | apply IHrest].
Qed.

(** X10: the resolver for termination settings, over the whole tree of a
    hybrid condition: every body of the environment is afterwards as it was
    before or has been given flight conditions that it lacked, also when the
    call fails; conditions on time and on CPU time ask for no update; and the
    two casts are used without a test, so that settings whose type is that of
    a dependent-variable condition or of a hybrid condition but whose class is
    the base class end in the dereference of a null pointer, as do
    dependent-variable settings that are null. *)
Theorem termination_resolver_changes_flight_conditions_only (bodyMap : NamedBodyMap) :
  (∀ terminationSettings,
     flightConditionsAdded bodyMap
       (createEnvironmentUpdaterSettings_termination terminationSettings bodyMap).1)
  ∧ (∀ terminationSettings,
       terminationType_ terminationSettings = time_stopping_condition
       ∨ terminationType_ terminationSettings = cpu_time_stopping_condition →
       createEnvironmentUpdaterSettings_termination terminationSettings bodyMap
       = (bodyMap, Ok ∅))
  ∧ createEnvironmentUpdaterSettings_termination
      (PropagationTerminationSettingsOnly dependent_variable_stopping_condition) bodyMap
    = (bodyMap, NullDereference)
  ∧ createEnvironmentUpdaterSettings_termination
      (PropagationTerminationSettingsOnly hybrid_stopping_condition) bodyMap
    = (bodyMap, NullDereference)
  ∧ createEnvironmentUpdaterSettings_termination
      (PropagationDependentVariableTerminationSettings dependent_variable_stopping_condition
         None) bodyMap
    = (bodyMap, NullDereference).
Proof.
  split; [intros; apply createForTermination_flightConditionsAdded |].
  split; [| done].
  intros terminationSettings [Htype | Htype];
    destruct terminationSettings; simpl in *; by rewrite Htype.
Qed.

Lemma elem_of_bodiesToUpdate_push_back_at facet name updates facet' name' :
  name' ∈ bodiesToUpdate (push_back_at facet name updates) facet' →
  name' ∈ bodiesToUpdate updates facet' ∨ name' = name.
Proof.
  rewrite bodiesToUpdate_push_back_at. case_decide; [| by left].
  subst. rewrite elem_of_app, list_elem_of_singleton. tauto.
Qed.

(** X11: the table of the dependent variables names no body other than the
    two of the settings: every name in a list of the map that the [switch]
    makes is the body with which the variable is associated or the secondary
    body. *)
Theorem dependent_variable_updates_name_the_two_bodies_only
    (settings : SingleDependentVariableSaveSettings) (updates : EnvironmentUpdates)
    (facet : EnvironmentModelsToUpdate) (name : string) :
  dependentVariableUpdates settings = Ok updates →
  name ∈ bodiesToUpdate updates facet →
  name = associatedBody_ settings ∨ name = secondaryBody_ settings.
Proof.
  unfold dependentVariableUpdates, aerodynamicVariableUpdates, relativeStateVariableUpdates,
    bodyFixedPositionVariableUpdates, radiationPressureVariableUpdates.
  intros Hupdates Hname.
  destruct (dependentVariableType_ settings); simplify_eq;
    repeat (apply elem_of_bodiesToUpdate_push_back_at in Hname as [Hname | ->]; [| by auto]);
    rewrite bodiesToUpdate_empty in Hname; by apply elem_of_nil in Hname.
Qed.

(** ** Further properties of the observation-model factory *)

Lemma checkArcBiasSizes_loop (ObservationSize : nat) (copied biases : list (list double)) :
  (Forall (λ bias, length bias = ObservationSize) biases →
   fold_result
     (λ copied bias,
        if bool_decide (length bias ≠ ObservationSize) then Throw DimensionMismatch
        else Ok (copied ++ [bias]))
     copied biases = Ok (copied ++ biases))
  ∧ (Exists (λ bias, length bias ≠ ObservationSize) biases →
     fold_result
       (λ copied bias,
          if bool_decide (length bias ≠ ObservationSize) then Throw DimensionMismatch
          else Ok (copied ++ [bias]))
       copied biases = Throw DimensionMismatch).
Proof.
  revert copied. induction biases as [| bias biases IH]; intros copied; simpl.
  - split; [intros _; by rewrite app_nil_r | by intros ?%Exists_nil].
  - case_bool_decide as Hsize; simpl.
    + split; [| done]. by intros [? _]%Forall_cons.
    + destruct (IH (copied ++ [bias])) as [IHall IHex]. split.
      * intros [_ Hall]%Forall_cons. rewrite IHall by done. by rewrite <- app_assoc.
      * intros [? | Hex]%Exists_cons; [done | by apply IHex].
Qed.

Lemma checkArcBiasSizes_cases (ObservationSize : nat) (biases : list (list double)) :
  (Forall (λ bias, length bias = ObservationSize) biases →
   checkArcBiasSizes ObservationSize biases = Ok biases)
  ∧ (Exists (λ bias, length bias ≠ ObservationSize) biases →
     checkArcBiasSizes ObservationSize biases = Throw DimensionMismatch).
Proof. apply (checkArcBiasSizes_loop ObservationSize []). Qed.

(** X12: for bias settings made by the constructors of the two classes of
    constant biases, the test "class settings are inconsistent" never fires:
    a constant bias is created exactly when the bias has the size of the
    observable, and the factory throws for the size otherwise; an arc-wise
    bias with an arc of another size throws for the size before the link end
    index is looked up, and with arcs of the right size the biases of the
    arcs are passed on unchanged and in their order. *)
Theorem bias_settings_of_the_constructors (ObservationSize : nat) (linkEnds : LinkEnds)
    (observableType : ObservableType) (bodyMap : NamedBodyMap) (useAbsoluteBias : bool) :
  (∀ observationBias,
     createObservationBiasCalculator ObservationSize linkEnds observableType
       (new_ConstantObservationBiasSettings observationBias useAbsoluteBias) bodyMap
     = if bool_decide (length observationBias = ObservationSize)
       then Ok (if useAbsoluteBias then ConstantObservationBias observationBias
                else ConstantRelativeObservationBias observationBias)
       else Throw DimensionMismatch)
  ∧ (∀ arcStartTimes observationBiases linkEndForTime,
       (Exists (λ bias, length bias ≠ ObservationSize) observationBiases →
        createObservationBiasCalculator ObservationSize linkEnds observableType
          (new_ArcWiseConstantObservationBiasSettings arcStartTimes observationBiases
             linkEndForTime useAbsoluteBias) bodyMap
        = Throw DimensionMismatch)
       ∧ (Forall (λ bias, length bias = ObservationSize) observationBiases →
          createObservationBiasCalculator ObservationSize linkEnds observableType
            (new_ArcWiseConstantObservationBiasSettings arcStartTimes observationBiases
               linkEndForTime useAbsoluteBias) bodyMap
          = getLinkEndIndicesForLinkEndTypeAtObservable observableType linkEndForTime
              (size linkEnds) ≫= λ indices,
            at_0 indices ≫= λ index,
            Ok (if useAbsoluteBias
                then ConstantArcWiseObservationBias arcStartTimes observationBiases index
                else ConstantRelativeArcWiseObservationBias arcStartTimes observationBiases
                       index))).
Proof.
  split.
  - intros observationBias. destruct useAbsoluteBias; simpl;
      repeat case_bool_decide; done.
  - intros arcStartTimes observationBiases linkEndForTime.
    destruct (checkArcBiasSizes_cases ObservationSize observationBiases) as [Hall Hex].
    split.
    + intros Hsizes. destruct useAbsoluteBias; simpl; by rewrite Hex.
    + intros Hsizes. destruct useAbsoluteBias; simpl; by rewrite Hall.
Qed.

Lemma createObservationBiasCalculator_multiple ObservationSize linkEnds observableType
    bodyMap (biasSettingsList : list (option ObservationBiasSettings)) :
  createObservationBiasCalculator ObservationSize linkEnds observableType
    (new_MultipleObservationBiasSettings biasSettingsList) bodyMap
  = (fix createList (settingsList : list (option ObservationBiasSettings))
       : result (list ObservationBias) :=
       match settingsList with
       | [] => Ok []
       | current :: rest =>
           match current with
           | None => NullDereference
           | Some currentSettings =>
               createObservationBiasCalculator ObservationSize linkEnds observableType
                 currentSettings bodyMap
           end ≫= λ bias,
           createList rest ≫= λ biases,
           Ok (bias :: biases)
       end) biasSettingsList ≫= λ observationBiasList,
    Ok (MultiTypeObservationBias observationBiasList).
Proof. done. Qed.

(** X13: the factory makes of settings for multiple biases, made by the
    constructor, a bias exactly when every entry of the list is a settings
    object from which it makes a bias; the bias then holds the biases of the
    entries, one per entry and in the order of the list.  A null entry, or an
    entry for which the factory fails, makes the whole call fail. *)
Theorem multiple_biases_are_created_entry_by_entry (ObservationSize : nat)
    (linkEnds : LinkEnds) (observableType : ObservableType) (bodyMap : NamedBodyMap)
    (biasSettingsList : list (option ObservationBiasSettings)) (bias : ObservationBias) :
  createObservationBiasCalculator ObservationSize linkEnds observableType
    (new_MultipleObservationBiasSettings biasSettingsList) bodyMap = Ok bias
  ↔ ∃ observationBiasList,
      bias = MultiTypeObservationBias observationBiasList
      ∧ Forall2
          (λ entry entryBias,
             ∃ settings, entry = Some settings
                         ∧ createObservationBiasCalculator ObservationSize linkEnds
                             observableType settings bodyMap = Ok entryBias)
          biasSettingsList observationBiasList.
Proof.
  rewrite createObservationBiasCalculator_multiple.
  match goal with
  | |- context [(?createList biasSettingsList)] =>
      assert (∀ l biases,
                createList l = Ok biases
                ↔ Forall2
                    (λ entry entryBias,
                       ∃ settings, entry = Some settings
                                   ∧ createObservationBiasCalculator ObservationSize linkEnds
                                       observableType settings bodyMap = Ok entryBias)
                    l biases) as Hlist
  end.
  { induction l as [| entry l IH]; intros biases.
    - split; [intros [= <-]; constructor | by intros ->%Forall2_nil_inv_l].
    - split.
      + destruct entry as [settings|]; [| done].
        destruct (createObservationBiasCalculator ObservationSize linkEnds observableType
                    settings bodyMap) as [entryBias | |] eqn:Hentry; try done.
        simpl.
        match goal with
        | |- context [mbind _ ?rest] => destruct rest as [restBiases | |] eqn:Hrest; try done
        end.
        simpl. intros [= <-]. constructor; [by exists settings | by apply IH].
      + intros (entryBias & restBiases & (settings & -> & Hentry) & Hrest & ->)
          %Forall2_cons_inv_l.
        rewrite Hentry. apply IH in Hrest. simpl. by rewrite Hrest. }
  split.
  - match goal with
    | |- context [(?createList biasSettingsList)] =>
        destruct (createList biasSettingsList) as [biases | |] eqn:Hcreate; try done
    end.
    intros [= <-]. exists biases. split; [done |]. by apply Hlist.
  - intros (biases & -> & Hall). apply Hlist in Hall. by rewrite Hall.
Qed.

(** X14: in the factory of the observation models of size 1 the checks of the
    link ends come first: for a one-way range or Doppler observable without
    exactly two link ends, a transmitter and a receiver, for a two-way Doppler
    observable without exactly three link ends, a transmitter, a first
    reflector and a receiver, and for an n-way range with fewer than two link
    ends or without transmitter or receiver, the call throws for the link-end
    topology whatever the bias settings, the class of the settings and the
    environment are.  The one-way differenced range tests the class of the
    settings before the link ends, and an observable type that the [switch]
    does not name is not recognised. *)
Theorem link_end_checks_come_first (linkEnds : LinkEnds) (settings : ObservationSettings)
    (bodyMap : NamedBodyMap) :
  (observableType_ settings = one_way_range ∨ observableType_ settings = one_way_doppler →
   size linkEnds ≠ 2 ∨ linkEnds !! receiver = None ∨ linkEnds !! transmitter = None →
   createObservationModel linkEnds settings bodyMap = Throw InvalidLinkEndTopology)
  ∧ (observableType_ settings = two_way_doppler →
     size linkEnds ≠ 3 ∨ linkEnds !! receiver = None ∨ linkEnds !! reflector1 = None
     ∨ linkEnds !! transmitter = None →
     createObservationModel linkEnds settings bodyMap = Throw InvalidLinkEndTopology)
  ∧ (observableType_ settings = n_way_range →
     size linkEnds < 2 ∨ linkEnds !! receiver = None ∨ linkEnds !! transmitter = None →
     createObservationModel linkEnds settings bodyMap = Throw InvalidLinkEndTopology)
  ∧ (observableType_ settings = one_way_differenced_range →
     (∀ integrationTimeFunction,
        settingsClass settings
        ≠ OneWayDifferencedRangeRateObservationSettings integrationTimeFunction) →
     createObservationModel linkEnds settings bodyMap = Throw InvalidSettings)
  ∧ (∀ value, observableType_ settings = observable_other value →
       createObservationModel linkEnds settings bodyMap = Throw UnrecognizedType).
Proof.
  rewrite createObservationModel_unfold. unfold createObservationModel_with, count.
  repeat split.
  - intros [-> | ->] Hlinks; case_bool_decide; try done;
      destruct (linkEnds !! receiver); try done;
      destruct (linkEnds !! transmitter); try done; naive_solver.
  - intros -> Hlinks. case_bool_decide; try done.
    destruct (linkEnds !! receiver); try done.
    destruct (linkEnds !! reflector1); try done.
    destruct (linkEnds !! transmitter); try done. naive_solver.
  - intros -> Hlinks. destruct (Nat.ltb_spec (size linkEnds) 2); try done.
    destruct (linkEnds !! receiver); try done.
    destruct (linkEnds !! transmitter); try done. naive_solver lia.
  - intros -> Hclass. destruct (settingsClass settings); try done. by edestruct Hclass.
  - by intros value ->.
Qed.

Lemma createObservationModel_one_way_doppler_of_base_class (linkEnds : LinkEnds)
    lightTimeCorrectionsList bodyMap transmitterId receiverId :
  size linkEnds = 2 →
  linkEnds !! transmitter = Some transmitterId →
  linkEnds !! receiver = Some receiverId →
  createObservationModel linkEnds
    (make_ObservationSettings one_way_doppler lightTimeCorrectionsList) bodyMap
  = Ok (OneWayDoppler
          {| dopplerLightTimeCalculator :=
               createLightTimeCalculator transmitterId receiverId bodyMap
                 lightTimeCorrectionsList;
             transmitterProperTimeRateFunction := None;
             receiverProperTimeRateFunction := None;
             dopplerObservationBias := None |}).
Proof.
  intros Hsize Htransmitter Hreceiver.
  rewrite createObservationModel_unfold. unfold createObservationModel_with, count. simpl.
  rewrite bool_decide_eq_false_2 by (intros ?; congruence).
  by rewrite Htransmitter, Hreceiver.
Qed.

Lemma size_two_link_ends (first second : LinkEndId) :
  transmitter ≠ receiver →
  size (<[receiver := second]> (<[transmitter := first]> (∅ : LinkEnds))) = 2.
Proof.
  intros Hne. rewrite map_size_insert_None.
  - by rewrite map_size_insert_None, map_size_empty by apply lookup_empty.
  - rewrite lookup_insert_ne by done. apply lookup_empty.
Qed.

(** X15: a two-way Doppler observable with settings of the base class is made
    of two one-way Doppler models that the factory makes itself: one from the
    transmitter to the first reflector and one from the first reflector to
    the receiver, each with the light-time corrections of the settings,
    without proper-time rates and without a bias of its own; the bias of the
    settings goes to the two-way model. *)
Theorem two_way_doppler_is_made_of_two_one_way_models (linkEnds : LinkEnds)
    (settings : ObservationSettings) (bodyMap : NamedBodyMap)
    (transmitterId reflectorId receiverId : LinkEndId)
    (observationBias : option ObservationBias) :
  transmitter ≠ receiver →
  observableType_ settings = two_way_doppler →
  settingsClass settings = ObservationSettingsOnly →
  size linkEnds = 3 →
  linkEnds !! transmitter = Some transmitterId →
  linkEnds !! reflector1 = Some reflectorId →
  linkEnds !! receiver = Some receiverId →
  createOptionalObservationBias linkEnds settings bodyMap = Ok observationBias →
  createObservationModel linkEnds settings bodyMap
  = Ok (TwoWayDopplerObservationModel
          (Some {| dopplerLightTimeCalculator :=
                     createLightTimeCalculator transmitterId reflectorId bodyMap
                       (lightTimeCorrectionsList_ settings);
                   transmitterProperTimeRateFunction := None;
                   receiverProperTimeRateFunction := None;
                   dopplerObservationBias := None |})
          (Some {| dopplerLightTimeCalculator :=
                     createLightTimeCalculator reflectorId receiverId bodyMap
                       (lightTimeCorrectionsList_ settings);
                   transmitterProperTimeRateFunction := None;
                   receiverProperTimeRateFunction := None;
                   dopplerObservationBias := None |})
          observationBias).
Proof.
  intros Hne Htype Hclass Hsize Htransmitter Hreflector Hreceiver Hbias.
  rewrite createObservationModel_unfold. unfold createObservationModel_with at 1.
  unfold count. rewrite Htype, Hclass, Htransmitter, Hreflector, Hreceiver, Hbias.
  rewrite bool_decide_eq_false_2 by (intros ?; congruence). simpl.
  rewrite (createObservationModel_one_way_doppler_of_base_class
             (<[receiver := reflectorId]> (<[transmitter := transmitterId]> ∅))
             _ _ transmitterId reflectorId).
  - rewrite (createObservationModel_one_way_doppler_of_base_class
               (<[receiver := receiverId]> (<[transmitter := reflectorId]> ∅))
               _ _ reflectorId receiverId); [done | by apply size_two_link_ends | |].
    + rewrite lookup_insert_ne by done. by rewrite lookup_insert_eq.
    + by rewrite lookup_insert_eq.
  - by apply size_two_link_ends.
  - rewrite lookup_insert_ne by done. by rewrite lookup_insert_eq.
  - by rewrite lookup_insert_eq.
Qed.

Lemma createNWayLightTimeCalculators_sameCorrections bodyMap
    (links : list (LinkEndId * LinkEndId)) lightTimeCorrections :
  createNWayLightTimeCalculators bodyMap links
    (replicate (length links)
       (Some (new_ObservationSettingsFields one_way_range lightTimeCorrections)))
  = Ok ((λ link : LinkEndId * LinkEndId,
           createLightTimeCalculator link.1 link.2 bodyMap
             (fields_lightTimeCorrectionsList_
                (new_ObservationSettingsFields one_way_range lightTimeCorrections)))
          <$> links).
Proof.
  induction links as [| link links IH]; [done |].
  cbn [length replicate createNWayLightTimeCalculators new_ObservationSettingsFields
         fields_observableType_].
  fold (new_ObservationSettingsFields one_way_range lightTimeCorrections).
  by rewrite IH.
Qed.

(** X16: an n-way range with the settings that the constructor of
    [NWayRangeObservationSettings] makes for one light-time correction and a
    number of link ends: when that number is the number of link ends of the
    observable, the model has one light-time calculator per pair of link ends
    that follow each other, each with that one correction (or with none, for
    a null correction), and the retransmission function of the settings; when
    the constructor made another number of one-way settings, the factory
    throws for inconsistent settings. *)
Theorem n_way_range_with_settings_of_the_constructor (linkEnds : LinkEnds)
    (bodyMap : NamedBodyMap) (lightTimeCorrections : option object)
    (numberOfLinkEnds : Z)
    (retransmissionTimesFunction : option (double → list double)) :
  2 ≤ size linkEnds →
  validNWayChain linkEnds →
  (numberOfLinkEnds = Z.of_nat (size linkEnds) →
   createObservationModel linkEnds
     (new_NWayRangeObservationSettings_sameCorrections lightTimeCorrections numberOfLinkEnds
        retransmissionTimesFunction None) bodyMap
   = Ok (NWayRangeObservationModel
           ((λ link : LinkEndId * LinkEndId,
               createLightTimeCalculator link.1 link.2 bodyMap
                 match lightTimeCorrections with
                 | Some correction => [correction]
                 | None => []
                 end) <$> consecutiveLinkEnds linkEnds)
           retransmissionTimesFunction None))
  ∧ (numberOfLinkEnds ≠ Z.of_nat (size linkEnds) →
     createObservationModel linkEnds
       (new_NWayRangeObservationSettings_sameCorrections lightTimeCorrections
          numberOfLinkEnds retransmissionTimesFunction None) bodyMap
     = Throw InvalidSettings).
Proof.
  intros Hsize Hchain.
  pose proof (checkNWayLinkEnds_Ok linkEnds Hchain) as Hchecks.
  destruct Hchain as ([transmitterId Htransmitter] & [receiverId Hreceiver] & _).
  rewrite createObservationModel_unfold. unfold createObservationModel_with, count.
  cbn [observableType_ new_NWayRangeObservationSettings_sameCorrections settingsClass].
  destruct (Nat.ltb_spec (size linkEnds) 2) as [? |_]; [lia |].
  rewrite Htransmitter, Hreceiver, Hchecks. simpl. rewrite length_replicate. split.
  - intros ->. rewrite bool_decide_eq_false_2 by lia.
    replace (Z.to_nat (Z.of_nat (size linkEnds) - 1)) with (length (consecutiveLinkEnds linkEnds))
      by (rewrite length_consecutiveLinkEnds; lia).
    by rewrite createNWayLightTimeCalculators_sameCorrections.
  - intros Hnumber. by rewrite bool_decide_eq_true_2 by lia.
Qed.

(** X17: the factory of the observation models of size 2 makes the angular
    position only: another observable type is not recognised; for the angular
    position the link ends are checked first (exactly two, a receiver and a
    transmitter), then the bias is created for an observable of size 2, so
    that a constant bias with another number of components than 2 makes the
    call throw for the size; the model has the light-time calculator from the
    transmitter to the receiver with the corrections of the settings. *)
Theorem angular_position_model_of_size_two (linkEnds : LinkEnds)
    (settings : ObservationSettings) (bodyMap : NamedBodyMap) :
  (observableType_ settings ≠ angular_position enumerators →
   createObservationModel2 linkEnds settings bodyMap = Throw UnrecognizedType)
  ∧ (observableType_ settings = angular_position enumerators →
     (size linkEnds ≠ 2 ∨ linkEnds !! receiver = None ∨ linkEnds !! transmitter = None →
      createObservationModel2 linkEnds settings bodyMap = Throw InvalidLinkEndTopology)
     ∧ ∀ transmitterId receiverId,
         size linkEnds = 2 →
         linkEnds !! transmitter = Some transmitterId →
         linkEnds !! receiver = Some receiverId →
         (biasSettings_ settings = None →
          createObservationModel2 linkEnds settings bodyMap
          = Ok {| angularPositionLightTimeCalculator :=
                    createLightTimeCalculator transmitterId receiverId bodyMap
                      (lightTimeCorrectionsList_ settings);
                  angularPositionObservationBias := None |})
         ∧ (∀ observationBias useAbsoluteBias,
              biasSettings_ settings
              = Some (new_ConstantObservationBiasSettings observationBias useAbsoluteBias) →
              createObservationModel2 linkEnds settings bodyMap
              = if bool_decide (length observationBias = 2)
                then Ok {| angularPositionLightTimeCalculator :=
                             createLightTimeCalculator transmitterId receiverId bodyMap
                               (lightTimeCorrectionsList_ settings);
                           angularPositionObservationBias :=
                             Some (if useAbsoluteBias
                                   then ConstantObservationBias observationBias
                                   else ConstantRelativeObservationBias observationBias) |}
                else Throw DimensionMismatch)).
Proof.
  unfold createObservationModel2, createOptionalObservationBiasOfSize, count. split.
  - intros Htype. by rewrite decide_False.
  - intros Htype. rewrite decide_True by done. split.
    + intros Hlinks. case_bool_decide; try done.
      destruct (linkEnds !! receiver); try done.
      destruct (linkEnds !! transmitter); try done. naive_solver.
    + intros transmitterId receiverId Hsize -> ->.
      rewrite bool_decide_eq_false_2 by (intros ?; congruence). simpl. split.
      * by intros ->.
      * intros observationBias useAbsoluteBias ->.
        destruct useAbsoluteBias; simpl; repeat case_bool_decide; done.
Qed.

(** X18: the factory of the observation models of size 3 makes the position
    observable only, and tests in this order: the observable type (not
    recognised otherwise), exactly one link end and an observed body (link-end
    topology), no light-time corrections (invalid settings), no reference
    point on the observed body (unsupported).  Without bias settings the call
    then returns a model for the body of that name of the environment, and
    ends with the [std::out_of_range] of [std::map::at] when the environment
    has no body of that name. *)
Theorem position_observable_model_of_size_three (linkEnds : LinkEnds)
    (settings : ObservationSettings) (bodyMap : NamedBodyMap) :
  (observableType_ settings ≠ position_observable enumerators →
   createObservationModel3 linkEnds settings bodyMap = Throw UnrecognizedType)
  ∧ (observableType_ settings = position_observable enumerators →
     (size linkEnds ≠ 1 ∨ linkEnds !! observed_body enumerators = None →
      createObservationModel3 linkEnds settings bodyMap = Throw InvalidLinkEndTopology)
     ∧ ∀ observedBodyId,
         size linkEnds = 1 →
         linkEnds !! observed_body enumerators = Some observedBodyId →
         (lightTimeCorrectionsList_ settings ≠ [] →
          createObservationModel3 linkEnds settings bodyMap = Throw InvalidSettings)
         ∧ (lightTimeCorrectionsList_ settings = [] →
            (observedBodyId.2 ≠ ""%string →
             createObservationModel3 linkEnds settings bodyMap = Throw Unsupported)
            ∧ (observedBodyId.2 = ""%string → biasSettings_ settings = None →
               createObservationModel3 linkEnds settings bodyMap
               = match bodyMap !! observedBodyId.1 with
                 | Some body =>
                     Ok {| observedBodyName := observedBodyId.1;
                           observedBodyObject := body;
                           positionObservationBias := None |}
                 | None => Throw OutOfRange
                 end))).
Proof.
  unfold createObservationModel3, createOptionalObservationBiasOfSize. split.
  - intros Htype. by rewrite decide_False.
  - intros Htype. rewrite decide_True by done. split.
    + intros [Hsize | Hbody]; case_bool_decide; try done. by rewrite Hbody.
    + intros observedBodyId Hsize ->.
      rewrite bool_decide_eq_false_2 by (intros ?; congruence). split.
      * intros Hcorrections. by destruct (lightTimeCorrectionsList_ settings).
      * intros ->. simpl. split.
        -- intros Hpoint. by rewrite bool_decide_eq_true_2.
        -- intros Hpoint ->. rewrite bool_decide_eq_false_2 by (intros ?; congruence).
           simpl. by destruct (bodyMap !! observedBodyId.1).
Qed.

(** A loop that fills a map with what a function makes of each entry. *)
Lemma fold_result_insert `{Countable K} {A B} (f : K → A → result B)
    (entries : list (K * A)) (built0 built : gmap K B) :
  NoDup entries.*1 →
  fold_result (λ built (entry : K * A), f entry.1 entry.2 ≫= λ b, Ok (<[entry.1 := b]> built))
    built0 entries = Ok built →
  (∀ k, built !! k
        = match (list_to_map entries : gmap K A) !! k with
          | Some a => match f k a with Ok b => Some b | _ => None end
          | None => built0 !! k
          end)
  ∧ Forall (λ entry, ∃ b, f entry.1 entry.2 = Ok b) entries.
Proof.
  revert built0. induction entries as [| [k a] entries IH]; intros built0 Hnodup; simpl.
  - intros [= <-]. split; [done | constructor].
  - apply NoDup_cons in Hnodup as [Hk Hnodup].
    destruct (f k a) as [b | |] eqn:Hf; simpl; try done.
    intros Hfold. destruct (IH _ Hnodup Hfold) as [Hbuilt Hall]. split.
    + intros k'. rewrite Hbuilt. destruct (decide (k = k')) as [<- |].
      * rewrite !lookup_insert_eq, Hf. by rewrite (not_elem_of_list_to_map_1 _ _ Hk).
      * by rewrite !lookup_insert_ne by done.
    + constructor; [by exists b | done].
Qed.

Lemma fold_result_insert_map `{Countable K} {A B} (f : K → A → result B)
    (m : gmap K A) (built : gmap K B) :
  fold_result (λ built (entry : K * A), f entry.1 entry.2 ≫= λ b, Ok (<[entry.1 := b]> built))
    ∅ (map_to_list m) = Ok built →
  dom built = dom m
  ∧ ∀ k a, m !! k = Some a → ∃ b, built !! k = Some b ∧ f k a = Ok b.
Proof.
  intros Hfold.
  apply fold_result_insert in Hfold as [Hbuilt Hall]; [| apply NoDup_fst_map_to_list].
  rewrite list_to_map_to_list in Hbuilt. rewrite Forall_forall in Hall.
  assert (∀ k a, m !! k = Some a → ∃ b, built !! k = Some b ∧ f k a = Ok b) as Hentries.
  { intros k a Hk. destruct (Hall (k, a)) as [b Hb]; [by apply elem_of_map_to_list |].
    exists b. simpl in Hb. by rewrite Hbuilt, Hk, Hb. }
  split; [| done]. apply set_eq. intros k. rewrite !elem_of_dom. split.
  - intros [b Hb]. rewrite Hbuilt in Hb. destruct (m !! k); [done |].
    by rewrite lookup_empty in Hb.
  - intros [a Ha]. destruct (Hentries k a Ha) as (b & Hb & _). by exists b.
Qed.

(** X19: [createObservationSimulator] returns exactly when the factory makes
    a model for every entry of the settings; the simulator is then for the
    given observable type and has one model for each link ends of the
    settings and no other: the model that the factory makes of the settings
    for these link ends. *)
Theorem observation_simulator_has_the_model_of_every_link_ends {Model : Type}
    (createModel : LinkEnds → ObservationSettings → NamedBodyMap → result Model)
    (observableType : ObservableType)
    (settingsPerLinkEnds : gmap LinkEnds ObservationSettings) (bodyMap : NamedBodyMap) :
  ((∃ simulator,
      createObservationSimulator createModel observableType settingsPerLinkEnds bodyMap
      = Ok simulator)
   ↔ ∀ linkEnds settings,
       settingsPerLinkEnds !! linkEnds = Some settings →
       ∃ model, createModel linkEnds settings bodyMap = Ok model)
  ∧ ∀ simulator,
      createObservationSimulator createModel observableType settingsPerLinkEnds bodyMap
      = Ok simulator →
      simulatorObservableType simulator = observableType
      ∧ dom (simulatorObservationModels simulator) = dom settingsPerLinkEnds
      ∧ ∀ linkEnds settings,
          settingsPerLinkEnds !! linkEnds = Some settings →
          ∃ model, simulatorObservationModels simulator !! linkEnds = Some model
                   ∧ createModel linkEnds settings bodyMap = Ok model.
Proof.
  unfold createObservationSimulator.
  assert (∀ simulator,
            (fold_result
               (λ (observationModels : gmap LinkEnds Model)
                  (setting : LinkEnds * ObservationSettings),
                  createModel setting.1 setting.2 bodyMap ≫= λ model,
                  Ok (<[setting.1 := model]> observationModels))
               ∅ (map_to_list settingsPerLinkEnds) ≫= λ observationModels,
             Ok {| simulatorObservableType := observableType;
                   simulatorObservationModels := observationModels |}) = Ok simulator →
            simulatorObservableType simulator = observableType
            ∧ dom (simulatorObservationModels simulator) = dom settingsPerLinkEnds
            ∧ ∀ linkEnds settings,
                settingsPerLinkEnds !! linkEnds = Some settings →
                ∃ model, simulatorObservationModels simulator !! linkEnds = Some model
                         ∧ createModel linkEnds settings bodyMap = Ok model) as Hreturned.
  { intros simulator.
    destruct (fold_result _ ∅ (map_to_list settingsPerLinkEnds))
      as [observationModels | |] eqn:Hfold; simpl; try done.
    intros [= <-]. simpl. split; [done |].
    by apply (fold_result_insert_map (λ linkEnds settings,
                                        createModel linkEnds settings bodyMap)). }
  split; [| done]. split.
  - intros [simulator Hsimulator] linkEnds settings Hsettings.
    destruct (Hreturned simulator Hsimulator) as (_ & _ & Hmodels).
    destruct (Hmodels linkEnds settings Hsettings) as (model & _ & Hmodel). by exists model.
  - intros Hall.
    destruct (fold_result_returns
      (λ (observationModels : gmap LinkEnds Model) (setting : LinkEnds * ObservationSettings),
         createModel setting.1 setting.2 bodyMap ≫= λ model,
         Ok (<[setting.1 := model]> observationModels))
      ∅ (map_to_list settingsPerLinkEnds)) as [observationModels ->].
    + intros observationModels [linkEnds settings] Hin%elem_of_map_to_list. simpl.
      destruct (Hall linkEnds settings Hin) as [model ->]. by eexists.
    + by eexists.
Qed.

Lemma createObservationSimulatorOfSize_Ok observableType settingsPerLinkEnds bodyMap
    simulator :
  createObservationSimulatorOfSize observableType settingsPerLinkEnds bodyMap
  = Ok simulator →
  (getObservableSize observableSizes observableType = 1
   ∨ getObservableSize observableSizes observableType = 2
   ∨ getObservableSize observableSizes observableType = 3)%Z
  ∧ simulatorOfSize simulator = getObservableSize observableSizes observableType.
Proof.
  unfold createObservationSimulatorOfSize.
  destruct (getObservableSize observableSizes observableType) as [| [[| |] | [| |] |] |];
    try done.
  - destruct (createObservationSimulator createObservationModel3 _ _ _); try done.
    intros [= <-]. auto.
  - destruct (createObservationSimulator createObservationModel2 _ _ _); try done.
    intros [= <-]. auto.
  - destruct (createObservationSimulator createObservationModel _ _ _); try done.
    intros [= <-]. auto.
Qed.

(** X20: when [createObservationSimulators] returns, it has one simulator for
    each observable type of the settings and no other, of the class for the
    size that [getObservableSize] gives for that type, which is 1, 2 or 3;
    so the call fails for settings with an observable type of another
    size. *)
Theorem observation_simulators_for_every_observable_type
    (observationSettingsMap : SortedObservationSettingsMap) (bodyMap : NamedBodyMap) :
  (∀ simulators,
     createObservationSimulators observationSettingsMap bodyMap = Ok simulators →
     dom simulators = dom observationSettingsMap
     ∧ ∀ observableType settingsPerLinkEnds,
         observationSettingsMap !! observableType = Some settingsPerLinkEnds →
         ∃ simulator,
           simulators !! observableType = Some simulator
           ∧ createObservationSimulatorOfSize observableType settingsPerLinkEnds bodyMap
             = Ok simulator
           ∧ simulatorOfSize simulator = getObservableSize observableSizes observableType)
  ∧ (∀ observableType settingsPerLinkEnds,
       observationSettingsMap !! observableType = Some settingsPerLinkEnds →
       getObservableSize observableSizes observableType ≠ 1%Z →
       getObservableSize observableSizes observableType ≠ 2%Z →
       getObservableSize observableSizes observableType ≠ 3%Z →
       ∀ simulators,
         createObservationSimulators observationSettingsMap bodyMap ≠ Ok simulators).
Proof.
  assert (∀ simulators,
            createObservationSimulators observationSettingsMap bodyMap = Ok simulators →
            dom simulators = dom observationSettingsMap
            ∧ ∀ observableType settingsPerLinkEnds,
                observationSettingsMap !! observableType = Some settingsPerLinkEnds →
                ∃ simulator,
                  simulators !! observableType = Some simulator
                  ∧ createObservationSimulatorOfSize observableType settingsPerLinkEnds
                      bodyMap = Ok simulator) as Hreturned.
  { intros simulators.
    apply (fold_result_insert_map
             (λ observableType settingsPerLinkEnds,
                createObservationSimulatorOfSize observableType settingsPerLinkEnds
                  bodyMap)). }
  split.
  - intros simulators Hsimulators.
    destruct (Hreturned simulators Hsimulators) as [Hdom Hentries]. split; [done |].
    intros observableType settingsPerLinkEnds Hsettings.
    destruct (Hentries observableType settingsPerLinkEnds Hsettings)
      as (simulator & Hsimulator & Hcreated).
    exists simulator. split; [done |]. split; [done |].
    by apply createObservationSimulatorOfSize_Ok in Hcreated as [_ ?].
  - intros observableType settingsPerLinkEnds Hsettings Hone Htwo Hthree simulators
      Hsimulators.
    destruct (Hreturned simulators Hsimulators) as [_ Hentries].
    destruct (Hentries observableType settingsPerLinkEnds Hsettings)
      as (simulator & _ & Hcreated).
    apply createObservationSimulatorOfSize_Ok in Hcreated as [Hsize _]. lia.
Qed.

(** X21: a one-way Doppler observable with the settings that the constructor
    of [OneWayDopplerObservationSettings] makes from direct first-order
    proper-time rate settings for both link ends: when the two central bodies
    are in the environment with a gravity field and neither is a link end of
    the observable, the model has the light-time calculator from the
    transmitter to the receiver and a proper-time rate calculator for each of
    the two link ends. *)
Theorem one_way_doppler_with_proper_time_rates (linkEnds : LinkEnds)
    (bodyMap : NamedBodyMap) (lightTimeCorrectionsList : list object)
    (transmitterCentralBody receiverCentralBody : string)
    (transmitterId receiverId : LinkEndId)
    (transmitterBody receiverBody : Body)
    (transmitterGravityField receiverGravityField : GravityFieldModel) :
  size linkEnds = 2 →
  linkEnds !! transmitter = Some transmitterId →
  linkEnds !! receiver = Some receiverId →
  bodyMap !! transmitterCentralBody = Some transmitterBody →
  getGravityFieldModel transmitterBody = Some transmitterGravityField →
  bodyMap !! receiverCentralBody = Some receiverBody →
  getGravityFieldModel receiverBody = Some receiverGravityField →
  transmitterId ≠ (transmitterCentralBody, ""%string) →
  receiverId ≠ (transmitterCentralBody, ""%string) →
  transmitterId ≠ (receiverCentralBody, ""%string) →
  receiverId ≠ (receiverCentralBody, ""%string) →
  createObservationModel linkEnds
    (new_OneWayDopplerObservationSettings lightTimeCorrectionsList
       (Some (new_DirectFirstOrderDopplerProperTimeRateSettings transmitterCentralBody))
       (Some (new_DirectFirstOrderDopplerProperTimeRateSettings receiverCentralBody))
       None) bodyMap
  = Ok (OneWayDoppler
          {| dopplerLightTimeCalculator :=
               createLightTimeCalculator transmitterId receiverId bodyMap
                 lightTimeCorrectionsList;
             transmitterProperTimeRateFunction :=
               Some {| computationPointLinkEndType := transmitter;
                       gravitationalParameterSource := transmitterGravityField;
                       referenceBody := transmitterCentralBody;
                       referencePointLinkEndType := unidentified_link_end;
                       referenceBodyStateSource := (transmitterCentralBody, ""%string) |};
             receiverProperTimeRateFunction :=
               Some {| computationPointLinkEndType := receiver;
                       gravitationalParameterSource := receiverGravityField;
                       referenceBody := receiverCentralBody;
                       referencePointLinkEndType := unidentified_link_end;
                       referenceBodyStateSource := (receiverCentralBody, ""%string) |};
             dopplerObservationBias := None |}).
Proof.
  intros Hsize Htransmitter Hreceiver HtransmitterBody HtransmitterField HreceiverBody
    HreceiverField Htt Hrt Htr Hrr.
  rewrite createObservationModel_unfold.
  unfold createObservationModel_with, createOneWayDopplerProperTimeCalculator, count. simpl.
  rewrite bool_decide_eq_false_2 by (intros ?; congruence).
  rewrite Htransmitter, Hreceiver. simpl.
  rewrite HtransmitterBody, HtransmitterField, HreceiverBody, HreceiverField.
  by rewrite !bool_decide_eq_true_2 by done.
Qed.

(** X22: the other facets of the map that
    [createFullEnvironmentUpdaterSettings] returns: no body is listed for an
    update of its translational state; every body of the environment is
    listed once for an update of its mass; a body is listed for its flight
    conditions exactly when it has flight conditions, and for its spherical
    harmonic gravity field exactly when its gravity field is a time-dependent
    one. *)
Theorem full_updates_of_the_other_facets (bodyMap : NamedBodyMap)
    (updates : EnvironmentUpdates) :
  createFullEnvironmentUpdaterSettings bodyMap = Ok updates →
  bodiesToUpdate updates body_transational_state_update = []
  ∧ (∀ name,
       occurrences name (bodiesToUpdate updates body_mass_update)
       = match bodyMap !! name with Some _ => 1 | None => 0 end)
  ∧ (∀ name,
       name ∈ bodiesToUpdate updates vehicle_flight_conditions_update
       ↔ hasFlightConditions bodyMap name)
  ∧ (∀ name,
       name ∈ bodiesToUpdate updates spherical_harmonic_gravity_field_update
       ↔ ∃ body field,
           bodyMap !! name = Some body ∧ getGravityFieldModel body = Some field
           ∧ isTimeDependentSphericalHarmonicsGravityField field = true).
Proof.
  intros Hfull. split; [| split; [| split]].
  - rewrite (createFull_bodies _ _ body_transational_state_update Hfull). simpl.
    induction (map_to_list bodyMap) as [| entry entries IH]; [done |]. by rewrite fmap_cons.
  - intros name. rewrite (createFull_bodies _ _ body_mass_update Hfull).
    rewrite (occurrences_replicated_names name (λ body, fullUpdateCount body body_mass_update)).
    + by rewrite list_to_map_to_list.
    + apply NoDup_fst_map_to_list.
  - intros name. rewrite (createFull_bodies _ _ vehicle_flight_conditions_update Hfull).
    rewrite (elem_of_replicated_names name
               (λ body, fullUpdateCount body vehicle_flight_conditions_update)).
    unfold hasFlightConditions. simpl.
    split; intros (body & Hbody & Hflight); exists body.
    + apply elem_of_map_to_list in Hbody. split; [done |].
      by destruct (getFlightConditions body).
    + split; [by apply elem_of_map_to_list |]. by destruct Hflight as [? ->].
  - intros name.
    rewrite (createFull_bodies _ _ spherical_harmonic_gravity_field_update Hfull).
    rewrite (elem_of_replicated_names name
               (λ body, fullUpdateCount body spherical_harmonic_gravity_field_update)).
    simpl. split.
    + intros (body & Hbody%elem_of_map_to_list & Hfield). exists body.
      destruct (getGravityFieldModel body) as [field|]; [| done]. exists field.
      split; [done |]. split; [done |].
      by destruct (isTimeDependentSphericalHarmonicsGravityField field).
    + intros (body & field & Hbody & Hfield & Htime). exists body.
      split; [by apply elem_of_map_to_list |]. by rewrite Hfield, Htime.
Qed.

End Tudat.

(** * The properties on the example inputs *)

(** C2 on example inputs: one-way Doppler between the vehicle and Earth, with
    settings of the base class and with the default
    [OneWayDopplerObservationSettings]. *)
Lemma C2_default_one_way_doppler_settings_dereference_null :
  createObservationModel example_transmitter example_receiver example_reflector1
    example_unidentified_link_end Z example_getLinkEndIndices
    VehicleToEarth (baseSettings Z one_way_doppler) EarthAndVehicle
  = Ok (OneWayDoppler Z
          {| dopplerLightTimeCalculator :=
               {| transmittingLinkEnd := ("Vehicle"%string, ""%string);
                  receivingLinkEnd := ("Earth"%string, ""%string);
                  lightTimeCorrections := [Object 7] |};
             transmitterProperTimeRateFunction := None;
             receiverProperTimeRateFunction := None;
             dopplerObservationBias := None |})
  ∧ createObservationModel example_transmitter example_receiver example_reflector1
      example_unidentified_link_end Z example_getLinkEndIndices
      VehicleToEarth (defaultOneWayDopplerSettings Z) EarthAndVehicle
    = NullDereference.
Proof.
  split.
  - apply (C2_one_way_doppler_null_proper_time_settings
             example_transmitter example_receiver example_reflector1
             example_unidentified_link_end Z example_getLinkEndIndices
             VehicleToEarth (baseSettings Z one_way_doppler) EarthAndVehicle
             ("Vehicle"%string, ""%string) ("Earth"%string, ""%string));
      reflexivity.
  - apply (C2_one_way_doppler_null_proper_time_settings
             example_transmitter example_receiver example_reflector1
             example_unidentified_link_end Z example_getLinkEndIndices
             VehicleToEarth (defaultOneWayDopplerSettings Z) EarthAndVehicle
             ("Vehicle"%string, ""%string) ("Earth"%string, ""%string));
      reflexivity.
Defined.



Lemma validNWayChain_examples :
  validNWayChain example_transmitter example_receiver StationVehicleMoonStation
  ∧ validNWayChain example_transmitter example_receiver VehicleToEarth.
Proof.
  unfold validNWayChain, StationVehicleMoonStation, VehicleToEarth.
  split; (split_and!; [by eexists | by eexists |]);
    intros linkEndType [linkEndId Hin] Htransmitter Hreceiver;
    repeat (apply lookup_insert_Some in Hin as [[<- _] | [_ Hin]];
            [first [done | by eexists] |]);
    apply lookup_singleton_Some in Hin as [<- _]; done.
Defined.

(** C4 on an example input: a station, the vehicle, the Moon and the station
    again give three light-time calculators, each with the correction of the
    settings. *)
Lemma C4_four_link_ends_give_three_light_time_calculators :
  createObservationModel example_transmitter example_receiver example_reflector1
    example_unidentified_link_end Z example_getLinkEndIndices
    StationVehicleMoonStation (baseSettings Z n_way_range) EarthAndVehicle
  = Ok (NWayRangeObservationModel Z
          [ {| transmittingLinkEnd := ("Earth"%string, "Station"%string);
               receivingLinkEnd := ("Vehicle"%string, ""%string);
               lightTimeCorrections := [Object 7] |};
            {| transmittingLinkEnd := ("Vehicle"%string, ""%string);
               receivingLinkEnd := ("Moon"%string, ""%string);
               lightTimeCorrections := [Object 7] |};
            {| transmittingLinkEnd := ("Moon"%string, ""%string);
               receivingLinkEnd := ("Earth"%string, "Station"%string);
               lightTimeCorrections := [Object 7] |} ]
          None None).
Proof.
  destruct (C4_n_way_range_light_time_calculators
              example_transmitter example_receiver example_reflector1
              example_unidentified_link_end Z example_getLinkEndIndices
              StationVehicleMoonStation (baseSettings Z n_way_range) EarthAndVehicle
              eq_refl) as [Hbuild _].
  destruct (Hbuild) with (observationBias := @None (ObservationBias Z)) as (Hmodel & _).
  - vm_compute. lia.
  - apply validNWayChain_examples.
  - exact I.
  - reflexivity.
  - rewrite Hmodel. by vm_compute.
Defined.

(** C4 as stated fails: n-way range settings of the base class, a
    transmitter and a receiver, and bias settings with two components for an
    observable of size one. *)
Lemma C4_bias_of_wrong_size_fails_the_build :
  observableType_ Z (nWaySettingsWithBiasOfSizeTwo Z 0%Z) = n_way_range
  ∧ 2 ≤ size VehicleToEarth
  ∧ validNWayChain example_transmitter example_receiver VehicleToEarth
  ∧ notNWayRangeObservationSettings Z (nWaySettingsWithBiasOfSizeTwo Z 0%Z)
  ∧ createObservationModel example_transmitter example_receiver example_reflector1
      example_unidentified_link_end Z example_getLinkEndIndices
      VehicleToEarth (nWaySettingsWithBiasOfSizeTwo Z 0%Z) EarthAndVehicle
    = Throw DimensionMismatch.
Proof.
  split_and!; [done | vm_compute; lia | apply validNWayChain_examples | exact I | by vm_compute].
Defined.

(** C5 on example inputs: an update of the translational state of the
    vehicle, which has no ephemeris, is refused; that of Earth passes. *)
Lemma C5_translational_state_needs_an_ephemeris :
  checkValidityOfRequiredEnvironmentUpdates
    {[ body_transational_state_update := ["Vehicle"%string] ]} EarthAndVehicle
  = Throw MissingEnvironmentModel
  ∧ checkValidityOfRequiredEnvironmentUpdates
      {[ body_transational_state_update := ["Earth"%string] ]} EarthAndVehicle
    = Ok tt.
Proof.
  split; [| by vm_compute].
  apply C5_checkValidity_fails_iff_model_missing.
  exists body_transational_state_update, ["Vehicle"%string], "Vehicle"%string.
  split_and!; [done | by left | done |].
  right. exists Vehicle. by split.
Defined.

(** C7 on an example input: of Earth, which has a rotational ephemeris, and
    the vehicle, which has no rotation model, Earth alone is under the
    rotational state facet. *)
Lemma C7_rotational_state_for_the_body_with_rotation_model :
  ∃ updates,
    createFullEnvironmentUpdaterSettings EarthAndVehicle = Ok updates
    ∧ "Earth"%string ∈ bodiesToUpdate updates body_rotational_state_update
    ∧ "Vehicle"%string ∉ bodiesToUpdate updates body_rotational_state_update.
Proof.
  destruct (C7_full_updates_rotational_state EarthAndVehicle) as [Hlisted Hreturns].
  destruct Hreturns as [updates Hupdates].
  - intros name body Hbody _. unfold EarthAndVehicle in Hbody.
    apply lookup_insert_Some in Hbody as [[_ <-] | [_ Hbody]].
    + split; [done |]. by intros field [= <-].
    + apply lookup_singleton_Some in Hbody as [_ <-]. split; [done |]. by intros field.
  - exists updates. split_and!; [done | |].
    + apply (Hlisted updates "Earth"%string Hupdates). exists Earth. split; [done |].
      by left.
    + intros (body & Hbody & Hrotation)%(Hlisted updates "Vehicle"%string Hupdates).
      vm_compute in Hbody. injection Hbody as <-.
      by destruct Hrotation as [Hrotation | Hrotation]; apply Hrotation.
Defined.

(** C9 as stated fails: the settings are of the direct first-order class, the
    transmitter is the link end to compute for and is among the link ends,
    Earth has a gravity field and is no link end; the link ends have no
    receiver, and [linkEnds.at( receiver )] throws. *)
Lemma C9_link_ends_without_receiver :
  is_Some (VehicleOnly !! example_transmitter)
  ∧ VehicleOnly !! example_transmitter ≠ Some ("Earth"%string, ""%string)
  ∧ VehicleOnly !! example_receiver ≠ Some ("Earth"%string, ""%string)
  ∧ EarthAndVehicle !! "Earth"%string = Some Earth
  ∧ getGravityFieldModel Earth = Some pointMassGravityField
  ∧ createOneWayDopplerProperTimeCalculator example_transmitter example_receiver
      example_unidentified_link_end
      (Some (DirectFirstOrderDopplerProperTimeRateSettings
               direct_first_order_doppler_proper_time_rate "Earth"%string))
      VehicleOnly EarthAndVehicle example_transmitter
    = Throw OutOfRange.
Proof. split_and!; try by vm_compute. by eexists. Defined.

(** C9 on example inputs: with Earth as the receiver the call throws
    [Unsupported]; with a station on Earth as the receiver it returns a
    calculator. *)
Lemma C9_central_body_as_receiver_and_not :
  createOneWayDopplerProperTimeCalculator example_transmitter example_receiver
    example_unidentified_link_end
    (Some (DirectFirstOrderDopplerProperTimeRateSettings
             direct_first_order_doppler_proper_time_rate "Earth"%string))
    VehicleToEarth EarthAndVehicle example_transmitter
  = Throw Unsupported
  ∧ createOneWayDopplerProperTimeCalculator example_transmitter example_receiver
      example_unidentified_link_end
      (Some (DirectFirstOrderDopplerProperTimeRateSettings
               direct_first_order_doppler_proper_time_rate "Earth"%string))
      VehicleToStation EarthAndVehicle example_transmitter
    = Ok {| computationPointLinkEndType := example_transmitter;
            gravitationalParameterSource := pointMassGravityField;
            referenceBody := "Earth"%string;
            referencePointLinkEndType := example_unidentified_link_end;
            referenceBodyStateSource := ("Earth"%string, ""%string) |}.
Proof.
  split.
  - destruct (C9_proper_time_calculator_reference_point
                example_transmitter example_receiver example_unidentified_link_end
                "Earth"%string VehicleToEarth EarthAndVehicle example_transmitter
                ("Earth"%string, ""%string) ("Vehicle"%string, ""%string) Earth)
      as [Hfield _]; [by eexists | done | done | done |].
    apply (Hfield pointMassGravityField eq_refl). by left.
  - destruct (C9_proper_time_calculator_reference_point
                example_transmitter example_receiver example_unidentified_link_end
                "Earth"%string VehicleToStation EarthAndVehicle example_transmitter
                ("Earth"%string, "Station"%string) ("Vehicle"%string, ""%string) Earth)
      as [Hfield _]; [by eexists | done | done | done |].
    by apply (Hfield pointMassGravityField eq_refl).
Defined.

(** X2 on an example input: the vehicle is propagated, and the one list of
    the map names Earth only. *)
Lemma pruning_of_the_vehicle_leaves_the_update_of_Earth :
  (removePropagatedStatesFomEnvironmentUpdates body_transational_state_update
     {[ body_transational_state_update := ["Earth"%string] ]}
     {[ translational_state := [("Vehicle"%string, ""%string)] ]}).1
  = {[ body_transational_state_update := ["Earth"%string] ]}.
Proof.
  apply (pruning_of_bodies_that_are_not_listed body_transational_state_update).
  intros stateType bodies propagated facet [<- <-]%lookup_singleton_Some
    ->%list_elem_of_singleton.
  unfold bodiesToUpdate.
  destruct (decide (facet = body_transational_state_update)) as [-> |].
  - rewrite lookup_singleton_eq. simpl. by intros [=]%list_elem_of_singleton.
  - rewrite lookup_singleton_ne by done. apply not_elem_of_nil.
Defined.

(** X5 on an example input: Earth pulls on the vehicle and is not propagated
    itself; it is listed for its translational state and has an ephemeris. *)
Lemma Earth_exerts_gravity_and_has_an_ephemeris :
  createTranslationalEquationsOfMotionEnvironmentUpdaterSettings
    EarthGravityOnVehicle EarthAndVehicle
  = Ok {[ body_transational_state_update := ["Earth"%string] ]}
  ∧ "Earth"%string
      ∈ bodiesToUpdate {[ body_transational_state_update := ["Earth"%string] ]}
          body_transational_state_update
  ∧ ∃ body, EarthAndVehicle !! "Earth"%string = Some body ∧ getEphemeris body ≠ None.
Proof.
  assert (createTranslationalEquationsOfMotionEnvironmentUpdaterSettings
            EarthGravityOnVehicle EarthAndVehicle
          = Ok {[ body_transational_state_update := ["Earth"%string] ]}) as Hupdates
    by (by vm_compute).
  split; [done |].
  destruct (translational_resolver_lists_bodies_that_are_not_propagated
              EarthGravityOnVehicle EarthAndVehicle _ Hupdates
              "Vehicle"%string
              {[ "Earth"%string :=
                   [ {| getAccelerationModelType := central_gravity;
                        accelerationModelClass := AccelerationModelOfOtherClass |} ] ]}
              "Earth"%string
              [ {| getAccelerationModelType := central_gravity;
                   accelerationModelClass := AccelerationModelOfOtherClass |} ]
              {| getAccelerationModelType := central_gravity;
                 accelerationModelClass := AccelerationModelOfOtherClass |})
    as [_ Hlisted].
  - by vm_compute.
  - by vm_compute.
  - by left.
  - destruct Hlisted as [Hin Hbody]; [by vm_compute |]. split; [done |]. by apply Hbody.
Defined.

(** X7 on an example input: the vehicle has no flight conditions; saving its
    altitude over Earth gives it flight conditions. *)
Lemma altitude_of_the_vehicle_creates_its_flight_conditions :
  getFlightConditions Vehicle = None
  ∧ hasFlightConditions
      (createEnvironmentUpdaterSettingsForDependentVariables body_transational_state_update
         exampleFlightConditionsFunctions altitudeOfVehicleOverEarth EarthAndVehicle).1
      "Vehicle"%string
  ∧ checkRequiredEnvironmentUpdate
      (createEnvironmentUpdaterSettingsForDependentVariables body_transational_state_update
         exampleFlightConditionsFunctions altitudeOfVehicleOverEarth EarthAndVehicle).1
      vehicle_flight_conditions_update "Vehicle"%string
    = Ok tt.
Proof.
  split; [done |].
  apply (dependent_variable_resolver_creates_flight_conditions
           body_transational_state_update exampleFlightConditionsFunctions
           altitudeOfVehicleOverEarth EarthAndVehicle _
           (aerodynamicVariableUpdates body_transational_state_update
              altitudeOfVehicleOverEarth)).
  - by vm_compute.
  - exists ["Vehicle"%string]. by vm_compute.
Defined.

(** X11 on an example input: the rotational state that the altitude of the
    vehicle over Earth needs is that of Earth, the secondary body. *)
Lemma altitude_of_the_vehicle_names_Earth :
  "Earth"%string
    ∈ bodiesToUpdate
        (aerodynamicVariableUpdates body_transational_state_update
           altitudeOfVehicleOverEarth)
        body_rotational_state_update
  ∧ ("Earth"%string = associatedBody_ altitudeOfVehicleOverEarth
     ∨ "Earth"%string = secondaryBody_ altitudeOfVehicleOverEarth).
Proof.
  assert ("Earth"%string
            ∈ bodiesToUpdate
                (aerodynamicVariableUpdates body_transational_state_update
                   altitudeOfVehicleOverEarth)
                body_rotational_state_update) as Hin by (vm_compute; by left).
  split; [done |].
  apply (dependent_variable_updates_name_the_two_bodies_only
           body_transational_state_update altitudeOfVehicleOverEarth
           (aerodynamicVariableUpdates body_transational_state_update
              altitudeOfVehicleOverEarth)
           body_rotational_state_update "Earth"%string); [by vm_compute | done].
Defined.

(** X15 on an example input: a two-way Doppler observable from a station to
    the vehicle and back, with settings of the base class. *)
Lemma two_way_doppler_from_the_station_to_the_vehicle_and_back :
  createObservationModel example_transmitter example_receiver example_reflector1
    example_unidentified_link_end Z example_getLinkEndIndices
    StationVehicleStation (baseSettings Z two_way_doppler) EarthAndVehicle
  = Ok (TwoWayDopplerObservationModel Z
          (Some {| dopplerLightTimeCalculator :=
                     {| transmittingLinkEnd := ("Earth"%string, "Station"%string);
                        receivingLinkEnd := ("Vehicle"%string, ""%string);
                        lightTimeCorrections := [Object 7] |};
                   transmitterProperTimeRateFunction := None;
                   receiverProperTimeRateFunction := None;
                   dopplerObservationBias := None |})
          (Some {| dopplerLightTimeCalculator :=
                     {| transmittingLinkEnd := ("Vehicle"%string, ""%string);
                        receivingLinkEnd := ("Earth"%string, "Station"%string);
                        lightTimeCorrections := [Object 7] |};
                   transmitterProperTimeRateFunction := None;
                   receiverProperTimeRateFunction := None;
                   dopplerObservationBias := None |})
          None).
Proof.
  rewrite (two_way_doppler_is_made_of_two_one_way_models
             example_transmitter example_receiver example_reflector1
             example_unidentified_link_end Z example_getLinkEndIndices
             StationVehicleStation (baseSettings Z two_way_doppler) EarthAndVehicle
             ("Earth"%string, "Station"%string) ("Vehicle"%string, ""%string)
             ("Earth"%string, "Station"%string) None); try done.
Defined.

(** X16 on an example input: the constructor for four link ends and one
    correction gives the three one-way settings that the four link ends of
    the observable need. *)
Lemma n_way_range_settings_for_four_link_ends :
  createObservationModel example_transmitter example_receiver example_reflector1
    example_unidentified_link_end Z example_getLinkEndIndices
    StationVehicleMoonStation
    (new_NWayRangeObservationSettings_sameCorrections Z (Some (Object 7)) 4 None None)
    EarthAndVehicle
  = Ok (NWayRangeObservationModel Z
          [ {| transmittingLinkEnd := ("Earth"%string, "Station"%string);
               receivingLinkEnd := ("Vehicle"%string, ""%string);
               lightTimeCorrections := [Object 7] |};
            {| transmittingLinkEnd := ("Vehicle"%string, ""%string);
               receivingLinkEnd := ("Moon"%string, ""%string);
               lightTimeCorrections := [Object 7] |};
            {| transmittingLinkEnd := ("Moon"%string, ""%string);
               receivingLinkEnd := ("Earth"%string, "Station"%string);
               lightTimeCorrections := [Object 7] |} ]
          None None).
Proof.
  destruct (n_way_range_with_settings_of_the_constructor
              example_transmitter example_receiver example_reflector1
              example_unidentified_link_end Z example_getLinkEndIndices
              StationVehicleMoonStation EarthAndVehicle (Some (Object 7)) 4 None)
    as [Hmodel _].
  - vm_compute. lia.
  - apply validNWayChain_examples.
  - rewrite Hmodel by (by vm_compute). by vm_compute.
Defined.

(** X21 on an example input: a one-way Doppler observable from the vehicle to
    a station on Earth, with the proper-time rates in the gravity field of
    Earth. *)
Lemma one_way_doppler_in_the_gravity_field_of_Earth :
  createObservationModel example_transmitter example_receiver example_reflector1
    example_unidentified_link_end Z example_getLinkEndIndices
    VehicleToStation
    (new_OneWayDopplerObservationSettings Z [Object 7]
       (Some (new_DirectFirstOrderDopplerProperTimeRateSettings "Earth"))
       (Some (new_DirectFirstOrderDopplerProperTimeRateSettings "Earth")) None)
    EarthAndVehicle
  = Ok (OneWayDoppler Z
          {| dopplerLightTimeCalculator :=
               {| transmittingLinkEnd := ("Vehicle"%string, ""%string);
                  receivingLinkEnd := ("Earth"%string, "Station"%string);
                  lightTimeCorrections := [Object 7] |};
             transmitterProperTimeRateFunction :=
               Some {| computationPointLinkEndType := example_transmitter;
                       gravitationalParameterSource := pointMassGravityField;
                       referenceBody := "Earth";
                       referencePointLinkEndType := example_unidentified_link_end;
                       referenceBodyStateSource := ("Earth"%string, ""%string) |};
             receiverProperTimeRateFunction :=
               Some {| computationPointLinkEndType := example_receiver;
                       gravitationalParameterSource := pointMassGravityField;
                       referenceBody := "Earth";
                       referencePointLinkEndType := example_unidentified_link_end;
                       referenceBodyStateSource := ("Earth"%string, ""%string) |};
             dopplerObservationBias := None |}).
Proof.
  by rewrite (one_way_doppler_with_proper_time_rates
                example_transmitter example_receiver example_reflector1
                example_unidentified_link_end Z example_getLinkEndIndices
                VehicleToStation EarthAndVehicle [Object 7] "Earth" "Earth"
                ("Vehicle"%string, ""%string) ("Earth"%string, "Station"%string)
                Earth Earth pointMassGravityField pointMassGravityField).
Defined.

(** X22 on an example input: for Earth and the vehicle the call returns; it
    asks for no translational state and lists Earth once for its mass. *)
Lemma full_updates_of_Earth_and_the_vehicle :
  ∃ updates,
    createFullEnvironmentUpdaterSettings EarthAndVehicle = Ok updates
    ∧ bodiesToUpdate updates body_transational_state_update = []
    ∧ occurrences "Earth"%string (bodiesToUpdate updates body_mass_update) = 1.
Proof.
  destruct (createFullEnvironmentUpdaterSettings EarthAndVehicle) as [updates | e |]
    eqn:Hfull; [| by vm_compute in Hfull..].
  exists updates. split; [done |].
  destruct (full_updates_of_the_other_facets EarthAndVehicle updates Hfull)
    as (Htranslational & Hmass & _).
  split; [done |]. by rewrite Hmass.
Defined.

(** C6 on an example input, with [body_transational_state_update] as the value
    of [body_translational_state_update]: the Sun, which is not in the map,
    and A are translationally propagated, A is rotationally propagated too
    and B has a state of the custom type; of the bodies A, B, A the first A
    goes, and nothing else. *)
Lemma C6_first_entry_of_the_second_propagated_body_removed :
  removePropagatedStatesFomEnvironmentUpdates body_transational_state_update
    {[ body_transational_state_update := ["A"%string; "B"%string; "A"%string];
       body_mass_update := ["A"%string] ]}
    propagatedSunAndA
  = ({[ body_transational_state_update := ["B"%string; "A"%string];
        body_mass_update := ["A"%string] ]}, Ok tt).
Proof.
  destruct (C6_pruning_of_a_translationally_propagated_body body_transational_state_update
              {[ body_transational_state_update := ["A"%string; "B"%string; "A"%string];
                 body_mass_update := ["A"%string] ]}) as [Hremove _].
  destruct (Hremove ["A"%string; "B"%string; "A"%string] "A"%string "B"%string ""%string
              propagatedSunAndA [("Sun"%string, ""%string)] [])
    as (before & after & Hbodies & Hnotin & Hpruned & _).
  - reflexivity.
  - by left.
  - right. by left.
  - done.
  - reflexivity.
  - intros propagated ->%list_elem_of_singleton. simpl.
    rewrite !not_elem_of_cons. split_and!; try done. apply not_elem_of_nil.
  - intros stateType propagatedBodies propagated Hlist Hkind Hin.
    destruct stateType; try done. simpl. unfold bodiesToUpdate.
    rewrite lookup_insert_ne, lookup_singleton_ne by done. apply not_elem_of_nil.
  - rewrite Hpruned. destruct before as [|body before].
    + simpl in Hbodies. injection Hbodies as <-. by vm_compute.
    + simpl in Hbodies. injection Hbodies as <- _. destruct Hnotin. by left.
Defined.

(** C6 as stated fails: a state type outside the four known ones for which
    no body is propagated does not make the call fail, and of two bodies that
    the list names as translationally propagated both lose an entry, so that
    B does not stay. *)
Lemma C6_state_type_without_bodies_and_two_propagated_bodies :
  removePropagatedStatesFomEnvironmentUpdates body_transational_state_update
    {[ body_transational_state_update := ["A"%string; "B"%string] ]}
    {[ integrated_state_other 7 := [] ]}
  = ({[ body_transational_state_update := ["A"%string; "B"%string] ]}, Ok tt)
  ∧ removePropagatedStatesFomEnvironmentUpdates body_transational_state_update
      {[ body_transational_state_update := ["A"%string; "B"%string] ]}
      {[ translational_state := [("A"%string, ""%string); ("B"%string, ""%string)] ]}
    = ({[ body_transational_state_update := [] ]}, Ok tt).
Proof. split; by vm_compute. Defined.


